(** * Booking time-resolution engine: Eastern/UTC conversion and booking matching

    Shallow embedding of [app/lib/time_utils.py] and of the Cal.com tools of
    [app/lib/calcom_tools.py], with the properties of the specification
    stated and settled over it.

    Definitions:
    - [PyDatetime]: the part of Python's [datetime] the code relies on
      (proleptic Gregorian ordinals, naive date-times, range checks);
    - [exn], [result]: exceptions as values;
    - [Pytz]: the [America/New_York] zone with pytz's [localize] and
      [fromutc];
    - [PyStr]: the string methods the code calls and [strftime];
    - [TimeUtils]: [time_utils.py], over the two library parsers
      [strptime] and [fromisoformat];
    - [CalcomTools]: the tools of [calcom_tools.py] in a monad of
      exceptions and client calls;
    - [Reference], [Scenario]: concrete parsers and data for the examples.

    Theorems:
    - [CalendarFacts], [ZoneFacts]: calendar arithmetic and the zone;
    - [TimeUtilsSpec]: conversions, parsing, fallback;
    - [BookingSpec]: the search of a booking by date and time;
    - [ToolSpec]: outcomes of the tools and calls they make;
    - [StringFacts], [DisplaySpec], [ToolCalls], [ClientSpec],
      [GuestSpec]: the display of times, the calls of each tool, the
      client and the guests;
    - [ResultFacts], [TextFacts]: the text of an instant, written by
      [strftime] and read back;
    - [RoundTripSpec], [OffsetSpec], [WindowSpec]: the round trip through
      the two conversion functions, the offsets of January and July, and
      the window of thirty minutes around the target. *)

From Stdlib Require Import ZArith List String Ascii Bool Lia.
Import ListNotations.

Open Scope Z_scope.

(* ================================================================== *)
(** ** Python's [datetime]: calendar arithmetic *)
(* ================================================================== *)

Module PyDatetime.

(** A naive [datetime] at second precision: the fields [strptime] fills in.
    Microseconds are left out: no format used here prints them and no
    comparison reads them. *)
Record datetime : Type := mkdt {
  year : Z; month : Z; day : Z;
  hour : Z; minute : Z; second : Z
}.

Definition MINYEAR : Z := 1.
Definition MAXYEAR : Z := 9999.

(** [_is_leap] *)
Definition is_leap (y : Z) : bool :=
  (y mod 4 =? 0) && (negb (y mod 100 =? 0) || (y mod 400 =? 0)).

(** [_days_before_year]: days before January 1st of year [y]. *)
Definition days_before_year (y : Z) : Z :=
  let y1 := y - 1 in y1 * 365 + y1 / 4 - y1 / 100 + y1 / 400.

(** [_DAYS_IN_MONTH] *)
Definition DAYS_IN_MONTH (m : Z) : Z :=
  match m with
  | 2 => 28
  | 4 | 6 | 9 | 11 => 30
  | _ => 31
  end.

(** [_days_in_month] *)
Definition days_in_month (y m : Z) : Z :=
  if (m =? 2) && is_leap y then 29 else DAYS_IN_MONTH m.

(** [_DAYS_BEFORE_MONTH], for a common year. *)
Definition DAYS_BEFORE_MONTH (m : Z) : Z :=
  match m with
  | 1 => 0 | 2 => 31 | 3 => 59 | 4 => 90 | 5 => 120 | 6 => 151
  | 7 => 181 | 8 => 212 | 9 => 243 | 10 => 273 | 11 => 304 | 12 => 334
  | _ => 365
  end.

(** [_days_before_month] *)
Definition days_before_month (y m : Z) : Z :=
  DAYS_BEFORE_MONTH m + (if (m >? 2) && is_leap y then 1 else 0).

(** [_ymd2ord]: January 1st of year 1 is day 1. *)
Definition ymd2ord (y m d : Z) : Z :=
  days_before_year y + days_before_month y m + d.

Definition DI400Y : Z := 146097.
Definition DI100Y : Z := 36524.
Definition DI4Y : Z := 1461.

(** The tail of [_ord2ymd]: month and day of the zero-based day [n] of a
    year; the estimate [(n + 50) >> 5] is at most one month too large. *)
Definition month_day_of (leapyear : bool) (n : Z) : Z * Z :=
  let month := Z.shiftr (n + 50) 5 in
  let preceding :=
    DAYS_BEFORE_MONTH month + (if (month >? 2) && leapyear then 1 else 0) in
  if preceding >? n then
    let month' := month - 1 in
    let preceding' :=
      preceding
      - (DAYS_IN_MONTH month' + (if (month' =? 2) && leapyear then 1 else 0)) in
    (month', n - preceding' + 1)
  else (month, n - preceding + 1).

(** [_ord2ymd], with the 400/100/4/1-year cycle decomposition of CPython. *)
Definition ord2ymd (n : Z) : Z * Z * Z :=
  let n0 := n - 1 in
  let n400 := n0 / DI400Y in
  let r400 := n0 mod DI400Y in
  let n100 := r400 / DI100Y in
  let r100 := r400 mod DI100Y in
  let n4 := r100 / DI4Y in
  let r4 := r100 mod DI4Y in
  let n1 := r4 / 365 in
  let r1 := r4 mod 365 in
  let y := n400 * 400 + 1 + n100 * 100 + n4 * 4 + n1 in
  if (n1 =? 4) || (n100 =? 4) then (y - 1, 12, 31)
  else
    let leapyear := (n1 =? 3) && (negb (n4 =? 24) || (n100 =? 3)) in
    let '(m, d) := month_day_of leapyear r1 in
    (y, m, d).

Definition valid_date (y m d : Z) : bool :=
  (MINYEAR <=? y) && (y <=? MAXYEAR) &&
  (1 <=? m) && (m <=? 12) &&
  (1 <=? d) && (d <=? days_in_month y m).

Definition valid_time (h mi s : Z) : bool :=
  (0 <=? h) && (h <? 24) && (0 <=? mi) && (mi <? 60) &&
  (0 <=? s) && (s <? 60).

(** What the [datetime] constructor accepts. *)
Definition valid (dt : datetime) : bool :=
  valid_date (year dt) (month dt) (day dt) &&
  valid_time (hour dt) (minute dt) (second dt).

(** Seconds elapsed since 0001-01-01T00:00:00 on the naive clock of [dt];
    the difference [dt - datetime.min] in seconds. *)
Definition to_seconds (dt : datetime) : Z :=
  (ymd2ord (year dt) (month dt) (day dt) - 1) * 86400
  + hour dt * 3600 + minute dt * 60 + second dt.

Definition of_seconds (t : Z) : datetime :=
  let '(y, m, d) := ord2ymd (t / 86400 + 1) in
  let r := t mod 86400 in
  mkdt y m d (r / 3600) ((r / 60) mod 60) (r mod 60).

(** One past the last representable second, 9999-12-31T23:59:59. *)
Definition MAX_SECONDS : Z := days_before_year (MAXYEAR + 1) * 86400.

Definition in_range (t : Z) : bool := (0 <=? t) && (t <? MAX_SECONDS).

(** [date.weekday()]: Monday is 0, Sunday is 6. *)
Definition weekday (y m d : Z) : Z := (ymd2ord y m d + 6) mod 7.

(** [datetime.date()] compared with [==]. *)
Definition date_eqb (a b : datetime) : bool :=
  (year a =? year b) && (month a =? month b) && (day a =? day b).

Definition datetime_eqb (a b : datetime) : bool :=
  date_eqb a b && (hour a =? hour b) && (minute a =? minute b)
  && (second a =? second b).

(** [dt + timedelta(hours=k)], within the representable range. *)
Definition plus_hours (dt : datetime) (k : Z) : datetime :=
  of_seconds (to_seconds dt + k * 3600).

(** A bounded universal quantifier, for the checks done by computation. *)
Fixpoint forall_range (f : Z -> bool) (lo : Z) (n : nat) : bool :=
  match n with
  | O => true
  | S k => f lo && forall_range f (lo + 1) k
  end.

(** The property of [month_day_of] checked over the days of a year. *)
Definition month_day_ok (leapyear : bool) (n : Z) : bool :=
  let '(m, d) := month_day_of leapyear n in
  (1 <=? m) && (m <=? 12) && (1 <=? d)
  && (d <=? DAYS_IN_MONTH m + (if (m =? 2) && leapyear then 1 else 0))
  && (DAYS_BEFORE_MONTH m + (if (m >? 2) && leapyear then 1 else 0) + d
      =? n + 1).

End PyDatetime.

(* ================================================================== *)
(** ** Exceptions *)
(* ================================================================== *)

(** The subclasses of [Exception] that occur on the paths studied; each
    carries the text [str(e)] renders. [ClientError] stands for whatever
    the scheduling client raises ([Exception], [httpx] errors). *)
Inductive exn : Type :=
| ValueError (msg : string)
| OverflowError (msg : string)
| AttributeError (msg : string)
| RecursionError (msg : string)
| ClientError (msg : string).

Definition exn_str (e : exn) : string :=
  match e with
  | ValueError m | OverflowError m | AttributeError m
  | RecursionError m | ClientError m => m
  end.

(** [isinstance(e, ValueError)] *)
Definition is_ValueError (e : exn) : bool :=
  match e with ValueError _ => true | _ => false end.

Inductive result (A : Type) : Type :=
| Ok (a : A)
| Raise (e : exn).
Arguments Ok {A} a.
Arguments Raise {A} e.

Definition rbind {A B} (r : result A) (k : A -> result B) : result B :=
  match r with
  | Ok a => k a
  | Raise e => Raise e
  end.

Declare Scope result_scope.
Delimit Scope result_scope with res.
Notation "x <- c ;; k" := (rbind c (fun x => k))
  (at level 61, c at next level, right associativity) : result_scope.

(* ================================================================== *)
(** ** pytz: the Eastern zone *)
(* ================================================================== *)

Module Pytz.
Import PyDatetime.
Local Open Scope result_scope.

(** The [tzinfo] attached to an aware value: a fixed offset in seconds east
    of UTC ([pytz.UTC], [datetime.timezone]), or one of the two
    [America/New_York] instances pytz attaches (standard or daylight). *)
Inductive tzinfo : Type :=
| Fixed (offset : Z)
| Eastern (dst : bool).

Definition UTC : tzinfo := Fixed 0.

(** [tzinfo.utcoffset]: EST is five hours behind UTC, EDT four. *)
Definition utcoffset (tz : tzinfo) : Z :=
  match tz with
  | Fixed o => o
  | Eastern false => - (5 * 3600)
  | Eastern true => - (4 * 3600)
  end.

(** [tzinfo._dst] is non-zero *)
Definition tz_dst (tz : tzinfo) : bool :=
  match tz with Eastern d => d | Fixed _ => false end.

Definition tzinfo_eqb (a b : tzinfo) : bool :=
  match a, b with
  | Fixed x, Fixed y => x =? y
  | Eastern x, Eastern y => Bool.eqb x y
  | _, _ => false
  end.

(** An aware [datetime]: wall-clock fields and the attached zone. *)
Record aware : Type := mkaware { wall : datetime; tz : tzinfo }.

(** [dt + timedelta(seconds=k)] on the naive clock; out of
    [datetime.min .. datetime.max] it raises [OverflowError]. *)
Definition add_seconds (dt : datetime) (k : Z) : result datetime :=
  let t := to_seconds dt + k in
  if in_range t then Ok (of_seconds t)
  else Raise (OverflowError "date value out of range").

(** The first Sunday at or after ordinal [n] (ordinals divisible by 7 are
    Sundays, see [weekday]). *)
Definition sunday_on_or_after (n : Z) : Z := n + (- n) mod 7.

(** Modelled from the spec: the transition table of [America/New_York]
    that pytz loads from the tz database is not part of the repository.
    It is taken to be the United States rule the specification names:
    daylight time starts on the second Sunday of March and ends on the
    first Sunday of November, at 02:00 local time, that is 07:00 UTC
    (02:00 EST) and 06:00 UTC (02:00 EDT); EST is UTC-5 and EDT is UTC-4. *)
Definition dst_start_utc (y : Z) : Z :=
  (sunday_on_or_after (ymd2ord y 3 8) - 1) * 86400 + 7 * 3600.

(** Modelled from the spec: the end of daylight time, on the first Sunday
    of November at 06:00 UTC, from the same rule. *)
Definition dst_end_utc (y : Z) : Z :=
  (sunday_on_or_after (ymd2ord y 11 1) - 1) * 86400 + 6 * 3600.

(** The zone in force at the naive UTC clock value [u] (in seconds): what
    the [bisect_right] over [_utc_transition_times] selects. *)
Definition tzinfo_at (u : Z) : tzinfo :=
  let y := year (of_seconds u) in
  Eastern ((dst_start_utc y <=? u) && (u <? dst_end_utc y)).

(** [EASTERN_TZ.fromutc(dt)] on a naive UTC clock value. *)
Definition fromutc (u : datetime) : result aware :=
  let inf := tzinfo_at (to_seconds u) in
  w <- add_seconds u (utcoffset inf) ;;
  Ok (mkaware w inf).

(** [EASTERN_TZ.normalize(dt)] *)
Definition normalize (a : aware) : result aware :=
  u <- add_seconds (wall a) (- utcoffset (tz a)) ;;
  fromutc u.

(** One pass of the loop of [localize] over
    [delta in (timedelta(days=-1), timedelta(days=1))]. *)
Definition localize_candidate (dt : datetime) (delta : Z)
  : result (option aware) :=
  loc_dt <- add_seconds dt delta ;;
  let inf := tzinfo_at (to_seconds loc_dt) in
  n <- normalize (mkaware dt inf) ;;
  Ok (if datetime_eqb (wall n) dt then Some n else None).

(** Naive UTC clock of an aware value, in seconds. *)
Definition utc_seconds (a : aware) : Z :=
  to_seconds (wall a) - utcoffset (tz a).

(** [EASTERN_TZ.localize(dt, is_dst=False)].  The set [possible_loc_dt]
    holds at most two values, equal as aware values exactly when their
    zones agree.  A wall-clock time that never happened is handled by the
    recursive call on [dt - 6h]; [fuel] bounds that recursion. *)
Fixpoint localize_fuel (fuel : nat) (dt : datetime) : result aware :=
  c1 <- localize_candidate dt (- 86400) ;;
  c2 <- localize_candidate dt 86400 ;;
  match c1, c2 with
  | Some a, None | None, Some a => Ok a
  | Some a, Some b =>
      if tzinfo_eqb (tz a) (tz b) then Ok a
      else
        (* ambiguous: keep the candidates whose dst flag is False *)
        match negb (tz_dst (tz a)), negb (tz_dst (tz b)) with
        | true, false => Ok a
        | false, true => Ok b
        | _, _ =>
            (* same flag on both: the latest by UTC *)
            if utc_seconds a <? utc_seconds b then Ok b else Ok a
        end
  | None, None =>
      match fuel with
      | O => Raise (RecursionError "maximum recursion depth exceeded")
      | S fuel' =>
          back <- add_seconds dt (- (6 * 3600)) ;;
          a <- localize_fuel fuel' back ;;
          w <- add_seconds (wall a) (6 * 3600) ;;
          Ok (mkaware w (tz a))
      end
  end.

Definition localize (dt : datetime) : result aware := localize_fuel 2 dt.

(** [a.astimezone(pytz.UTC)] *)
Definition astimezone_utc (a : aware) : result aware :=
  u <- add_seconds (wall a) (- utcoffset (tz a)) ;;
  Ok (mkaware u UTC).

(** [a.astimezone(EASTERN_TZ)] *)
Definition astimezone_eastern (a : aware) : result aware :=
  u <- add_seconds (wall a) (- utcoffset (tz a)) ;;
  fromutc u.

(** A wall-clock time inside the hour skipped when daylight time starts:
    02:00:00 to 02:59:59 on the second Sunday of March. *)
Definition in_spring_gap (dt : datetime) : bool :=
  (month dt =? 3) && (hour dt =? 2) &&
  (ymd2ord (year dt) 3 (day dt) =? sunday_on_or_after (ymd2ord (year dt) 3 8)).

(** Daylight time is in force at the UTC clock value [u], by the
    transitions of year [y]. *)
Definition dst_between (y u : Z) : bool :=
  (dst_start_utc y <=? u) && (u <? dst_end_utc y).

(** The zone [localize] attaches to a wall-clock value: daylight time from
    03:00 on the day it starts up to 01:00 on the day it ends, standard
    time otherwise, which covers the repeated hour and the skipped one. *)
Definition wall_is_dst (dt : datetime) : bool :=
  (dst_start_utc (year dt) - 14400 <=? to_seconds dt)
  && (to_seconds dt <? dst_end_utc (year dt) - 18000).

End Pytz.

(* ================================================================== *)
(** ** Python string methods and [strftime] *)
(* ================================================================== *)

Module PyStr.
Import PyDatetime.
Local Open Scope string_scope.
Local Open Scope Z_scope.

(** [c.isspace()] on the ASCII range. *)
Definition isspace (c : ascii) : bool :=
  let n := nat_of_ascii c in
  (Nat.leb 9 n && Nat.leb n 13) || (Nat.leb 28 n && Nat.leb n 32).

Fixpoint lstrip (s : string) : string :=
  match s with
  | String c s' => if isspace c then lstrip s' else s
  | EmptyString => EmptyString
  end.

Fixpoint rstrip (s : string) : string :=
  match s with
  | EmptyString => EmptyString
  | String c s' =>
      match rstrip s' with
      | EmptyString => if isspace c then EmptyString else String c EmptyString
      | r => String c r
      end
  end.

(** [s.strip()] *)
Definition strip (s : string) : string := rstrip (lstrip s).

(** [s.startswith(p)] *)
Fixpoint startswith (p s : string) : bool :=
  match p, s with
  | EmptyString, _ => true
  | String a p', String b s' => Ascii.eqb a b && startswith p' s'
  | String _ _, EmptyString => false
  end.

(** [p in s] for strings *)
Fixpoint contains (p s : string) : bool :=
  startswith p s ||
  match s with
  | EmptyString => false
  | String _ s' => contains p s'
  end.

(** [s.endswith("Z")] and [s[:-1]] *)
Fixpoint endswith_char (c : ascii) (s : string) : bool :=
  match s with
  | EmptyString => false
  | String a EmptyString => Ascii.eqb a c
  | String _ s' => endswith_char c s'
  end.

Fixpoint drop_last (s : string) : string :=
  match s with
  | EmptyString => EmptyString
  | String _ EmptyString => EmptyString
  | String a s' => String a (drop_last s')
  end.

(** [s.count(c)] for a one-character [c] *)
Fixpoint count_char (c : ascii) (s : string) : Z :=
  match s with
  | EmptyString => 0
  | String a s' => (if Ascii.eqb a c then 1 else 0) + count_char c s'
  end.

(** [s.replace(old, new)] for a non-empty [old]: occurrences are replaced
    from the left and do not overlap; [skip] counts the characters of a
    matched occurrence still to be passed over. *)
Fixpoint replace_from (old new : string) (skip : nat) (s : string) : string :=
  match s with
  | EmptyString => EmptyString
  | String c s' =>
      match skip with
      | S k => replace_from old new k s'
      | O =>
          if startswith old s
          then new ++ replace_from old new (Nat.pred (String.length old)) s'
          else String c (replace_from old new O s')
      end
  end.

Definition replace (old new s : string) : string := replace_from old new O s.

(** [s.lower()] on the ASCII range. *)
Definition lower_char (c : ascii) : ascii :=
  let n := nat_of_ascii c in
  if Nat.leb 65 n && Nat.leb n 90 then ascii_of_nat (n + 32)%nat else c.

Fixpoint lower (s : string) : string :=
  match s with
  | EmptyString => EmptyString
  | String c s' => String (lower_char c) (lower s')
  end.

(** [sep.join(parts)] *)
Fixpoint join (sep : string) (parts : list string) : string :=
  match parts with
  | [] => ""
  | [p] => p
  | p :: rest => p ++ sep ++ join sep rest
  end.

Definition digit (n : Z) : ascii :=
  ascii_of_nat (48 + Z.to_nat (n mod 10))%nat.

(** Zero-padded decimal fields of [strftime]: [%m %d %H %M %S] on two
    digits; [pad4] gives the four digits of a year from 1000 on. *)
Definition pad2 (n : Z) : string :=
  String (digit (n / 10)) (String (digit n) "").

Definition pad4 (n : Z) : string :=
  String (digit (n / 1000)) (String (digit (n / 100))
    (String (digit (n / 10)) (String (digit n) ""))).

(** [str(n)] for a natural number. *)
Fixpoint decimal_fuel (fuel : nat) (n : Z) (acc : string) : string :=
  match fuel with
  | O => acc
  | S f =>
      let acc' := String (digit n) acc in
      if n <? 10 then acc' else decimal_fuel f (n / 10) acc'
  end.

Definition str_of_nat (n : nat) : string :=
  decimal_fuel (S n) (Z.of_nat n) "".

(** [%Y]: the C library prints the year as a plain decimal number, not
    padded, so that a year below 1000 comes out on fewer than four
    digits. *)
Definition year_text (y : Z) : string :=
  if y <? 1000 then str_of_nat (Z.to_nat y) else pad4 y.

(** [%A] *)
Definition weekday_name (w : Z) : string :=
  match w with
  | 0 => "Monday" | 1 => "Tuesday" | 2 => "Wednesday" | 3 => "Thursday"
  | 4 => "Friday" | 5 => "Saturday" | _ => "Sunday"
  end.

(** [%B] *)
Definition month_name (m : Z) : string :=
  match m with
  | 1 => "January" | 2 => "February" | 3 => "March" | 4 => "April"
  | 5 => "May" | 6 => "June" | 7 => "July" | 8 => "August"
  | 9 => "September" | 10 => "October" | 11 => "November"
  | _ => "December"
  end.

(** [%I]: the hour on the 12-hour clock. *)
Definition hour12 (h : Z) : Z :=
  let r := h mod 12 in if r =? 0 then 12 else r.

(** [%p] *)
Definition am_pm (h : Z) : string := if h <? 12 then "AM" else "PM".

(** [dt.strftime("%Y-%m-%dT%H:%M:%SZ")] *)
Definition strftime_iso_z (dt : datetime) : string :=
  year_text (year dt) ++ "-" ++ pad2 (month dt) ++ "-" ++ pad2 (day dt)
  ++ "T" ++ pad2 (hour dt) ++ ":" ++ pad2 (minute dt) ++ ":"
  ++ pad2 (second dt) ++ "Z".

(** [dt.strftime("%A, %B %d, %Y at %I:%M %p Eastern Time")] *)
Definition strftime_eastern (dt : datetime) : string :=
  weekday_name (weekday (year dt) (month dt) (day dt)) ++ ", "
  ++ month_name (month dt) ++ " " ++ pad2 (day dt) ++ ", "
  ++ year_text (year dt) ++ " at " ++ pad2 (hour12 (hour dt)) ++ ":"
  ++ pad2 (minute dt) ++ " " ++ am_pm (hour dt) ++ " Eastern Time".

Definition isdigit (c : ascii) : bool :=
  let n := nat_of_ascii c in Nat.leb 48 n && Nat.leb n 57.




End PyStr.

(* ================================================================== *)
(** ** [app/lib/time_utils.py] *)
(* ================================================================== *)

Module TimeUtils.
Import PyDatetime Pytz PyStr.
Local Open Scope string_scope.
Local Open Scope Z_scope.
Local Open Scope result_scope.

(** A Python [datetime] value: naive when [tzinfo_of] is [None]. *)
Record pydatetime : Type := mkpy {
  fields : datetime;
  tzinfo_of : option tzinfo
}.

Definition naive (dt : datetime) : pydatetime := mkpy dt None.
Definition of_aware (a : aware) : pydatetime := mkpy (wall a) (Some (tz a)).

Section Library.

(** The two parsers of the standard library are parameters of the
    development: [strptime time_str fmt] and [fromisoformat s] return
    [None] where Python raises [ValueError]. *)
Variable strptime : string -> string -> option datetime.
Variable fromisoformat : string -> option pydatetime.

(** [get_current_eastern_time]: [datetime.now(EASTERN_TZ)], for the naive
    UTC reading [now_utc] of the clock. *)
Definition get_current_eastern_time (now_utc : datetime) : result aware :=
  fromutc now_utc.

(** [format_eastern_time].  The test [dt.tzinfo != EASTERN_TZ] succeeds on
    every aware value: pytz attaches its per-offset instances, never the
    zone object itself, so the second branch converts through UTC. *)
Definition format_eastern_time (dt : pydatetime) : result string :=
  a <- match tzinfo_of dt with
       | None => localize (fields dt)
       | Some z => astimezone_eastern (mkaware (fields dt) z)
       end ;;
  Ok (strftime_eastern (wall a)).

(** The rewriting of the argument at the head of [convert_utc_to_eastern]
    (lines 26-30); the variable [utc_iso_str] is reassigned. *)
Definition normalize_utc_suffix (utc_iso_str : string) : string :=
  if endswith_char "Z" utc_iso_str
  then drop_last utc_iso_str ++ "+00:00"
  else if negb (contains "+" utc_iso_str)
          && (3 <=? count_char "-" utc_iso_str)
  then utc_iso_str ++ "+00:00"
  else utc_iso_str.

(** [fromisoformat] as a [result]. *)
Definition parse_iso (s : string) : result pydatetime :=
  match fromisoformat s with
  | Some d => Ok d
  | None => Raise (ValueError ("Invalid isoformat string: '" ++ s ++ "'"))
  end.

(** Lines 33-39: the parsed value made UTC, then taken to Eastern time. *)
Definition to_eastern (d : pydatetime) : result aware :=
  dt_utc <- match tzinfo_of d with
            | None => Ok (mkaware (fields d) UTC)
            | Some z => astimezone_utc (mkaware (fields d) z)
            end ;;
  astimezone_eastern dt_utc.

(** The body of the [try] of [convert_utc_to_eastern], on the rewritten
    string. *)
Definition utc_to_eastern_body (utc_iso_str : string) : result string :=
  d <- parse_iso (replace "Z" "+00:00" utc_iso_str) ;;
  dt_eastern <- to_eastern d ;;
  format_eastern_time (of_aware dt_eastern).

(** Lines 26-39 of [convert_utc_to_eastern]: the value [dt_eastern]
    computed from the argument, before it is formatted. *)
Definition dt_eastern (utc_iso_str : string) : result aware :=
  d <- parse_iso (replace "Z" "+00:00" (normalize_utc_suffix utc_iso_str)) ;;
  to_eastern d.

(** [convert_utc_to_eastern]: on any exception the current value of
    [utc_iso_str] is returned. *)
Definition convert_utc_to_eastern (utc_iso_str : string) : string :=
  let utc_iso_str := normalize_utc_suffix utc_iso_str in
  match utc_to_eastern_body utc_iso_str with
  | Ok s => s
  | Raise _ => utc_iso_str
  end.

(** The list [formats] of [convert_to_utc_iso], in its order. *)
Definition formats : list string :=
  [ "%Y-%m-%d %H:%M:%S"; "%Y-%m-%d %H:%M"; "%Y-%m-%dT%H:%M:%S";
    "%Y-%m-%dT%H:%M"; "%m/%d/%Y %H:%M"; "%m/%d/%Y %I:%M %p";
    "%m/%d/%Y %I:%M:%S %p"; "%B %d, %Y %I:%M %p";
    "%B %d, %Y %I:%M:%S %p"; "%b %d, %Y %I:%M %p";
    "%b %d, %Y %I:%M:%S %p"; "%Y-%m-%d %I:%M %p";
    "%Y-%m-%d %I:%M:%S %p" ].

(** The loop [for fmt in formats]: the first format that parses wins. *)
Fixpoint try_formats (time_str : string) (fmts : list string)
  : option datetime :=
  match fmts with
  | [] => None
  | fmt :: rest =>
      match strptime time_str fmt with
      | Some dt => Some dt
      | None => try_formats time_str rest
      end
  end.

(** Lines 55-74: the parsing stage of [convert_to_utc_iso]. *)
Definition parse_local_datetime (eastern_time_str : string)
  : result datetime :=
  let time_str := strip eastern_time_str in
  match try_formats time_str formats with
  | Some dt => Ok dt
  | None =>
      Raise (ValueError ("Could not parse time string: " ++ eastern_time_str))
  end.

(** Lines 76-81: none of the formats carries a zone, so [dt] is naive and
    is localized; the result is then taken to UTC. *)
Definition to_utc (dt : datetime) : result aware :=
  a <- localize dt ;;
  astimezone_utc a.

(** Lines 76-82: the conversion stage, from the parsed value to the
    string returned. *)
Definition utc_iso_of_local (dt : datetime) : result string :=
  dt_utc <- to_utc dt ;;
  Ok (strftime_iso_z (wall dt_utc)).

(** [convert_to_utc_iso]; the handler logs and re-raises. *)
Definition convert_to_utc_iso (eastern_time_str : string) : result string :=
  dt <- parse_local_datetime eastern_time_str ;;
  utc_iso_of_local dt.

End Library.

End TimeUtils.

(* ================================================================== *)
(** ** [app/lib/calcom_tools.py] *)
(* ================================================================== *)

Module CalcomTools.
Import PyDatetime Pytz PyStr TimeUtils.
Local Open Scope string_scope.
Local Open Scope Z_scope.

(** *** Data *)

(** A booking object of the Cal.com API, with the keys the tools read.  A
    field is [None] when the key is absent, so that [dict.get] yields its
    default; present values are strings, as the API documents them.
    [b_eventType_title] is [booking['eventType']['title']] and
    [b_attendees] lists the ['name'] entry of each attendee. *)
Record booking : Type := mkbooking {
  b_uid : option string;
  b_start : option string;
  b_startTime : option string;
  b_status : option string;
  b_title : option string;
  b_eventType_title : option string;
  b_attendees : list (option string);
  b_cancellationReason : option string
}.

(** What a client method hands back: a dict, or some other JSON value of
    which only [str(result)] is used. *)
Inductive response : Type :=
| RDict (b : booking)
| ROther (repr : string).

(** The calls the tools make on the scheduling client. *)
Inductive call : Type :=
| GetAllBookings (take : Z) (status email : string)
| GetBooking (booking_uid : string)
| CreateBooking (event_type_id : Z)
    (start_time attendee_name attendee_email : string) (notes : option string)
| RescheduleBooking (booking_uid new_start_time : string)
    (reason : option string)
| CancelBooking (booking_uid : string) (reason : option string).

(** The operations that change the state of the scheduling service. *)
Definition is_mutating (c : call) : bool :=
  match c with
  | GetAllBookings _ _ _ | GetBooking _ => false
  | _ => true
  end.

Definition trace : Type := list call.

(** The scheduling client: each answer may depend on the calls made so
    far; a [Raise] is an exception leaving the method. *)
Record CalComClient : Type := mkclient {
  get_all_bookings_response :
    trace -> Z -> string -> string -> result (list booking);
  get_booking_response : trace -> string -> result response;
  create_booking_response :
    trace -> Z -> string -> string -> string -> option string
    -> result response;
  reschedule_booking_response :
    trace -> string -> string -> option string -> result response;
  cancel_booking_response :
    trace -> string -> option string -> result response
}.

(** What [create_calcom_tools] closes over, the module-level
    [_email_state], and the clock.  [conversation_notes] is the value of
    [notes] the meeting tools compute from the agent's chat context inside
    their own [try]; [agent_user_email] is [agent_instance.user_email]
    when there is an agent with that attribute; [now_utc] is the instant
    [datetime.now] reads. *)
Record environment : Type := mkenv {
  default_email : string;
  email_state : option string;
  agent_user_email : option string;
  conversation_notes : option string;
  now_utc : datetime
}.

Definition CONNECT_MEETING_EVENT_TYPE_ID : Z := 4145759.
Definition DISCOVER_MEETING_EVENT_TYPE_ID : Z := 4145757.

(** *** Exceptions and client calls as a monad *)

Definition M (A : Type) : Type := trace -> result A * trace.

Definition ret {A} (a : A) : M A := fun tr => (Ok a, tr).

Definition bind {A B} (m : M A) (k : A -> M B) : M B :=
  fun tr =>
    match m tr with
    | (Ok a, tr') => k a tr'
    | (Raise e, tr') => (Raise e, tr')
    end.

Definition lift {A} (r : result A) : M A := fun tr => (r, tr).

(** [try: m  except Exception as e: h e] *)
Definition try_except {A} (m : M A) (h : exn -> M A) : M A :=
  fun tr =>
    match m tr with
    | (Ok a, tr') => (Ok a, tr')
    | (Raise e, tr') => h e tr'
    end.

(** [await calcom_client.<method>(...)] *)
Definition perform {A} (c : call) (answer : trace -> result A) : M A :=
  fun tr => (answer tr, (tr ++ [c])%list).

Declare Scope tool_scope.
Delimit Scope tool_scope with tool.
Notation "x <- c ;; k" := (bind c (fun x => k))
  (at level 61, c at next level, right associativity) : tool_scope.

(** Truth value of an optional string: [None] and [""] are false. *)
Definition truthy (o : option string) : bool :=
  match o with
  | Some s => negb (String.eqb s "")
  | None => false
  end.

(** [d.get(key, default)] *)
Definition get_default (o : option string) (default : string) : string :=
  match o with Some s => s | None => default end.

Section Tools.

Variable strptime : string -> string -> option datetime.
Variable fromisoformat : string -> option pydatetime.
Variable calcom_client : CalComClient.
Variable env : environment.

(** [format_eastern_time(get_current_eastern_time())] *)
Definition current_time_text : result string :=
  rbind (get_current_eastern_time (now_utc env))
        (fun a => format_eastern_time (of_aware a)).

(** The e-mail used to search bookings (lines 257-261, 357-361). *)
Definition search_email : option string :=
  let filter_email := email_state env in
  let filter_email :=
    if negb (truthy filter_email) then
      match agent_user_email env with
      | Some user_email => Some user_email
      | None => filter_email
      end
    else filter_email in
  if negb (truthy filter_email) then Some (default_email env)
  else filter_email.

(** *** Resolution of a booking by date and time *)

(** Lines 380-388 (and 274-282): the user's text goes through
    [convert_to_utc_iso], the UTC string is parsed again and taken back to
    Eastern time; the wall-clock fields are the target. *)
Definition resolve_target (date_time_eastern : string) : result datetime :=
  rbind (convert_to_utc_iso strptime date_time_eastern)
    (fun target_time_utc_str =>
  rbind (parse_iso fromisoformat (replace "Z" "+00:00" target_time_utc_str))
    (fun d =>
  let target_dt_utc :=
    match tzinfo_of d with
    | None => mkaware (fields d) UTC
    | Some z => mkaware (fields d) z
    end in
  rbind (astimezone_eastern target_dt_utc) (fun target_dt_eastern =>
  Ok (wall target_dt_eastern)))).

(** Lines 401-404 (and 295-298): a booking's start in Eastern time. *)
Definition booking_eastern (start_utc : string) : result datetime :=
  rbind (parse_iso fromisoformat
           (replace ".000" "" (replace "Z" "+00:00" start_utc)))
    (fun d =>
  let booking_dt_utc :=
    match tzinfo_of d with
    | None => mkaware (fields d) UTC
    | Some z => mkaware (fields d) z
    end in
  rbind (astimezone_eastern booking_dt_utc) (fun e => Ok (wall e))).

(** [abs((booking_hour*60 + booking_minute) - (target_hour*60 + target_minute))] *)
Definition time_diff (booking_dt target : datetime) : Z :=
  Z.abs ((hour booking_dt * 60 + minute booking_dt)
         - (hour target * 60 + minute target)).

Definition is_cancelled (b : booking) : bool :=
  String.eqb (lower (get_default (b_status b) "")) "cancelled".

(** What one iteration of the loop appends for booking [b]: the pair
    [(booking, time_diff)] or nothing. *)
Definition match_one (target : datetime) (b : booking)
  : option (booking * Z) :=
  if is_cancelled b then None
  else
    let start_utc := get_default (b_start b) "" in
    if negb (String.eqb start_utc "") then
      match booking_eastern start_utc with
      | Ok booking_dt =>
          if date_eqb booking_dt target then
            let d := time_diff booking_dt target in
            if d <=? 30 then Some (b, d) else None
          else None
      | Raise _ => None
      end
    else None.

(** The loop of lines 393-419 of [cancel_booking], repeated as lines
    287-312 of [reschedule_booking]: the list [matching_bookings]. *)
Fixpoint matching_bookings (target : datetime) (bookings : list booking)
  : list (booking * Z) :=
  match bookings with
  | [] => []
  | b :: rest =>
      match match_one target b with
      | Some m => m :: matching_bookings target rest
      | None => matching_bookings target rest
      end
  end.

(** [list.sort(key=lambda x: x[1])]: a stable sort on the second
    component, as an insertion sort that keeps equal keys in order. *)
Fixpoint insert_by_diff (x : booking * Z) (l : list (booking * Z))
  : list (booking * Z) :=
  match l with
  | [] => [x]
  | y :: l' => if snd x <=? snd y then x :: l else y :: insert_by_diff x l'
  end.

Definition sort_by_diff (l : list (booking * Z)) : list (booking * Z) :=
  fold_right insert_by_diff [] l.

(** The first element of least difference, which the sort brings to the
    front. *)
Fixpoint first_min (l : list (booking * Z)) : option (booking * Z) :=
  match l with
  | [] => None
  | x :: l' =>
      match first_min l' with
      | None => Some x
      | Some y => if snd x <=? snd y then Some x else Some y
      end
  end.

(** [matching_bookings[0][0]] after the sort: the booking resolved for
    [target], if any. *)
Definition best_match (target : datetime) (bookings : list booking)
  : option (booking * Z) :=
  hd_error (sort_by_diff (matching_bookings target bookings)).

(** *** The tools *)

Local Open Scope tool_scope.

(** The display of a start time: [convert_utc_to_eastern] when the string
    is non-empty, ['Unknown time'] otherwise. *)
Definition display_start (start_utc : string) : string :=
  if negb (String.eqb start_utc "")
  then convert_utc_to_eastern fromisoformat start_utc
  else "Unknown time".

(** Lines 39-58: one entry of [booking_details]. *)
Definition describe_booking (b : booking) : string :=
  let start_time_utc :=
    get_default (b_start b) (get_default (b_startTime b) "") in
  let start_time_eastern := display_start start_time_utc in
  let title := get_default (b_title b) "Untitled" in
  let title :=
    if truthy (b_eventType_title b)
    then get_default (b_eventType_title b) title else title in
  let attendee_name :=
    match b_attendees b with
    | a :: _ => get_default a "Unknown"
    | [] => "Unknown"
    end in
  title ++ " on " ++ start_time_eastern ++ " with " ++ attendee_name.

(** [get_all_bookings] *)
Definition get_all_bookings (take : Z) (status : string)
    (email : option string) : M string :=
  try_except
    (let filter_email := email in
     let filter_email :=
       if negb (truthy filter_email) then email_state env
       else filter_email in
     let filter_email :=
       if negb (truthy filter_email) then
         match agent_user_email env with
         | Some user_email => Some user_email
         | None => filter_email
         end
       else filter_email in
     let filter_email :=
       if negb (truthy filter_email) then Some (default_email env)
       else filter_email in
     if negb (truthy filter_email) then
       ret "Error: No email address provided. Please set your email in settings or provide it when asking about appointments."
     else
       let filter_email := get_default filter_email "" in
       bookings <- perform (GetAllBookings take status filter_email)
                     (fun tr => get_all_bookings_response calcom_client tr
                                  take status filter_email) ;;
       current_time <- lift current_time_text ;;
       match bookings with
       | [] =>
           ret ("Retrieved bookings at " ++ current_time
                ++ ". No bookings found for email " ++ filter_email ++ ".")
       | _ =>
           ret ("Retrieved bookings at " ++ current_time ++ ". Found "
                ++ str_of_nat (List.length bookings) ++ " booking(s) for "
                ++ filter_email ++ ": "
                ++ join "; " (map describe_booking bookings))
       end)
    (fun e => ret ("Error retrieving bookings: " ++ exn_str e)).

(** ["404" in error_msg or "not found" in error_msg.lower()] *)
Definition mentions_not_found (error_msg : string) : bool :=
  contains "404" error_msg || contains "not found" (lower error_msg).

(** ["400" in error_msg or "bad request" in error_msg.lower()] *)
Definition mentions_bad_request (error_msg : string) : bool :=
  contains "400" error_msg || contains "bad request" (lower error_msg).

(** [get_booking] *)
Definition get_booking (booking_uid : string) : M string :=
  try_except
    (result <- perform (GetBooking booking_uid)
                 (fun tr => get_booking_response calcom_client tr booking_uid) ;;
     current_time <- lift current_time_text ;;
     match result with
     | RDict b =>
         let title := get_default (b_title b) "Untitled" in
         let start_utc := get_default (b_start b) "" in
         let status := get_default (b_status b) "unknown" in
         let start_eastern := display_start start_utc in
         ret ("Retrieved booking details at " ++ current_time ++ ". "
              ++ title ++ " - " ++ start_eastern
              ++ " (Status: " ++ status ++ ")")
     | ROther repr =>
         ret ("Retrieved booking details at " ++ current_time ++ ". " ++ repr)
     end)
    (fun e =>
       let error_msg := exn_str e in
       if mentions_not_found error_msg then
         ret ("Error retrieving booking - booking not found. Please check the booking UID: "
              ++ booking_uid)
       else ret ("Error retrieving booking: " ++ error_msg)).

(** [create_connect_meeting] and [create_discover_meeting] are the same
    text up to the meeting kind, the event type and the example time. *)
Definition create_meeting (kind : string) (event_type_id : Z)
    (example : string)
    (start_time_eastern attendee_name : string)
    (attendee_email : option string) : M string :=
  try_except
    (let email := if truthy attendee_email then attendee_email
                  else Some (default_email env) in
     if negb (truthy email) then
       ret "Error: No email address provided. Please provide an email address for the attendee."
     else
       let email := get_default email "" in
       start_time_utc <-
         lift (convert_to_utc_iso strptime start_time_eastern) ;;
       let notes := conversation_notes env in
       result <- perform (CreateBooking event_type_id start_time_utc
                            attendee_name email notes)
                   (fun tr => create_booking_response calcom_client tr
                                event_type_id start_time_utc attendee_name
                                email notes) ;;
       current_time <- lift current_time_text ;;
       let booking_start_utc :=
         match result with
         | RDict b => get_default (b_start b) start_time_utc
         | ROther _ => start_time_utc
         end in
       let booking_start_eastern :=
         convert_utc_to_eastern fromisoformat booking_start_utc in
       let booking_uid :=
         match result with
         | RDict b => get_default (b_uid b) ""
         | ROther _ => ""
         end in
       ret (kind ++ " meeting scheduled at " ++ current_time
            ++ ". Meeting created successfully for " ++ booking_start_eastern
            ++ ". Booking UID: " ++ booking_uid))
    (fun e =>
       if is_ValueError e then
         ret ("Error creating " ++ kind ++ " meeting - invalid time format: "
              ++ exn_str e
              ++ ". Please provide time in Eastern Time format (e.g., "
              ++ example ++ ").")
       else
         let error_msg := exn_str e in
         if mentions_bad_request error_msg then
           ret ("Error creating " ++ kind
                ++ " meeting - bad request. Please check: 1) Time format is correct (Eastern Time), 2) Date is in the future, 3) Email is valid. Details: "
                ++ error_msg)
         else ret ("Error creating " ++ kind ++ " meeting: " ++ error_msg)).

Definition create_connect_meeting : string -> string -> option string -> M string :=
  create_meeting "Connect" CONNECT_MEETING_EVENT_TYPE_ID
    "'2026-01-10 09:00' or '01/10/2026 9:00 AM'".

Definition create_discover_meeting : string -> string -> option string -> M string :=
  create_meeting "Discover" DISCOVER_MEETING_EVENT_TYPE_ID
    "'2026-01-10 10:00' or '01/10/2026 10:00 AM'".

(** The search of a booking by date and time, lines 355-429 of
    [cancel_booking] and 255-321 of [reschedule_booking], which differ in
    the text reported when the date does not parse ([parse_error]).  The
    result is [inl text] when the tool returns [text] at once, [inr uid]
    when the search resolved a booking. *)
Definition search_by_time (date_time_eastern : string)
    (parse_error : string -> string) : M (string + string) :=
  let filter_email := search_email in
  if negb (truthy filter_email) then
    ret (inl "Error: No email address provided. Cannot search for booking without email.")
  else
    let filter_email := get_default filter_email "" in
    bookings <- perform (GetAllBookings 100 "upcoming" filter_email)
                  (fun tr => get_all_bookings_response calcom_client tr
                               100 "upcoming" filter_email) ;;
    match resolve_target date_time_eastern with
    | Raise e => ret (inl (parse_error (exn_str e)))
    | Ok target =>
        match best_match target bookings with
        | None =>
            ret (inl ("No upcoming booking found for " ++ date_time_eastern
                      ++ " Eastern Time. Please check the date and time, or provide the booking UID directly."))
        | Some (b, _) =>
            if negb (truthy (b_uid b)) then
              ret (inl ("Found booking for " ++ date_time_eastern
                        ++ " but could not get booking UID. Please provide the booking UID directly."))
            else ret (inr (get_default (b_uid b) ""))
        end
    end.

(** The part of a tool that fixes the booking to act on: the UID given, or
    the one found by date and time. *)
Definition resolve_booking (booking_uid date_time_eastern : option string)
    (parse_error : string -> string) (missing : string)
  : M (string + string) :=
  r <- (if negb (truthy booking_uid) && truthy date_time_eastern
        then search_by_time (get_default date_time_eastern "") parse_error
        else ret (match booking_uid with
                  | Some u => inr u
                  | None => inr ""
                  end)) ;;
  match r with
  | inl text => ret (inl text)
  | inr uid =>
      if String.eqb uid "" then ret (inl missing) else ret (inr uid)
  end.

(** [reschedule_booking] *)
Definition reschedule_booking (booking_uid old_date_time_eastern : option string)
    (new_start_time_eastern : string) (reason : option string) : M string :=
  try_except
    (if String.eqb new_start_time_eastern "" then
       ret "Error: new_start_time_eastern is required. Please provide the new date and time for the rescheduled booking."
     else
       current_time <- lift current_time_text ;;
       r <- resolve_booking booking_uid old_date_time_eastern
              (fun err =>
                 "Error parsing old date/time '"
                 ++ get_default old_date_time_eastern "" ++ "': " ++ err
                 ++ ". Please provide time in Eastern Time format.")
              "Error: Please provide either booking_uid or old_date_time_eastern to reschedule a booking." ;;
       match r with
       | inl text => ret text
       | inr booking_uid_to_reschedule =>
           new_start_time_utc <-
             lift (convert_to_utc_iso strptime new_start_time_eastern) ;;
           result <- perform (RescheduleBooking booking_uid_to_reschedule
                                new_start_time_utc reason)
                       (fun tr => reschedule_booking_response calcom_client tr
                                    booking_uid_to_reschedule
                                    new_start_time_utc reason) ;;
           let new_uid :=
             match result with
             | RDict b => get_default (b_uid b) booking_uid_to_reschedule
             | ROther _ => booking_uid_to_reschedule
             end in
           let new_start :=
             match result with
             | RDict b => get_default (b_start b) new_start_time_utc
             | ROther _ => new_start_time_utc
             end in
           let new_start_eastern :=
             convert_utc_to_eastern fromisoformat new_start in
           ret ("Booking rescheduled at " ++ current_time
                ++ ". New booking created: " ++ new_start_eastern
                ++ " (UID: " ++ new_uid
                ++ "). The original booking has been cancelled.")
       end)
    (fun e =>
       if is_ValueError e then
         ret ("Error rescheduling booking - invalid time format: "
              ++ exn_str e ++ ". Please provide time in Eastern Time format.")
       else
         let error_msg := exn_str e in
         if mentions_bad_request error_msg then
           ret ("Error rescheduling booking - bad request. Please check: 1) Time format is correct (Eastern Time), 2) Date is in the future, 3) Booking UID is valid. Details: "
                ++ error_msg)
         else ret ("Error rescheduling booking: " ++ error_msg)).

Definition already_cancelled_text : string :=
  "This booking is already cancelled. No action needed.".

(** Lines 434-441 of [cancel_booking]: the booking is fetched first; the
    result is [Some text] when the tool returns at once.  The bare
    [except] swallows a failure of the fetch. *)
Definition verify_not_cancelled (booking_uid_to_cancel : string)
  : M (option string) :=
  try_except
    (existing_booking <-
       perform (GetBooking booking_uid_to_cancel)
         (fun tr => get_booking_response calcom_client tr
                      booking_uid_to_cancel) ;;
     let existing_status :=
       match existing_booking with
       | RDict b => get_default (b_status b) ""
       | ROther _ => ""
       end in
     if String.eqb (lower existing_status) "cancelled"
     then ret (Some already_cancelled_text)
     else ret None)
    (fun _ => ret None).

(** Lines 443-468 of [cancel_booking]: the cancel call and its report. *)
Definition cancel_and_report (current_time booking_uid_to_cancel : string)
    (reason : option string) : M string :=
  result <- perform (CancelBooking booking_uid_to_cancel reason)
              (fun tr => cancel_booking_response calcom_client tr
                           booking_uid_to_cancel reason) ;;
  match result with
  | RDict b =>
      let status := get_default (b_status b) "unknown" in
      let title := get_default (b_title b) "Untitled" in
      let start_utc := get_default (b_start b) "" in
      if String.eqb (lower status) "cancelled" then
        let start_eastern := display_start start_utc in
        let cancellation_reason := get_default (b_cancellationReason b) "" in
        let reason_text :=
          if negb (String.eqb cancellation_reason "")
          then " Reason: " ++ cancellation_reason else "" in
        ret ("Booking cancelled successfully at " ++ current_time ++ ". "
             ++ title ++ " on " ++ start_eastern ++ " has been cancelled."
             ++ reason_text)
      else
        ret ("Booking cancellation processed at " ++ current_time
             ++ ". Status: " ++ status
             ++ ". Please verify the cancellation was successful.")
  | ROther repr =>
      ret ("Booking cancellation processed at " ++ current_time
           ++ ". Response: " ++ repr)
  end.

(** The two texts of [cancel_booking] for a date that does not parse and
    for a call that names no booking. *)
Definition cancel_parse_error (date_time_eastern : option string)
    (err : string) : string :=
  "Error parsing date/time '" ++ get_default date_time_eastern "" ++ "': "
  ++ err
  ++ ". Please provide time in Eastern Time format (e.g., '2026-07-15 2:00 PM' or 'July 15, 2026 at 2:00 PM').".

Definition cancel_missing_text : string :=
  "Error: Please provide either booking_uid or date_time_eastern to cancel a booking.".

(** [cancel_booking] *)
Definition cancel_booking (booking_uid date_time_eastern reason : option string)
  : M string :=
  try_except
    (current_time <- lift current_time_text ;;
     r <- resolve_booking booking_uid date_time_eastern
            (cancel_parse_error date_time_eastern) cancel_missing_text ;;
     match r with
     | inl text => ret text
     | inr booking_uid_to_cancel =>
         v <- verify_not_cancelled booking_uid_to_cancel ;;
         match v with
         | Some text => ret text
         | None => cancel_and_report current_time booking_uid_to_cancel reason
         end
     end)
    (fun e =>
       let error_msg := exn_str e in
       if mentions_not_found error_msg then
         ret "Error canceling booking - booking not found. Please check the booking UID or date/time provided."
       else ret ("Error canceling booking: " ++ error_msg)).

End Tools.

(** The trace [tr'] extends [tr] by calls none of which is mutating. *)
Definition extends_quietly (tr tr' : trace) : Prop :=
  exists added,
    tr' = (tr ++ added)%list /\ Forall (fun c => is_mutating c = false) added.

End CalcomTools.

(* ================================================================== *)
(** ** Reference parsers *)
(* ================================================================== *)

(** Concrete parsers for the serializations the code itself produces and
    documents, used to run the model on examples: they accept a part of
    what [datetime.strptime] and [datetime.fromisoformat] accept and agree
    with them there. *)
Module Reference.
Import PyDatetime Pytz PyStr TimeUtils.
Local Open Scope string_scope.
Local Open Scope Z_scope.

Inductive piece : Type :=
| Digits (width : nat)
| Lit (c : ascii).

Fixpoint take_digits (width : nat) (s : string) (acc : Z)
  : option (Z * string) :=
  match width with
  | O => Some (acc, s)
  | S w =>
      match s with
      | String c s' =>
          if isdigit c
          then take_digits w s' (acc * 10 + Z.of_nat (nat_of_ascii c) - 48)
          else None
      | EmptyString => None
      end
  end.

Fixpoint scan (p : list piece) (s : string) : option (list Z) :=
  match p with
  | [] => if String.eqb s "" then Some [] else None
  | Digits w :: p' =>
      match take_digits w s 0 with
      | Some (n, s') => option_map (cons n) (scan p' s')
      | None => None
      end
  | Lit c :: p' =>
      match s with
      | String a s' => if Ascii.eqb a c then scan p' s' else None
      | EmptyString => None
      end
  end.

Definition datetime_of (l : list Z) : option datetime :=
  match l with
  | [y; m; d; h; mi] =>
      let dt := mkdt y m d h mi 0 in if valid dt then Some dt else None
  | [y; m; d; h; mi; s] =>
      let dt := mkdt y m d h mi s in if valid dt then Some dt else None
  | _ => None
  end.

Definition date_pieces (sep : ascii) : list piece :=
  [Digits 4; Lit "-"; Digits 2; Lit "-"; Digits 2; Lit sep;
   Digits 2; Lit ":"; Digits 2]%char.

Definition seconds_pieces : list piece := [Lit ":"; Digits 2]%char.

Definition utc_pieces : list piece :=
  [Lit "+"; Lit "0"; Lit "0"; Lit ":"; Lit "0"; Lit "0"]%char.

(** [strptime] on the four ISO-like formats, for zero-padded input. *)
Definition strptime (time_str fmt : string) : option datetime :=
  let parse p :=
    match scan p time_str with
    | Some l => datetime_of l
    | None => None
    end in
  if String.eqb fmt "%Y-%m-%d %H:%M:%S"
  then parse (date_pieces " " ++ seconds_pieces)%list
  else if String.eqb fmt "%Y-%m-%d %H:%M" then parse (date_pieces " ")
  else if String.eqb fmt "%Y-%m-%dT%H:%M:%S"
  then parse (date_pieces "T" ++ seconds_pieces)%list
  else if String.eqb fmt "%Y-%m-%dT%H:%M" then parse (date_pieces "T")
  else None.

(** [fromisoformat] on [YYYY-MM-DDTHH:MM:SS], naive or with the UTC
    offset [+00:00]. *)
Definition fromisoformat (s : string) : option pydatetime :=
  match scan (date_pieces "T" ++ seconds_pieces)%list s with
  | Some l => option_map naive (datetime_of l)
  | None =>
      match scan (date_pieces "T" ++ seconds_pieces ++ utc_pieces)%list s with
      | Some l => option_map (fun dt => mkpy dt (Some UTC)) (datetime_of l)
      | None => None
      end
  end.

End Reference.

(* ================================================================== *)
(** ** Scenarios *)
(* ================================================================== *)

(** The bookings, client and environment on which the theorems are
    instantiated: a query for 2:00 PM on July 15, 2026, Eastern time. *)
Module Scenario.
Import PyDatetime Pytz TimeUtils CalcomTools.
Local Open Scope string_scope.

Definition booking_at (uid start status : string) : booking :=
  mkbooking (Some uid) (Some start) None (Some status) None None [] None.

Definition query : datetime := mkdt 2026 7 15 14 0 0.

(** 2:00 PM sharp, but cancelled. *)
Definition cancelled_exact : booking :=
  booking_at "c" "2026-07-15T18:00:00Z" "cancelled".

(** 2:00 PM sharp on the next day. *)
Definition next_day : booking :=
  booking_at "b" "2026-07-16T18:00:00Z" "accepted".

(** 2:30 PM and 1:30 PM: both thirty minutes away from the query. *)
Definition half_past : booking :=
  booking_at "a" "2026-07-15T18:30:00Z" "accepted".

Definition half_before : booking :=
  booking_at "d" "2026-07-15T17:30:00.000Z" "accepted".

(** 2:31 PM: one minute outside the window. *)
Definition just_outside : booking :=
  booking_at "e" "2026-07-15T18:31:00Z" "accepted".

Definition candidates : list booking :=
  [cancelled_exact; next_day; half_past; just_outside; half_before].

Definition sample_env : environment :=
  mkenv "user@example.com" None None None (mkdt 2026 7 1 12 0 0).

(** A client on which booking ["c"] is already cancelled. *)
Definition sample_client : CalComClient :=
  mkclient
    (fun _ _ _ _ => Ok candidates)
    (fun _ _ => Ok (RDict cancelled_exact))
    (fun _ _ _ _ _ _ => Raise (ClientError "Cal.com API error (400)"))
    (fun _ _ _ _ => Raise (ClientError "Cal.com API error (400)"))
    (fun _ _ _ => Ok (RDict cancelled_exact)).

End Scenario.

(* ================================================================== *)
(** ** [app/lib/calcom_client.py] *)
(* ================================================================== *)

Module CalcomClient.
Import PyStr TimeUtils CalcomTools.
Local Open Scope string_scope.
Local Open Scope Z_scope.

(** A booking as the API sends it: the keys the tools read, and the three
    places where [get_all_bookings] looks for an e-mail address: the
    ['email'] of each attendee, [bookingFieldsResponses['email']] and the
    ['email'] of each host. *)
Record api_booking : Type := mkapi {
  ab_booking : booking;
  ab_attendee_emails : list (option string);
  ab_fields_email : option string;
  ab_host_emails : list (option string)
}.

(** The JSON values the client puts in a request. *)
#[warnings="-register-all"]
Inductive json : Type :=
| JStr (s : string)
| JInt (z : Z)
| JObj (members : list (string * json)).

Inductive request : Type :=
| HttpGet (url : string) (params : list (string * json))
| HttpPost (url : string) (body : list (string * json)).

(** The decoded body of a response: a dict with a ['data'] member, or any
    other value. *)
Inductive payload : Type :=
| Enveloped (data : response)
| Bare (result : response).

(** What a request comes to: a decoded body; an [HTTPStatusError] raised
    by [raise_for_status], with the status code, the text of the error
    body when it decodes as JSON, and [str(e)]; or any other exception. *)
Inductive http_outcome (A : Type) : Type :=
| HttpOk (result : A)
| HttpStatusError (status_code : nat) (error_body : option string)
    (message : string)
| HttpFailure (e : exn).
Arguments HttpOk {A} result.
Arguments HttpStatusError {A} status_code error_body message.
Arguments HttpFailure {A} e.

(** The network: the answer to a request may depend on the calls made so
    far.  [fetch_list] answers the listing of bookings with the ['data']
    member of the body, when there is one. *)
Record transport : Type := mktransport {
  fetch_list : trace -> request -> http_outcome (option (list api_booking));
  fetch : trace -> request -> http_outcome payload
}.

Definition CALCOM_API_BASE : string := "https://api.cal.com/v2".

(** The [except HTTPStatusError] handler shared by the methods:
    [Exception(f"Cal.com API error ({status_code}): {error_detail or str(e)}")] *)
Definition api_error (status_code : nat) (error_body : option string)
    (message : string) : exn :=
  let error_detail :=
    match error_body with
    | Some body => " - " ++ body
    | None => " - Status: " ++ str_of_nat status_code
    end in
  ClientError ("Cal.com API error (" ++ str_of_nat status_code ++ "): "
               ++ (if String.eqb error_detail "" then message
                   else error_detail)).

(** [result.get('data', result) if isinstance(result, dict) and 'data' in
    result else result] *)
Definition unwrap (p : payload) : response :=
  match p with
  | Enveloped data => data
  | Bare result => result
  end.

(** The common end of [get_booking], [create_booking],
    [reschedule_booking] and [cancel_booking]. *)
Definition finish (o : http_outcome payload) : result response :=
  match o with
  | HttpOk p => Ok (unwrap p)
  | HttpStatusError status_code error_body message =>
      Raise (api_error status_code error_body message)
  | HttpFailure e => Raise e
  end.

(** [x.get('email', '').lower()] *)
Definition email_lower_of (o : option string) : string :=
  lower (get_default o "").

(** Lines 57-67: the address appears among the attendees, as the booking
    field, or among the hosts. *)
Definition mentions_email (email_lower : string) (b : api_booking) : bool :=
  existsb (String.eqb email_lower) (map email_lower_of (ab_attendee_emails b))
  || String.eqb email_lower (email_lower_of (ab_fields_email b))
  || existsb (String.eqb email_lower) (map email_lower_of (ab_host_emails b)).

(** [b.get('status', '').lower() != 'cancelled'] *)
Definition not_cancelled (b : api_booking) : bool :=
  negb (is_cancelled (ab_booking b)).

(** The dict [get_all_bookings] returns, without its ['pagination']. *)
Record bookings_result : Type := mkresult {
  bookings : list api_booking;
  total : nat
}.

(** Lines 50-81: the treatment of the bookings received. *)
Definition select_bookings (status email : option string)
    (data : option (list api_booking)) : bookings_result :=
  let bookings := match data with Some l => l | None => [] end in
  let bookings :=
    if truthy email
    then filter (mentions_email (lower (get_default email ""))) bookings
    else bookings in
  let bookings :=
    match status with
    | Some st =>
        if String.eqb st "upcoming" then filter not_cancelled bookings
        else bookings
    | None => bookings
    end in
  mkresult bookings (List.length bookings).

Section Client.
Variable net : transport.

(** [CalComClient.get_all_bookings]; the handler logs and re-raises, so
    an [HTTPStatusError] leaves with its own text. *)
Definition get_all_bookings (tr : trace) (take : Z)
    (status email : option string) : result bookings_result :=
  let params :=
    (("take", JInt take)
     :: (if truthy status then [("status", JStr (get_default status ""))]
         else []))%list in
  match fetch_list net tr (HttpGet (CALCOM_API_BASE ++ "/bookings") params) with
  | HttpOk data => Ok (select_bookings status email data)
  | HttpStatusError _ _ message => Raise (ClientError message)
  | HttpFailure e => Raise e
  end.

(** [CalComClient.get_booking] *)
Definition get_booking (tr : trace) (booking_uid : string) : result response :=
  finish (fetch net tr
            (HttpGet (CALCOM_API_BASE ++ "/bookings/" ++ booking_uid) [])).

(** [CalComClient.create_booking], with the defaults of its last
    parameters. *)
Definition create_booking (tr : trace) (event_type_id : Z)
    (start_time attendee_name attendee_email : string)
    (notes : option string) : result response :=
  let data :=
    ([("eventTypeId", JInt event_type_id);
      ("start", JStr start_time);
      ("attendee",
       JObj [("name", JStr attendee_name); ("email", JStr attendee_email);
             ("timeZone", JStr "America/New_York");
             ("language", JStr "en")])]
     ++ (if truthy notes then [("notes", JStr (get_default notes ""))]
         else []))%list in
  finish (fetch net tr (HttpPost (CALCOM_API_BASE ++ "/bookings") data)).

(** [CalComClient.reschedule_booking] *)
Definition reschedule_booking (tr : trace) (booking_uid new_start_time : string)
    (reason : option string) : result response :=
  let data :=
    (("start", JStr new_start_time)
     :: (if truthy reason
         then [("reschedulingReason", JStr (get_default reason ""))]
         else []))%list in
  finish (fetch net tr
            (HttpPost (CALCOM_API_BASE ++ "/bookings/" ++ booking_uid
                       ++ "/reschedule") data)).

(** [CalComClient.cancel_booking] *)
Definition cancel_booking (tr : trace) (booking_uid : string)
    (reason : option string) : result response :=
  let data :=
    if truthy reason
    then [("cancellationReason", JStr (get_default reason ""))]
    else [] in
  finish (fetch net tr
            (HttpPost (CALCOM_API_BASE ++ "/bookings/" ++ booking_uid
                       ++ "/cancel") data)).

(** The client as the tools see it: of the dict returned by
    [get_all_bookings] they read ['bookings']. *)
Definition as_tool_client : CalComClient :=
  mkclient
    (fun tr take status email =>
       rbind (get_all_bookings tr take (Some status) (Some email))
             (fun r => Ok (map ab_booking (bookings r))))
    get_booking
    create_booking
    reschedule_booking
    cancel_booking.

End Client.

End CalcomClient.

(* ================================================================== *)
(** ** [add_guests_to_booking] *)
(* ================================================================== *)

Module GuestTools.
Import PyStr TimeUtils CalcomTools.
Local Open Scope string_scope.

(** [calcom_client.add_guests(booking_uid, guests)]: each guest is the
    dict [{"email": email, "name": name}], here the pair. *)
Inductive guest_call : Type :=
| AddGuests (booking_uid : string) (guests : list (string * string)).

Section Guests.

(** The answer of the client, as the text [str(result)]. *)
Variable add_guests_response :
  list guest_call -> string -> list (string * string) -> result string.
Variable env : environment.

(** [add_guests_to_booking]: the text returned and the calls made. *)
Definition add_guests_to_booking (booking_uid : string)
    (guest_emails guest_names : list string) (tr : list guest_call)
  : string * list guest_call :=
  if negb (Nat.eqb (List.length guest_emails) (List.length guest_names))
  then ("Error: Number of emails must match number of names", tr)
  else
    let guests := combine guest_emails guest_names in
    let tr' := (tr ++ [AddGuests booking_uid guests])%list in
    match add_guests_response tr booking_uid guests with
    | Raise e => ("Error adding guests: " ++ exn_str e, tr')
    | Ok result =>
        match current_time_text env with
        | Raise e => ("Error adding guests: " ++ exn_str e, tr')
        | Ok current_time =>
            ("Guests added at " ++ current_time ++ ". " ++ result, tr')
        end
    end.

End Guests.

End GuestTools.

(* ================================================================== *)
(** ** Scenarios on the network *)
(* ================================================================== *)

(** Networks on which the client and the tools are run together. *)
Module ClientScenario.
Import PyDatetime Pytz TimeUtils CalcomTools CalcomClient.
Local Open Scope string_scope.

(** A booking as the API lists it, with one attendee. *)
Definition api_at (uid start status attendee_email : string) : api_booking :=
  mkapi (Scenario.booking_at uid start status) [Some attendee_email] None [].

(** Three bookings on July 15, 2026: one of the user at 2:30 PM, whose
    address was entered with capitals; one of somebody else at 2:00 PM
    sharp; one of the user at 2:00 PM, cancelled. *)
Definition inbox : list api_booking :=
  [ api_at "a" "2026-07-15T18:30:00Z" "accepted" "User@Example.com";
    api_at "x" "2026-07-15T18:00:00Z" "accepted" "other@example.com";
    api_at "c" "2026-07-15T18:00:00Z" "cancelled" "user@example.com" ].

(** A network that lists [inbox], shows booking ["a"] as accepted and
    accepts what is posted. *)
Definition listing_net : transport :=
  mktransport
    (fun _ _ => HttpOk (Some inbox))
    (fun _ req =>
       match req with
       | HttpGet _ _ => HttpOk (Enveloped (RDict Scenario.half_past))
       | HttpPost _ _ =>
           HttpOk (Enveloped
                     (RDict (Scenario.booking_at "a" "2026-07-15T18:30:00Z"
                               "cancelled")))
       end).

(** A network that gives every request about one booking the outcome
    [o]. *)
Definition answering (o : http_outcome payload) : transport :=
  mktransport (fun _ _ => HttpOk (Some [])) (fun _ _ => o).

Definition missing_net : transport :=
  answering (HttpStatusError 404 (Some "{'status': 'error'}")
               "Client error '404 Not Found'").

Definition rejecting_net : transport :=
  answering (HttpStatusError 400 None "Client error '400 Bad Request'").

(** The body of the answer is not JSON. *)
Definition garbled_net : transport :=
  answering (HttpFailure
               (ValueError "Expecting value: line 1 column 1 (char 0)")).

(** Reading a booking times out; posting goes through. *)
Definition flaky_net : transport :=
  mktransport
    (fun _ _ => HttpOk (Some inbox))
    (fun _ req =>
       match req with
       | HttpGet _ _ => HttpFailure (ClientError "timed out")
       | HttpPost _ _ => HttpOk (Bare (ROther "{'status': 'success'}"))
       end).

End ClientScenario.

(* ================================================================== *)
(** ** Calendar facts *)
(* ================================================================== *)

Module CalendarFacts.
Import PyDatetime.

Ltac divmod := Z.div_mod_to_equations; lia.

Lemma forall_range_spec f n : forall lo z,
  forall_range f lo n = true -> lo <= z < lo + Z.of_nat n -> f z = true.
Proof.
  induction n as [|k IH]; intros lo z H Hz.
  - simpl in Hz. lia.
  - simpl in H. apply andb_true_iff in H as [H0 H1].
    destruct (Z.eq_dec z lo) as [->|Hne]; [assumption|].
    apply (IH (lo + 1)); [assumption|lia].
Qed.

Lemma days_before_year_succ y :
  days_before_year (y + 1)
  = days_before_year y + (if is_leap y then 366 else 365).
Proof.
  unfold days_before_year, is_leap. cbv zeta.
  replace (y + 1 - 1) with y by lia.
  destruct (y mod 4 =? 0) eqn:E4; destruct (y mod 100 =? 0) eqn:E100;
    destruct (y mod 400 =? 0) eqn:E400; simpl;
    rewrite ?Z.eqb_eq, ?Z.eqb_neq in *; divmod.
Qed.

Lemma days_before_year_mono y y' :
  y <= y' -> days_before_year y <= days_before_year y'.
Proof. unfold days_before_year. cbv zeta. intros. divmod. Qed.

Lemma days_before_year_1 : days_before_year 1 = 0.
Proof. reflexivity. Qed.

Lemma days_before_year_nonneg y : 1 <= y -> 0 <= days_before_year y.
Proof.
  intros H. pose proof (days_before_year_mono 1 y H).
  now rewrite days_before_year_1 in *.
Qed.

Lemma year_length y :
  (days_before_year y + 365) * 86400 <= days_before_year (y + 1) * 86400
  <= (days_before_year y + 366) * 86400.
Proof. rewrite days_before_year_succ. destruct (is_leap y); lia. Qed.

(** The days of a common year and of a leap year, one by one. *)
Lemma month_day_year :
  forall_range (month_day_ok false) 0 (Z.to_nat 365) = true
  /\ forall_range (month_day_ok true) 0 (Z.to_nat 366) = true.
Proof. split; vm_compute; reflexivity. Qed.

Lemma month_day_of_spec (leapyear : bool) n m d :
  0 <= n < 365 + (if leapyear then 1 else 0) ->
  month_day_of leapyear n = (m, d) ->
  1 <= m <= 12
  /\ 1 <= d <= DAYS_IN_MONTH m + (if (m =? 2) && leapyear then 1 else 0)
  /\ DAYS_BEFORE_MONTH m + (if (m >? 2) && leapyear then 1 else 0) + d = n + 1.
Proof.
  intros Hn E.
  assert (Hok : month_day_ok leapyear n = true).
  { destruct month_day_year as [H0 H1].
    destruct leapyear;
      [apply (forall_range_spec _ _ _ _ H1)
      |apply (forall_range_spec _ _ _ _ H0)]; rewrite Z2Nat.id; lia. }
  unfold month_day_ok in Hok. rewrite E in Hok.
  repeat (apply andb_true_iff in Hok as [Hok ?]).
  rewrite ?Z.leb_le, ?Z.eqb_eq in *. lia.
Qed.

(** Leap years and days before a year, along the cycle decomposition. *)
Lemma is_leap_cycle a b c e :
  0 <= b < 4 -> 0 <= c < 25 -> 0 <= e < 4 ->
  is_leap (a * 400 + 1 + b * 100 + c * 4 + e)
  = (e =? 3) && (negb (c =? 24) || (b =? 3)).
Proof.
  intros Hb Hc He. unfold is_leap.
  set (y := a * 400 + 1 + b * 100 + c * 4 + e).
  assert (M4 : y mod 4 = (e + 1) mod 4) by (unfold y; divmod).
  assert (M100 : y mod 100 = (c * 4 + e + 1) mod 100) by (unfold y; divmod).
  assert (M400 : y mod 400 = (b * 100 + c * 4 + e + 1) mod 400)
    by (unfold y; divmod).
  rewrite M4, M100, M400.
  destruct (Z.eqb_spec e 3) as [->|Ne].
  - replace ((3 + 1) mod 4) with 0 by reflexivity. cbn [Z.eqb andb].
    destruct (Z.eqb_spec c 24) as [->|Nc].
    + replace ((24 * 4 + 3 + 1) mod 100) with 0 by reflexivity.
      cbn [Z.eqb negb orb].
      destruct (Z.eqb_spec b 3) as [->|Nb]; [reflexivity|].
      apply Z.eqb_neq. divmod.
    + cbn [negb orb].
      replace ((c * 4 + 3 + 1) mod 100 =? 0) with false; [reflexivity|].
      symmetry. apply Z.eqb_neq. divmod.
  - replace ((e + 1) mod 4 =? 0) with false; [reflexivity|].
    symmetry. apply Z.eqb_neq. divmod.
Qed.

Lemma days_before_year_cycle a b c e :
  0 <= b < 4 -> 0 <= c < 25 -> 0 <= e < 4 ->
  days_before_year (a * 400 + 1 + b * 100 + c * 4 + e)
  = a * 146097 + b * 36524 + c * 1461 + e * 365.
Proof. intros Hb Hc He. unfold days_before_year. cbv zeta. divmod. Qed.

(** Every ordinal from 1 on decodes to a calendar date that encodes back. *)
Lemma ord2ymd_spec n y m d :
  1 <= n -> ord2ymd n = (y, m, d) ->
  1 <= y /\ 1 <= m <= 12 /\ 1 <= d <= days_in_month y m /\ ymd2ord y m d = n.
Proof.
  intros Hn. unfold ord2ymd, DI400Y, DI100Y, DI4Y. cbv zeta.
  set (a := (n - 1) / 146097).
  set (r400 := (n - 1) mod 146097).
  set (b := r400 / 36524). set (r100 := r400 mod 36524).
  set (c := r100 / 1461). set (r4 := r100 mod 1461).
  set (e := r4 / 365). set (r := r4 mod 365).
  assert (Ha : 0 <= a /\ n - 1 = a * 146097 + r400 /\ 0 <= r400 < 146097)
    by (unfold a, r400; divmod).
  assert (Hb : 0 <= b <= 4 /\ r400 = b * 36524 + r100 /\ 0 <= r100 < 36524)
    by (unfold b, r100; divmod).
  assert (Hc : 0 <= c <= 24 /\ r100 = c * 1461 + r4 /\ 0 <= r4 < 1461)
    by (unfold c, r4; divmod).
  assert (He : 0 <= e <= 4 /\ r4 = e * 365 + r /\ 0 <= r < 365)
    by (unfold e, r; divmod).
  clearbody a r400 b r100 c r4 e r.
  destruct Ha as (Ha & Ea & Hr400). destruct Hb as (Hb & Eb & Hr100).
  destruct Hc as (Hc & Ec & Hr4). destruct He as (He & Ee & Hr).
  destruct (Z.eqb_spec e 4) as [E4|E4]; cbn [orb].
  - (* December 31 of the fourth year of a four-year cycle *)
    intros [= <- <- <-].
    replace (a * 400 + 1 + b * 100 + c * 4 + e - 1)
      with (a * 400 + 1 + b * 100 + c * 4 + 3) by lia.
    assert (HL : is_leap (a * 400 + 1 + b * 100 + c * 4 + 3) = true).
    { rewrite is_leap_cycle by lia.
      replace (c =? 24) with false by (symmetry; apply Z.eqb_neq; lia).
      reflexivity. }
    pose proof (days_before_year_cycle a b c 3
                  ltac:(lia) ltac:(lia) ltac:(lia)) as HD.
    unfold ymd2ord, days_before_month, days_in_month. rewrite HL, HD.
    cbn. lia.
  - destruct (Z.eqb_spec b 4) as [B4|B4].
    + (* December 31 of the four-hundredth year *)
      intros [= <- <- <-].
      replace (a * 400 + 1 + b * 100 + c * 4 + e - 1)
        with (a * 400 + 1 + 3 * 100 + 24 * 4 + 3) by lia.
      assert (HL : is_leap (a * 400 + 1 + 3 * 100 + 24 * 4 + 3) = true)
        by (rewrite is_leap_cycle by lia; reflexivity).
      pose proof (days_before_year_cycle a 3 24 3
                    ltac:(lia) ltac:(lia) ltac:(lia)) as HD.
      unfold ymd2ord, days_before_month, days_in_month. rewrite HL, HD.
      cbn. lia.
    + destruct (month_day_of _ r) as [m' d'] eqn:Emd.
      intros [= <- <- <-].
      pose proof (is_leap_cycle a b c e ltac:(lia) ltac:(lia) ltac:(lia))
        as HL.
      pose proof (days_before_year_cycle a b c e
                    ltac:(lia) ltac:(lia) ltac:(lia)) as HD.
      rewrite <- HL in Emd.
      apply month_day_of_spec in Emd;
        [|destruct (is_leap _); lia].
      destruct Emd as (Hm & Hd & Eo).
      unfold ymd2ord, days_before_month, days_in_month. rewrite HD.
      destruct ((m' =? 2) && is_leap _) eqn:E2.
      * apply andb_true_iff in E2 as [E2 E3]. apply Z.eqb_eq in E2. subst m'.
        rewrite E3 in *. cbn in Hd. lia.
      * lia.
Qed.

Ltac month_cases m :=
  let Hc := fresh "Hc" in
  assert (Hc : m = 1 \/ m = 2 \/ m = 3 \/ m = 4 \/ m = 5 \/ m = 6 \/ m = 7
               \/ m = 8 \/ m = 9 \/ m = 10 \/ m = 11 \/ m = 12) by lia;
  repeat (destruct Hc as [-> | Hc]); try subst m.

Ltac month_tables H :=
  cbv [DAYS_BEFORE_MONTH DAYS_IN_MONTH Z.eqb Pos.eqb Z.gtb Z.compare
       Pos.compare Pos.compare_cont andb] in H.

Lemma ymd2ord_bounds y m d :
  1 <= m <= 12 -> 1 <= d <= days_in_month y m ->
  days_before_year y < ymd2ord y m d <= days_before_year (y + 1).
Proof.
  intros Hm Hd. rewrite days_before_year_succ.
  unfold ymd2ord, days_before_month, days_in_month in *.
  revert Hd. generalize (is_leap y). intros b Hd.
  destruct b; month_cases m; month_tables Hd;
    cbv [DAYS_BEFORE_MONTH Z.gtb Z.compare Pos.compare Pos.compare_cont andb];
    lia.
Qed.

Lemma month_day_unique y m d m' d' :
  1 <= m <= 12 -> 1 <= d <= days_in_month y m ->
  1 <= m' <= 12 -> 1 <= d' <= days_in_month y m' ->
  days_before_month y m + d = days_before_month y m' + d' ->
  m = m' /\ d = d'.
Proof.
  intros Hm Hd Hm' Hd' E.
  unfold days_before_month, days_in_month in *.
  revert Hd Hd' E. generalize (is_leap y). intros b Hd Hd' E.
  destruct b; month_cases m; month_cases m';
    month_tables Hd; month_tables Hd'; month_tables E; lia.
Qed.

Lemma year_unique y y' n :
  days_before_year y < n <= days_before_year (y + 1) ->
  days_before_year y' < n <= days_before_year (y' + 1) ->
  y = y'.
Proof.
  intros H H'.
  destruct (Z.lt_trichotomy y y') as [Hlt | [-> | Hgt]]; [|reflexivity|].
  - pose proof (days_before_year_mono (y + 1) y'). lia.
  - pose proof (days_before_year_mono (y' + 1) y). lia.
Qed.

Lemma ymd2ord_pos y m d :
  1 <= y -> 1 <= m <= 12 -> 1 <= d <= days_in_month y m -> 1 <= ymd2ord y m d.
Proof.
  intros Hy Hm Hd.
  pose proof (ymd2ord_bounds y m d Hm Hd).
  pose proof (days_before_year_nonneg y Hy). lia.
Qed.

(** Encoding a calendar date and decoding the ordinal gives the date back. *)
Lemma ord2ymd_ymd2ord y m d :
  1 <= y -> 1 <= m <= 12 -> 1 <= d <= days_in_month y m ->
  ord2ymd (ymd2ord y m d) = (y, m, d).
Proof.
  intros Hy Hm Hd.
  pose proof (ymd2ord_pos y m d Hy Hm Hd) as Hn.
  destruct (ord2ymd (ymd2ord y m d)) as [[y' m'] d'] eqn:E.
  destruct (ord2ymd_spec _ _ _ _ Hn E) as (Hy' & Hm' & Hd' & Eo).
  assert (y' = y).
  { apply (year_unique y' y (ymd2ord y m d)).
    - rewrite <- Eo. now apply ymd2ord_bounds.
    - now apply ymd2ord_bounds. }
  subst y'.
  destruct (month_day_unique y m d m' d' Hm Hd Hm' Hd') as [-> ->].
  - unfold ymd2ord in Eo. lia.
  - reflexivity.
Qed.

Lemma valid_date_iff y m d :
  valid_date y m d = true <->
  (1 <= y <= 9999 /\ 1 <= m <= 12 /\ 1 <= d <= days_in_month y m).
Proof.
  unfold valid_date, MINYEAR, MAXYEAR.
  rewrite !andb_true_iff, !Z.leb_le. lia.
Qed.

Lemma valid_time_iff h mi s :
  valid_time h mi s = true <-> (0 <= h < 24 /\ 0 <= mi < 60 /\ 0 <= s < 60).
Proof.
  unfold valid_time.
  rewrite !andb_true_iff, !Z.leb_le, !Z.ltb_lt. lia.
Qed.

Lemma valid_iff dt :
  valid dt = true <->
  (1 <= year dt <= 9999 /\ 1 <= month dt <= 12
   /\ 1 <= day dt <= days_in_month (year dt) (month dt))
  /\ (0 <= hour dt < 24 /\ 0 <= minute dt < 60 /\ 0 <= second dt < 60).
Proof.
  unfold valid. now rewrite andb_true_iff, valid_date_iff, valid_time_iff.
Qed.

Lemma datetime_eqb_eq a b : datetime_eqb a b = true <-> a = b.
Proof.
  unfold datetime_eqb, date_eqb. rewrite !andb_true_iff, !Z.eqb_eq.
  destruct a, b; simpl. split.
  - intros [[[[[-> ->] ->] ->] ->] ->]. reflexivity.
  - intros H. injection H as -> -> -> -> -> ->. repeat split.
Qed.

(** Day number and second of the day of a valid value. *)
Lemma to_seconds_split dt :
  valid dt = true ->
  to_seconds dt / 86400 = ymd2ord (year dt) (month dt) (day dt) - 1 /\
  to_seconds dt mod 86400 = hour dt * 3600 + minute dt * 60 + second dt.
Proof.
  intros H. apply valid_iff in H as [_ Ht]. unfold to_seconds.
  set (n := ymd2ord _ _ _ - 1).
  divmod.
Qed.

Lemma of_seconds_to_seconds dt :
  valid dt = true -> of_seconds (to_seconds dt) = dt.
Proof.
  intros H. destruct (to_seconds_split dt H) as [Hq Hr].
  pose proof H as Hv. apply valid_iff in Hv as [(Hy & Hm & Hd) Ht].
  unfold of_seconds. rewrite Hq, Hr.
  replace (ymd2ord (year dt) (month dt) (day dt) - 1 + 1)
    with (ymd2ord (year dt) (month dt) (day dt)) by lia.
  rewrite ord2ymd_ymd2ord by lia.
  destruct dt as [y m d h mi s]; simpl in *.
  f_equal; divmod.
Qed.

Lemma to_seconds_of_seconds t :
  0 <= t -> to_seconds (of_seconds t) = t.
Proof.
  intros Ht. unfold of_seconds.
  destruct (ord2ymd (t / 86400 + 1)) as [[y m] d] eqn:E.
  assert (Hn : 1 <= t / 86400 + 1) by divmod.
  destruct (ord2ymd_spec _ _ _ _ Hn E) as (_ & _ & _ & Eo).
  unfold to_seconds; simpl. rewrite Eo. divmod.
Qed.

(** The year of a clock value is fixed by the January 1sts around it. *)
Lemma year_of_seconds t y :
  0 <= t ->
  days_before_year y * 86400 <= t < days_before_year (y + 1) * 86400 ->
  year (of_seconds t) = y.
Proof.
  intros Ht Hy. unfold of_seconds.
  destruct (ord2ymd (t / 86400 + 1)) as [[y' m] d] eqn:E.
  assert (Hn : 1 <= t / 86400 + 1) by divmod.
  destruct (ord2ymd_spec _ _ _ _ Hn E) as (_ & Hm & Hd & Eo).
  simpl. apply (year_unique y' y (t / 86400 + 1)).
  - rewrite <- Eo. now apply ymd2ord_bounds.
  - divmod.
Qed.

Lemma to_seconds_year_bounds dt :
  valid dt = true ->
  days_before_year (year dt) * 86400 <= to_seconds dt
  < days_before_year (year dt + 1) * 86400.
Proof.
  intros H. apply valid_iff in H as [(Hy & Hm & Hd) Ht].
  pose proof (ymd2ord_bounds _ _ _ Hm Hd). unfold to_seconds. lia.
Qed.

Lemma in_range_iff t : in_range t = true <-> 0 <= t < MAX_SECONDS.
Proof. unfold in_range. rewrite andb_true_iff, Z.leb_le, Z.ltb_lt. tauto. Qed.

Lemma MAX_SECONDS_eq : MAX_SECONDS = days_before_year 10000 * 86400.
Proof. reflexivity. Qed.

Lemma valid_of_seconds t :
  in_range t = true -> valid (of_seconds t) = true.
Proof.
  rewrite in_range_iff, MAX_SECONDS_eq. intros [H0 Hmax].
  apply valid_iff. unfold of_seconds.
  destruct (ord2ymd (t / 86400 + 1)) as [[y m] d] eqn:E.
  assert (Hn : 1 <= t / 86400 + 1) by divmod.
  destruct (ord2ymd_spec _ _ _ _ Hn E) as (Hy & Hm & Hd & Eo).
  simpl. repeat split; try lia; try divmod.
  pose proof (ymd2ord_bounds _ _ _ Hm Hd) as Hb.
  destruct (Z_le_gt_dec y 9999) as [|Hgt]; [assumption|exfalso].
  pose proof (days_before_year_mono 10000 y).
  assert (t / 86400 + 1 <= days_before_year 10000) by divmod.
  lia.
Qed.

Lemma of_seconds_eqb t' dt :
  valid dt = true -> 0 <= t' ->
  datetime_eqb (of_seconds t') dt = (t' =? to_seconds dt).
Proof.
  intros Hv Ht. destruct (Z.eqb_spec t' (to_seconds dt)) as [->|Hne].
  - rewrite of_seconds_to_seconds by assumption. now apply datetime_eqb_eq.
  - destruct (datetime_eqb _ _) eqn:E; [|reflexivity].
    apply datetime_eqb_eq in E. exfalso. apply Hne.
    rewrite <- E. now rewrite to_seconds_of_seconds.
Qed.

(** A value whose year is away from both ends is a year away from the
    bounds of the representable range. *)
Lemma year_range_seconds dt :
  valid dt = true -> 2 <= year dt <= 9998 ->
  86400 * 365 <= to_seconds dt /\ to_seconds dt + 86400 * 365 <= MAX_SECONDS.
Proof.
  intros Hv Hy. pose proof (to_seconds_year_bounds dt Hv) as Hb.
  pose proof (days_before_year_mono 2 (year dt)).
  pose proof (days_before_year_mono (year dt + 1) 9999).
  rewrite MAX_SECONDS_eq.
  change (days_before_year 2) with 365 in *.
  change (days_before_year 9999) with 3651694 in *.
  change (days_before_year 10000) with 3652059. lia.
Qed.

End CalendarFacts.

(* ================================================================== *)
(** ** The Eastern zone: what [localize] and [fromutc] compute *)
(* ================================================================== *)

Module ZoneFacts.
Import PyDatetime Pytz CalendarFacts.

Lemma sunday_on_or_after_bounds n :
  n <= sunday_on_or_after n < n + 7.
Proof. unfold sunday_on_or_after. divmod. Qed.

(** The day found is a Sunday: [weekday] gives 6. *)
Lemma sunday_on_or_after_weekday n : (sunday_on_or_after n + 6) mod 7 = 6.
Proof. unfold sunday_on_or_after. divmod. Qed.

(** Where the two transitions of year [y] fall within the year. *)
Lemma dst_start_bounds y :
  (days_before_year y + 66) * 86400 <= dst_start_utc y
  < (days_before_year y + 74) * 86400.
Proof.
  unfold dst_start_utc.
  pose proof (sunday_on_or_after_bounds (ymd2ord y 3 8)) as H.
  unfold ymd2ord, days_before_month in *.
  destruct (is_leap y); simpl in *; lia.
Qed.

Lemma dst_end_bounds y :
  (days_before_year y + 304) * 86400 <= dst_end_utc y
  < (days_before_year y + 312) * 86400.
Proof.
  unfold dst_end_utc.
  pose proof (sunday_on_or_after_bounds (ymd2ord y 11 1)) as H.
  unfold ymd2ord, days_before_month in *.
  destruct (is_leap y); simpl in *; lia.
Qed.

Ltac bool_to_Z :=
  unfold dst_between in *;
  repeat match goal with
  | H : _ && _ = true |- _ => apply andb_true_iff in H as [? ?]
  | H : _ && _ = false |- _ => apply andb_false_iff in H as [?|?]
  | H : (_ <=? _) = true |- _ => apply Z.leb_le in H
  | H : (_ <=? _) = false |- _ => apply Z.leb_gt in H
  | H : (_ <? _) = true |- _ => apply Z.ltb_lt in H
  | H : (_ <? _) = false |- _ => apply Z.ltb_ge in H
  end.

(** Within a month of year [y], the zone in force is decided by the
    transitions of [y] alone. *)
Lemma tzinfo_at_near y u :
  0 <= u ->
  (days_before_year y - 30) * 86400 <= u
  < (days_before_year (y + 1) + 30) * 86400 ->
  tzinfo_at u = Eastern (dst_between y u).
Proof.
  intros Hu Hr. unfold tzinfo_at, dst_between. f_equal.
  pose proof (year_length (y - 1)) as L0.
  replace (y - 1 + 1) with y in L0 by lia.
  pose proof (year_length y) as L1.
  pose proof (year_length (y + 1)) as L2.
  pose proof (dst_start_bounds y) as S1. pose proof (dst_end_bounds y) as E1.
  destruct (Z_lt_ge_dec u (days_before_year y * 86400)) as [Hlo|Hlo].
  - rewrite (year_of_seconds u (y - 1))
      by (replace (y - 1 + 1) with y by lia; lia).
    pose proof (dst_start_bounds (y - 1)).
    pose proof (dst_end_bounds (y - 1)).
    destruct (dst_start_utc (y - 1) <=? u) eqn:A;
      destruct (u <? dst_end_utc (y - 1)) eqn:B;
      destruct (dst_start_utc y <=? u) eqn:C;
      destruct (u <? dst_end_utc y) eqn:D;
      bool_to_Z; simpl; try reflexivity; lia.
  - destruct (Z_lt_ge_dec u (days_before_year (y + 1) * 86400)) as [Hhi|Hhi].
    + rewrite (year_of_seconds u y) by lia. reflexivity.
    + rewrite (year_of_seconds u (y + 1)) by lia.
      pose proof (dst_start_bounds (y + 1)).
      pose proof (dst_end_bounds (y + 1)).
      destruct (dst_start_utc (y + 1) <=? u) eqn:A;
        destruct (u <? dst_end_utc (y + 1)) eqn:B;
        destruct (dst_start_utc y <=? u) eqn:C;
        destruct (u <? dst_end_utc y) eqn:D;
        bool_to_Z; simpl; try reflexivity; lia.
Qed.

Lemma tzinfo_at_local dt :
  valid dt = true ->
  forall u, 0 <= u ->
    to_seconds dt - 200000 <= u <= to_seconds dt + 200000 ->
    tzinfo_at u = Eastern (dst_between (year dt) u).
Proof.
  intros Hv u Hu Hr.
  pose proof (to_seconds_year_bounds dt Hv).
  apply tzinfo_at_near; lia.
Qed.

Lemma tzinfo_at_eastern u : exists b, tzinfo_at u = Eastern b.
Proof. unfold tzinfo_at. eauto. Qed.

Lemma add_seconds_in_range dt k :
  0 <= to_seconds dt + k < MAX_SECONDS ->
  add_seconds dt k = Ok (of_seconds (to_seconds dt + k)).
Proof.
  intros H. unfold add_seconds.
  now rewrite (proj2 (in_range_iff _) H).
Qed.

(** One candidate of [localize]: the zone in force a day away is kept when
    it is also in force at the instant it would give. *)
Lemma localize_candidate_spec dt delta :
  valid dt = true ->
  0 <= to_seconds dt + delta < MAX_SECONDS ->
  3600 <= to_seconds dt -> to_seconds dt + 18000 < MAX_SECONDS ->
  localize_candidate dt delta
  = Ok (let inf := tzinfo_at (to_seconds dt + delta) in
        if tzinfo_eqb (tzinfo_at (to_seconds dt - utcoffset inf)) inf
        then Some (mkaware dt inf) else None).
Proof.
  intros Hv Hd Hlo Hhi. unfold localize_candidate.
  rewrite (add_seconds_in_range dt delta Hd). cbn [rbind].
  rewrite to_seconds_of_seconds by lia.
  destruct (tzinfo_at_eastern (to_seconds dt + delta)) as [b ->].
  cbv zeta. unfold normalize. cbn [wall tz].
  assert (Hoff : utcoffset (Eastern b) = -18000
                 \/ utcoffset (Eastern b) = -14400)
    by (destruct b; simpl; lia).
  rewrite add_seconds_in_range by lia. cbn [rbind].
  unfold fromutc. rewrite to_seconds_of_seconds by lia.
  replace (to_seconds dt + - utcoffset (Eastern b))
    with (to_seconds dt - utcoffset (Eastern b)) by lia.
  destruct (tzinfo_at_eastern (to_seconds dt - utcoffset (Eastern b)))
    as [b' ->].
  assert (Hoff' : utcoffset (Eastern b') = -18000
                  \/ utcoffset (Eastern b') = -14400)
    by (destruct b'; simpl; lia).
  rewrite add_seconds_in_range
    by (rewrite to_seconds_of_seconds by lia; lia).
  rewrite to_seconds_of_seconds by lia. cbn [rbind wall].
  rewrite of_seconds_eqb by (assumption || lia).
  destruct b, b'; cbn [utcoffset tzinfo_eqb Bool.eqb];
    match goal with
    | |- context [?a =? ?b] =>
        destruct (Z.eqb_spec a b); try lia
    end; try reflexivity.
  - f_equal. f_equal. f_equal.
    rewrite <- (of_seconds_to_seconds dt Hv) at 2. f_equal. lia.
  - f_equal. f_equal. f_equal.
    rewrite <- (of_seconds_to_seconds dt Hv) at 2. f_equal. lia.
Qed.

Ltac localize_cases dt T :=
  rewrite !localize_candidate_spec
    by (assumption || (fold (to_seconds dt); lia));
  cbv zeta;
  rewrite (T (to_seconds dt + -86400)), (T (to_seconds dt + 86400)) by lia;
  destruct (dst_between (year dt) (to_seconds dt + -86400)) eqn:B1;
  destruct (dst_between (year dt) (to_seconds dt + 86400)) eqn:B2;
  cbn [utcoffset];
  rewrite ?(T (to_seconds dt - - (4 * 3600))),
          ?(T (to_seconds dt - - (5 * 3600))) by lia;
  destruct (dst_between (year dt) (to_seconds dt - - (4 * 3600))) eqn:B3;
  destruct (dst_between (year dt) (to_seconds dt - - (5 * 3600))) eqn:B4;
  cbn [rbind tzinfo_eqb Bool.eqb tz tz_dst negb];
  destruct (dst_start_utc (year dt) - 14400 <=? to_seconds dt) eqn:C1;
  destruct (to_seconds dt <? dst_end_utc (year dt) - 18000) eqn:C2;
  cbn [andb]; try reflexivity;
  try (exfalso; bool_to_Z; lia).

(** Away from the skipped hour [localize] needs no recursive call. *)
Lemma localize_fuel_existing fuel dt :
  valid dt = true ->
  86400 <= to_seconds dt -> to_seconds dt + 86400 < MAX_SECONDS ->
  to_seconds dt < dst_start_utc (year dt) - 18000
  \/ dst_start_utc (year dt) - 14400 <= to_seconds dt ->
  localize_fuel fuel dt = Ok (mkaware dt (Eastern (wall_is_dst dt))).
Proof.
  intros Hv Hlo Hhi Hex.
  pose proof (dst_start_bounds (year dt)) as HS.
  pose proof (dst_end_bounds (year dt)) as HE.
  pose proof (tzinfo_at_local dt Hv) as T.
  unfold wall_is_dst.
  destruct fuel; cbn [localize_fuel]; localize_cases dt T.
Qed.

(** One recursive call is enough everywhere: inside the skipped hour the
    value six hours earlier exists. *)
Lemma localize_fuel_spec fuel dt :
  valid dt = true ->
  86400 <= to_seconds dt -> to_seconds dt + 86400 < MAX_SECONDS ->
  localize_fuel (S fuel) dt = Ok (mkaware dt (Eastern (wall_is_dst dt))).
Proof.
  intros Hv Hlo Hhi.
  destruct (Z_lt_ge_dec (to_seconds dt) (dst_start_utc (year dt) - 18000))
    as [Hb|Hb]; [apply localize_fuel_existing; auto|].
  destruct (Z_lt_ge_dec (to_seconds dt) (dst_start_utc (year dt) - 14400))
    as [Hg|Hg]; [|apply localize_fuel_existing; auto; lia].
  pose proof (to_seconds_year_bounds dt Hv) as Hy.
  pose proof (year_length (year dt)) as HL.
  pose proof (dst_start_bounds (year dt)) as HS.
  pose proof (dst_end_bounds (year dt)) as HE.
  pose proof (tzinfo_at_local dt Hv) as T.
  assert (H0 : 0 <= days_before_year (year dt)).
  { apply valid_iff in Hv as [(Hy1 & _) _].
    apply days_before_year_nonneg. lia. }
  set (back := of_seconds (to_seconds dt - 21600)).
  assert (Hvb : valid back = true)
    by (apply valid_of_seconds, in_range_iff; lia).
  assert (Htb : to_seconds back = to_seconds dt - 21600)
    by (apply to_seconds_of_seconds; lia).
  assert (Hyb : year back = year dt)
    by (apply year_of_seconds; lia).
  unfold wall_is_dst. cbn [localize_fuel].
  localize_cases dt T.
  rewrite add_seconds_in_range by lia.
  replace (to_seconds dt + - (6 * 3600)) with (to_seconds dt - 21600) by lia.
  fold back. cbn [rbind].
  rewrite (localize_fuel_existing fuel back Hvb) by (rewrite ?Hyb, Htb; lia).
  cbn [rbind wall tz].
  rewrite add_seconds_in_range by (rewrite Htb; lia).
  rewrite Htb.
  replace (to_seconds dt - 21600 + 6 * 3600) with (to_seconds dt) by lia.
  rewrite of_seconds_to_seconds by assumption.
  unfold wall_is_dst. rewrite Hyb, Htb. cbn [rbind].
  do 3 f_equal. apply andb_false_iff. left. apply Z.leb_gt. lia.
Qed.

(** [localize] returns, with the wall clock unchanged and the zone of
    [wall_is_dst], on every value a day away from the ends of the range. *)
Lemma localize_spec dt :
  valid dt = true ->
  86400 <= to_seconds dt -> to_seconds dt + 86400 < MAX_SECONDS ->
  localize dt = Ok (mkaware dt (Eastern (wall_is_dst dt))).
Proof. apply localize_fuel_spec. Qed.

(** The skipped hour, on the clock in seconds. *)
Lemma spring_gap_seconds dt :
  valid dt = true ->
  dst_start_utc (year dt) - 18000 <= to_seconds dt
  < dst_start_utc (year dt) - 14400 ->
  in_spring_gap dt = true.
Proof.
  intros Hv Hr. pose proof Hv as Hv'.
  apply valid_iff in Hv' as [(Hy & Hm & Hd) (Hh & Hmi & Hs)].
  unfold dst_start_utc, to_seconds in Hr.
  pose proof (sunday_on_or_after_bounds (ymd2ord (year dt) 3 8)) as Hsun.
  set (sun := sunday_on_or_after (ymd2ord (year dt) 3 8)) in *.
  assert (Ho : ymd2ord (year dt) (month dt) (day dt) = sun) by lia.
  assert (Hh2 : hour dt = 2) by lia.
  set (d' := sun - ymd2ord (year dt) 3 8 + 8).
  assert (Hs' : sun = ymd2ord (year dt) 3 d') by (unfold d', ymd2ord; lia).
  assert (Hd' : 1 <= d' <= days_in_month (year dt) 3)
    by (unfold d', days_in_month; simpl; lia).
  destruct (month_day_unique (year dt) (month dt) (day dt) 3 d')
    as [Em Ed]; try assumption; try lia.
  { rewrite Hs' in Ho. unfold ymd2ord in Ho. lia. }
  unfold in_spring_gap. fold sun.
  rewrite Em, Hh2, Ed, <- Hs'. now rewrite !Z.eqb_refl.
Qed.

End ZoneFacts.

(* ================================================================== *)
(** ** [time_utils.py]: conversion in both directions *)
(* ================================================================== *)

Module TimeUtilsSpec.
Import PyDatetime Pytz PyStr TimeUtils CalendarFacts ZoneFacts.
Local Open Scope string_scope.
Local Open Scope Z_scope.

(** *** From Eastern time to UTC *)

Lemma to_utc_spec dt :
  valid dt = true ->
  86400 <= to_seconds dt -> to_seconds dt + 86400 < MAX_SECONDS ->
  to_utc dt
  = Ok (mkaware
          (of_seconds (to_seconds dt - utcoffset (Eastern (wall_is_dst dt))))
          UTC).
Proof.
  intros Hv Hlo Hhi. unfold to_utc.
  rewrite localize_spec by assumption. cbn [rbind].
  unfold astimezone_utc. cbn [wall tz].
  rewrite add_seconds_in_range by (destruct (wall_is_dst dt); simpl; lia).
  cbn [rbind]. do 3 f_equal; lia.
Qed.

(** *** From UTC to Eastern time *)

Lemma to_eastern_utc u :
  0 <= u -> u < MAX_SECONDS ->
  0 <= u + utcoffset (tzinfo_at u) ->
  to_eastern (of_aware (mkaware (of_seconds u) UTC))
  = Ok (mkaware (of_seconds (u + utcoffset (tzinfo_at u))) (tzinfo_at u)).
Proof.
  intros H0 H1 H2. unfold to_eastern, of_aware. cbn [tzinfo_of fields wall tz].
  unfold astimezone_utc. cbn [wall tz utcoffset UTC].
  rewrite add_seconds_in_range by (rewrite to_seconds_of_seconds; lia).
  rewrite to_seconds_of_seconds by lia. cbn [rbind].
  replace (u + - 0) with u by lia.
  unfold astimezone_eastern. cbn [wall tz utcoffset UTC].
  rewrite add_seconds_in_range by (rewrite to_seconds_of_seconds; lia).
  rewrite to_seconds_of_seconds by lia. cbn [rbind].
  replace (u + - 0) with u by lia.
  unfold fromutc. rewrite to_seconds_of_seconds by lia.
  assert (Hoff : utcoffset (tzinfo_at u) <= 0)
    by (destruct (tzinfo_at_eastern u) as [b ->]; destruct b; simpl; lia).
  rewrite add_seconds_in_range
    by (rewrite to_seconds_of_seconds by lia; lia).
  rewrite to_seconds_of_seconds by lia. reflexivity.
Qed.

(** *** The two directions composed *)

(** The zone in force at the instant [to_utc] computes: the one [localize]
    chose, unless the wall-clock value lies in the skipped hour, where
    daylight time has begun. *)
Lemma zone_at_instant L :
  valid L = true ->
  86400 <= to_seconds L -> to_seconds L + 86400 < MAX_SECONDS ->
  tzinfo_at (to_seconds L - utcoffset (Eastern (wall_is_dst L)))
  = Eastern (wall_is_dst L
             || ((dst_start_utc (year L) - 18000 <=? to_seconds L)
                 && (to_seconds L <? dst_start_utc (year L) - 14400))).
Proof.
  intros Hv Hlo Hhi.
  pose proof (dst_start_bounds (year L)) as HS.
  pose proof (dst_end_bounds (year L)) as HE.
  rewrite (tzinfo_at_local L Hv)
    by (destruct (wall_is_dst L); simpl; lia).
  f_equal. unfold wall_is_dst, dst_between.
  destruct (dst_start_utc (year L) - 14400 <=? to_seconds L) eqn:C1;
    destruct (to_seconds L <? dst_end_utc (year L) - 18000) eqn:C2;
    destruct (dst_start_utc (year L) - 18000 <=? to_seconds L) eqn:C3;
    destruct (to_seconds L <? dst_start_utc (year L) - 14400) eqn:C4;
    cbn [andb orb utcoffset];
    match goal with
    | |- (?a <=? ?b) && (?c <? ?d) = _ =>
        destruct (a <=? b) eqn:D1; destruct (c <? d) eqn:D2
    end; cbn [andb]; try reflexivity; exfalso; bool_to_Z; lia.
Qed.

(** The value [to_utc] computes, handed to [to_eastern]: the wall clock
    that comes back. *)
Lemma to_utc_then_to_eastern L :
  valid L = true ->
  86400 <= to_seconds L -> to_seconds L + 86400 < MAX_SECONDS ->
  rbind (to_utc L)
    (fun u => rbind (to_eastern (of_aware u)) (fun e => Ok (wall e)))
  = Ok (if (dst_start_utc (year L) - 18000 <=? to_seconds L)
           && (to_seconds L <? dst_start_utc (year L) - 14400)
        then of_seconds (to_seconds L + 3600) else L).
Proof.
  intros Hv Hlo Hhi.
  pose proof (zone_at_instant L Hv Hlo Hhi) as Hz.
  rewrite to_utc_spec by assumption.
  cbn [rbind].
  set (off := utcoffset (Eastern (wall_is_dst L))) in *.
  assert (Hoff : off = -18000 \/ off = -14400)
    by (unfold off; destruct (wall_is_dst L); simpl; lia).
  assert (Hoff' : utcoffset (tzinfo_at (to_seconds L - off)) = -18000
                  \/ utcoffset (tzinfo_at (to_seconds L - off)) = -14400)
    by (destruct (tzinfo_at_eastern (to_seconds L - off)) as [b ->];
        destruct b; simpl; lia).
  rewrite to_eastern_utc by lia.
  cbn [rbind wall]. rewrite Hz. f_equal.
  clear Hz Hoff Hoff'. subst off. unfold wall_is_dst.
  pose proof (of_seconds_to_seconds L Hv) as HL.
  pose proof (dst_start_bounds (year L)) as HS.
  pose proof (dst_end_bounds (year L)) as HE.
  destruct (dst_start_utc (year L) - 14400 <=? to_seconds L) eqn:C1;
    destruct (to_seconds L <? dst_end_utc (year L) - 18000) eqn:C2;
    destruct (dst_start_utc (year L) - 18000 <=? to_seconds L) eqn:C3;
    destruct (to_seconds L <? dst_start_utc (year L) - 14400) eqn:C4;
    cbn [andb orb utcoffset];
    try (exfalso; bool_to_Z; lia);
    first [ f_equal; lia
          | (etransitivity; [|exact HL]); f_equal; lia ].
Qed.

(** Wall-clock values that exist come back unchanged. *)
Lemma existing_value_returns L :
  valid L = true ->
  86400 <= to_seconds L -> to_seconds L + 86400 < MAX_SECONDS ->
  in_spring_gap L = false ->
  rbind (to_utc L)
    (fun u => rbind (to_eastern (of_aware u)) (fun e => Ok (wall e)))
  = Ok L.
Proof.
  intros Hv Hlo Hhi Hgap.
  rewrite to_utc_then_to_eastern by assumption.
  destruct (dst_start_utc (year L) - 18000 <=? to_seconds L) eqn:C3;
    destruct (to_seconds L <? dst_start_utc (year L) - 14400) eqn:C4;
    cbn [andb]; try reflexivity.
  exfalso. bool_to_Z.
  rewrite (spring_gap_seconds L Hv) in Hgap by lia. discriminate.
Qed.

(** The skipped hour through the strings the two functions exchange:
    02:30 on March 8, 2026 is shown as 03:30. *)
Example skipped_hour_through_strings :
  convert_to_utc_iso Reference.strptime "2026-03-08 02:30:00"
  = Ok "2026-03-08T07:30:00Z"
  /\ convert_utc_to_eastern Reference.fromisoformat "2026-03-08T07:30:00Z"
     = "Sunday, March 08, 2026 at 03:30 AM Eastern Time".
Proof. split; vm_compute; reflexivity. Qed.

(** Inside the skipped hour the value always comes back an hour later. *)
Lemma skipped_value_returns_later L :
  valid L = true -> in_spring_gap L = true ->
  rbind (to_utc L)
    (fun u => rbind (to_eastern (of_aware u)) (fun e => Ok (wall e)))
  = Ok (plus_hours L 1).
Proof.
  intros Hv Hgap. pose proof Hv as Hv'.
  apply valid_iff in Hv' as [(Hy & Hm & Hd) (Hh & Hmi & Hs)].
  unfold in_spring_gap in Hgap.
  apply andb_true_iff in Hgap as [Hgap Ho].
  apply andb_true_iff in Hgap as [Em Eh].
  apply Z.eqb_eq in Em, Eh, Ho.
  pose proof (dst_start_bounds (year L)) as HS.
  pose proof (days_before_year_nonneg (year L) ltac:(lia)) as H0.
  pose proof (year_length (year L)) as HL.
  pose proof (days_before_year_mono (year L + 1) 10000 ltac:(lia)) as HM.
  pose proof (to_seconds_year_bounds L Hv) as Hb.
  assert (Hr : dst_start_utc (year L) - 18000 <= to_seconds L
               < dst_start_utc (year L) - 14400).
  { unfold dst_start_utc, to_seconds. rewrite Em, Ho, Eh. lia. }
  rewrite to_utc_then_to_eastern; rewrite ?MAX_SECONDS_eq; try lia;
    try assumption.
  unfold plus_hours.
  rewrite (proj2 (Z.leb_le _ _)), (proj2 (Z.ltb_lt _ _)) by lia.
  cbn [andb]. reflexivity.
Qed.

(** In the other direction nothing is lost: an instant taken to Eastern
    time keeps its zone, and goes back to the same UTC value. *)
Lemma instant_roundtrip u :
  18000 <= u < MAX_SECONDS ->
  exists e,
    to_eastern (of_aware (mkaware (of_seconds u) UTC)) = Ok e
    /\ astimezone_utc e = Ok (mkaware (of_seconds u) UTC).
Proof.
  intros Hu.
  assert (Hoff : utcoffset (tzinfo_at u) = -18000
                 \/ utcoffset (tzinfo_at u) = -14400)
    by (destruct (tzinfo_at_eastern u) as [b ->]; destruct b; simpl; lia).
  eexists. split; [apply to_eastern_utc; lia|].
  unfold astimezone_utc. cbn [wall tz].
  rewrite add_seconds_in_range
    by (rewrite to_seconds_of_seconds by lia; lia).
  rewrite to_seconds_of_seconds by lia. cbn [rbind].
  do 3 f_equal. lia.
Qed.

(** *** Offsets on fixed dates *)

Lemma isdigit_digit n : isdigit (digit n) = true.
Proof.
  unfold digit.
  assert (H : 0 <= n mod 10 < 10) by divmod.
  assert (Hc : n mod 10 = 0 \/ n mod 10 = 1 \/ n mod 10 = 2 \/ n mod 10 = 3
               \/ n mod 10 = 4 \/ n mod 10 = 5 \/ n mod 10 = 6
               \/ n mod 10 = 7 \/ n mod 10 = 8 \/ n mod 10 = 9) by lia.
  repeat (destruct Hc as [-> | Hc]); try rewrite Hc; reflexivity.
Qed.





Example january_and_july_strings :
  utc_iso_of_local (mkdt 2026 1 15 9 30 15) = Ok "2026-01-15T14:30:15Z"
  /\ utc_iso_of_local (mkdt 2026 7 15 9 30 15) = Ok "2026-07-15T13:30:15Z".
Proof. split; vm_compute; reflexivity. Qed.

(** *** Parsing *)

Section Parsing.
Variable strptime : string -> string -> option datetime.

Lemma try_formats_first time_str fmts :
  (exists pre fmt post dt,
      fmts = (pre ++ fmt :: post)%list
      /\ Forall (fun f => strptime time_str f = None) pre
      /\ strptime time_str fmt = Some dt
      /\ try_formats strptime time_str fmts = Some dt)
  \/ (Forall (fun f => strptime time_str f = None) fmts
      /\ try_formats strptime time_str fmts = None).
Proof.
  induction fmts as [|f rest IH].
  - right. split; [constructor|reflexivity].
  - cbn [try_formats]. destruct (strptime time_str f) as [dt|] eqn:E.
    + left. exists [], f, rest, dt. repeat split; auto.
    + destruct IH as [(pre & fmt & post & dt & -> & Hpre & Hfmt & Htry)
                     | [Hall Htry]].
      * left. exists (f :: pre), fmt, post, dt. repeat split; auto.
      * right. split; [constructor; assumption|assumption].
Qed.

(** C7.  The parsing stage tries the formats in the order of the list and
    takes the first one that parses the stripped input; when none does it
    raises [ValueError] with a message that ends with the input string as
    given, and [convert_to_utc_iso] raises that same error.  There is no
    third outcome. *)
Theorem parse_first_format_or_error eastern_time_str :
  (exists pre fmt post dt,
      formats = (pre ++ fmt :: post)%list
      /\ Forall (fun f => strptime (strip eastern_time_str) f = None) pre
      /\ strptime (strip eastern_time_str) fmt = Some dt
      /\ parse_local_datetime strptime eastern_time_str = Ok dt)
  \/ (Forall (fun f => strptime (strip eastern_time_str) f = None) formats
      /\ parse_local_datetime strptime eastern_time_str
         = Raise (ValueError
                    ("Could not parse time string: " ++ eastern_time_str))
      /\ convert_to_utc_iso strptime eastern_time_str
         = Raise (ValueError
                    ("Could not parse time string: " ++ eastern_time_str))).
Proof.
  unfold convert_to_utc_iso, parse_local_datetime. cbv zeta.
  destruct (try_formats_first (strip eastern_time_str) formats)
    as [(pre & fmt & post & dt & Hf & Hpre & Hfmt & Htry) | [Hall Htry]];
    rewrite Htry.
  - left. exists pre, fmt, post, dt. auto.
  - right. auto.
Qed.

End Parsing.

Example parse_second_format :
  parse_local_datetime Reference.strptime "  2026-07-15 14:00 "
  = Ok (mkdt 2026 7 15 14 0 0)
  /\ parse_local_datetime Reference.strptime "next Tuesday"
     = Raise (ValueError "Could not parse time string: next Tuesday").
Proof. split; vm_compute; reflexivity. Qed.

(** *** The fallback of [convert_utc_to_eastern] *)

Section Fallback.
Variable fromisoformat : string -> option pydatetime.

(** [convert_utc_to_eastern] returns the formatted Eastern time, or, on
    any exception, the argument as rewritten at the head of the function. *)
Lemma convert_utc_to_eastern_cases utc_iso_str :
  (exists text,
      utc_to_eastern_body fromisoformat (normalize_utc_suffix utc_iso_str)
      = Ok text
      /\ convert_utc_to_eastern fromisoformat utc_iso_str = text)
  \/ (exists e,
        utc_to_eastern_body fromisoformat (normalize_utc_suffix utc_iso_str)
        = Raise e
        /\ convert_utc_to_eastern fromisoformat utc_iso_str
           = normalize_utc_suffix utc_iso_str).
Proof.
  unfold convert_utc_to_eastern. cbv zeta.
  destruct (utc_to_eastern_body _ _) as [text|e]; eauto.
Qed.

(** C10 fails on the code.  For the input ["not-a-dateZ"], which
    [fromisoformat] rejects also once the ["Z"] is rewritten, the function
    returns ["not-a-date+00:00"], not the string it was given. *)
Theorem fallback_returns_rewritten_string :
  fromisoformat "not-a-date+00:00" = None ->
  convert_utc_to_eastern fromisoformat "not-a-dateZ" = "not-a-date+00:00"
  /\ convert_utc_to_eastern fromisoformat "not-a-dateZ" <> "not-a-dateZ".
Proof.
  intros H.
  assert (E : convert_utc_to_eastern fromisoformat "not-a-dateZ"
              = "not-a-date+00:00").
  { unfold convert_utc_to_eastern, utc_to_eastern_body, parse_iso.
    cbv zeta.
    change (normalize_utc_suffix "not-a-dateZ") with "not-a-date+00:00".
    change (replace "Z" "+00:00" "not-a-date+00:00") with "not-a-date+00:00".
    rewrite H. reflexivity. }
  split; [exact E|]. rewrite E. discriminate.
Qed.

End Fallback.

Lemma fallback_returns_rewritten_string_witness :
  Reference.fromisoformat "not-a-date+00:00" = None
  /\ convert_utc_to_eastern Reference.fromisoformat "not-a-dateZ"
     = "not-a-date+00:00"
  /\ convert_utc_to_eastern Reference.fromisoformat "not-a-dateZ"
     <> "not-a-dateZ".
Proof.
  split; [reflexivity|].
  apply (fallback_returns_rewritten_string Reference.fromisoformat).
  reflexivity.
Defined.

(** The second rewriting at the head of the function has the same effect. *)
Example fallback_appends_offset :
  convert_utc_to_eastern Reference.fromisoformat "2026-06-15-bad"
  = "2026-06-15-bad+00:00".
Proof. vm_compute. reflexivity. Qed.

End TimeUtilsSpec.

(* ================================================================== *)
(** ** Resolution of a booking by date and time *)
(* ================================================================== *)

Module BookingSpec.
Import PyDatetime Pytz PyStr TimeUtils CalcomTools.
Import CalendarFacts ZoneFacts TimeUtilsSpec.
Local Open Scope string_scope.
Local Open Scope Z_scope.

Section Matching.
Variable fromisoformat : string -> option pydatetime.
Variable target : datetime.

(** What it takes for the loop to keep a booking. *)
Lemma match_one_Some b m :
  match_one fromisoformat target b = Some m <->
  is_cancelled b = false
  /\ get_default (b_start b) "" <> ""
  /\ exists e,
       booking_eastern fromisoformat (get_default (b_start b) "") = Ok e
       /\ date_eqb e target = true
       /\ time_diff e target <= 30
       /\ m = (b, time_diff e target).
Proof.
  unfold match_one.
  destruct (is_cancelled b);
    [split; [discriminate|intros [? _]; discriminate]|].
  destruct (String.eqb_spec (get_default (b_start b) "") "") as [E|E];
    cbn [negb]; [split; [discriminate|intros (_ & ? & _); contradiction]|].
  destruct (booking_eastern _ _) as [e|err];
    [|split; [discriminate|intros (_ & _ & ? & ? & _); discriminate]].
  destruct (date_eqb e target) eqn:Ed.
  - cbv zeta. destruct (Z.leb_spec (time_diff e target) 30).
    + split.
      * intros [= <-]. repeat split; auto. exists e. repeat split; auto.
      * intros (_ & _ & e' & [= <-] & _ & _ & ->). reflexivity.
    + split; [discriminate|].
      intros (_ & _ & e' & [= <-] & _ & ? & _). lia.
  - split; [discriminate|].
    intros (_ & _ & e' & [= <-] & ? & _). congruence.
Qed.

Lemma match_one_fst b m :
  match_one fromisoformat target b = Some m -> fst m = b.
Proof.
  intros H. apply match_one_Some in H as (_ & _ & e & _ & _ & _ & ->).
  reflexivity.
Qed.

(** [matching_bookings] holds what the iterations kept, in order. *)
Lemma in_matching_bookings bookings m :
  In m (matching_bookings fromisoformat target bookings) <->
  exists b, In b bookings /\ match_one fromisoformat target b = Some m.
Proof.
  induction bookings as [|b rest IH]; cbn [matching_bookings].
  - split; [intros []|intros (? & [] & _)].
  - destruct (match_one fromisoformat target b) as [m'|] eqn:E.
    + cbn [In]. rewrite IH. split.
      * intros [<-|(b' & Hin & Hm)]; [exists b; auto|exists b'; auto].
      * intros (b' & [<-|Hin] & Hm); [left; congruence|right; eauto].
    + rewrite IH. split.
      * intros (b' & Hin & Hm). exists b'. cbn [In]. auto.
      * intros (b' & [<-|Hin] & Hm); [congruence|eauto].
Qed.

Lemma first_min_in l m : first_min l = Some m -> In m l.
Proof.
  revert m. induction l as [|x l IH]; intros m; cbn [first_min].
  - discriminate.
  - destruct (first_min l) as [y|].
    + destruct (snd x <=? snd y); intros [= <-]; cbn [In]; auto.
    + intros [= <-]. cbn [In]. auto.
Qed.

Lemma first_min_None l : first_min l = None -> l = [].
Proof.
  destruct l as [|x l]; [reflexivity|]. cbn [first_min].
  destruct (first_min l) as [y|]; [destruct (snd x <=? snd y)|]; discriminate.
Qed.

Lemma first_min_least l m :
  first_min l = Some m -> forall z, In z l -> snd m <= snd z.
Proof.
  revert m. induction l as [|x l IH]; intros m H z Hz; [destruct Hz|].
  cbn [first_min] in H. destruct (first_min l) as [y|] eqn:E.
  - specialize (IH y eq_refl).
    destruct (Z.leb_spec (snd x) (snd y)); injection H as <-;
      destruct Hz as [<-|Hz]; try lia; specialize (IH z Hz); lia.
  - apply first_min_None in E. subst l. injection H as <-.
    destruct Hz as [<-|[]]. lia.
Qed.

(** The stable sort puts the first element of least difference in front. *)
Lemma hd_insert_by_diff x l :
  hd_error (insert_by_diff x l)
  = match hd_error l with
    | None => Some x
    | Some y => if snd x <=? snd y then Some x else Some y
    end.
Proof.
  destruct l as [|y l]; cbn [insert_by_diff hd_error]; [reflexivity|].
  destruct (snd x <=? snd y); reflexivity.
Qed.

Lemma hd_sort_by_diff l : hd_error (sort_by_diff l) = first_min l.
Proof.
  induction l as [|x l IH]; [reflexivity|].
  unfold sort_by_diff in *. cbn [fold_right first_min].
  now rewrite hd_insert_by_diff, IH.
Qed.

Lemma best_match_first_min bookings :
  best_match fromisoformat target bookings
  = first_min (matching_bookings fromisoformat target bookings).
Proof. unfold best_match. apply hd_sort_by_diff. Qed.

Lemma best_match_in bookings m :
  best_match fromisoformat target bookings = Some m ->
  In m (matching_bookings fromisoformat target bookings).
Proof. rewrite best_match_first_min. apply first_min_in. Qed.

(** A match is produced as soon as some booking is kept. *)
Lemma best_match_exists bookings :
  matching_bookings fromisoformat target bookings <> [] ->
  exists m, best_match fromisoformat target bookings = Some m.
Proof.
  intros Hne. rewrite best_match_first_min.
  destruct (first_min _) as [m|] eqn:E; [eauto|].
  apply first_min_None in E. contradiction.
Qed.

(** C3.  A booking whose start converts to an Eastern value on another
    calendar date than the query's is in no case among the matches, nor
    the booking selected, whatever its time of day. *)
Theorem other_date_never_matched bookings b e d :
  booking_eastern fromisoformat (get_default (b_start b) "") = Ok e ->
  date_eqb e target = false ->
  ~ In (b, d) (matching_bookings fromisoformat target bookings)
  /\ best_match fromisoformat target bookings <> Some (b, d).
Proof.
  intros He Hd.
  assert (Hn : ~ In (b, d) (matching_bookings fromisoformat target bookings)).
  { intros Hm. apply in_matching_bookings in Hm as (b' & _ & Hm).
    pose proof (match_one_fst _ _ Hm) as Hb. cbn [fst] in Hb. subst b'.
    apply match_one_Some in Hm as (_ & _ & e' & He' & Hd' & _).
    rewrite He in He'. injection He' as <-. congruence. }
  split; [exact Hn|]. intros Hb. apply Hn. now apply best_match_in.
Qed.

(** C4.  The booking selected is kept by the loop; every kept booking
    before it in the list is strictly farther from the query and every
    kept booking after it is at least as far: the nearest one wins and,
    among equally near ones, the earliest in the list. *)
Theorem best_match_nearest_then_earliest bookings b d :
  best_match fromisoformat target bookings = Some (b, d) ->
  exists before after,
    bookings = (before ++ b :: after)%list
    /\ match_one fromisoformat target b = Some (b, d)
    /\ (forall b' m, In b' before ->
          match_one fromisoformat target b' = Some m -> d < snd m)
    /\ (forall b' m, In b' after ->
          match_one fromisoformat target b' = Some m -> d <= snd m).
Proof.
  rewrite best_match_first_min. revert b d.
  induction bookings as [|x rest IH]; intros b d H;
    cbn [matching_bookings first_min] in H; [discriminate|].
  destruct (match_one fromisoformat target x) as [mx|] eqn:Ex.
  - cbn [first_min] in H.
    pose proof (match_one_fst _ _ Ex) as Hx.
    destruct (first_min (matching_bookings fromisoformat target rest))
      as [y|] eqn:Ey.
    + destruct (Z.leb_spec (snd mx) (snd y)) as [Hle|Hgt].
      * injection H as ->. cbn [fst snd] in *. subst x.
        exists [], rest. repeat split; auto.
        -- intros b' m [].
        -- intros b' m Hin Hm.
           pose proof (first_min_least _ _ Ey m) as Hl.
           assert (In m (matching_bookings fromisoformat target rest))
             by (apply in_matching_bookings; eauto).
           specialize (Hl H). lia.
      * injection H as ->.
        destruct (IH b d eq_refl) as (before & after & -> & Hb & Hbef & Haft).
        exists (x :: before), after. repeat split; auto.
        intros b' m [<-|Hin] Hm.
        -- rewrite Ex in Hm. injection Hm as <-. cbn [snd] in Hgt. lia.
        -- eauto.
    + injection H as ->. cbn [fst] in Hx. subst x.
      apply first_min_None in Ey.
      exists [], rest. repeat split; auto.
      * intros b' m [].
      * intros b' m Hin Hm.
        assert (Hi : In m (matching_bookings fromisoformat target rest))
          by (apply in_matching_bookings; eauto).
        rewrite Ey in Hi. destruct Hi.
  - destruct (IH b d H) as (before & after & -> & Hb & Hbef & Haft).
    exists (x :: before), after. repeat split; auto.
    intros b' m [<-|Hin] Hm; [congruence|eauto].
Qed.

(** C5.  A booking whose status is ["cancelled"], in any letter case, is
    dropped by the loop before its start is looked at: it is not among the
    matches and is not the booking selected. *)
Theorem cancelled_never_matched bookings b d :
  is_cancelled b = true ->
  match_one fromisoformat target b = None
  /\ ~ In (b, d) (matching_bookings fromisoformat target bookings)
  /\ best_match fromisoformat target bookings <> Some (b, d).
Proof.
  intros Hc.
  assert (Hn : ~ In (b, d) (matching_bookings fromisoformat target bookings)).
  { intros Hm. apply in_matching_bookings in Hm as (b' & _ & Hm).
    pose proof (match_one_fst _ _ Hm) as Hb. cbn [fst] in Hb. subst b'.
    apply match_one_Some in Hm as (Hc' & _). congruence. }
  repeat split.
  - unfold match_one. now rewrite Hc.
  - exact Hn.
  - intros Hb. apply Hn. now apply best_match_in.
Qed.

End Matching.

(** The booking one minute further, at 2:31 PM, is not kept. *)
Example one_minute_outside :
  booking_eastern Reference.fromisoformat "2026-07-15T18:31:00Z"
  = Ok (mkdt 2026 7 15 14 31 0)
  /\ time_diff (mkdt 2026 7 15 14 31 0) Scenario.query = 31
  /\ match_one Reference.fromisoformat Scenario.query Scenario.just_outside
     = None.
Proof. repeat split; vm_compute; reflexivity. Qed.

(** The booking at 2:00 PM on July 16 is not matched. *)
Lemma other_date_never_matched_witness :
  booking_eastern Reference.fromisoformat "2026-07-16T18:00:00Z"
  = Ok (mkdt 2026 7 16 14 0 0)
  /\ time_diff (mkdt 2026 7 16 14 0 0) Scenario.query = 0
  /\ ~ In (Scenario.next_day, 0)
         (matching_bookings Reference.fromisoformat Scenario.query
            Scenario.candidates)
  /\ best_match Reference.fromisoformat Scenario.query Scenario.candidates
     <> Some (Scenario.next_day, 0).
Proof.
  split; [vm_compute; reflexivity|]. split; [reflexivity|].
  apply (other_date_never_matched Reference.fromisoformat Scenario.query
           Scenario.candidates Scenario.next_day (mkdt 2026 7 16 14 0 0) 0).
  - vm_compute. reflexivity.
  - reflexivity.
Defined.

(** Of the two bookings thirty minutes away, the one listed first wins. *)
Lemma best_match_nearest_then_earliest_witness :
  best_match Reference.fromisoformat Scenario.query Scenario.candidates
  = Some (Scenario.half_past, 30)
  /\ exists before after,
       Scenario.candidates = (before ++ Scenario.half_past :: after)%list
       /\ match_one Reference.fromisoformat Scenario.query Scenario.half_past
          = Some (Scenario.half_past, 30)
       /\ (forall b' m, In b' before ->
             match_one Reference.fromisoformat Scenario.query b' = Some m ->
             30 < snd m)
       /\ (forall b' m, In b' after ->
             match_one Reference.fromisoformat Scenario.query b' = Some m ->
             30 <= snd m).
Proof.
  split; [vm_compute; reflexivity|].
  apply (best_match_nearest_then_earliest Reference.fromisoformat
           Scenario.query Scenario.candidates Scenario.half_past 30).
  vm_compute. reflexivity.
Defined.

(** The cancelled booking at 2:00 PM sharp is not matched. *)
Lemma cancelled_never_matched_witness :
  is_cancelled Scenario.cancelled_exact = true
  /\ match_one Reference.fromisoformat Scenario.query Scenario.cancelled_exact
     = None
  /\ ~ In (Scenario.cancelled_exact, 0)
         (matching_bookings Reference.fromisoformat Scenario.query
            Scenario.candidates)
  /\ best_match Reference.fromisoformat Scenario.query Scenario.candidates
     <> Some (Scenario.cancelled_exact, 0).
Proof.
  split; [reflexivity|].
  apply (cancelled_never_matched Reference.fromisoformat Scenario.query
           Scenario.candidates Scenario.cancelled_exact 0).
  reflexivity.
Defined.

(** *** The target of the search *)

Section Target.
Variable strptime : string -> string -> option datetime.
Variable fromisoformat : string -> option pydatetime.

(** The target of the search is the parsed text taken to UTC and back,
    provided [fromisoformat] reads the string [convert_to_utc_iso] wrote
    as the instant it stands for. *)
Lemma resolve_target_roundtrip date_time_eastern L :
  parse_local_datetime strptime date_time_eastern = Ok L ->
  valid L = true ->
  86400 <= to_seconds L -> to_seconds L + 86400 < MAX_SECONDS ->
  (forall u,
      to_utc L = Ok u ->
      fromisoformat (replace "Z" "+00:00" (strftime_iso_z (wall u)))
      = Some (of_aware u)) ->
  resolve_target strptime fromisoformat date_time_eastern
  = rbind (to_utc L)
      (fun u => rbind (to_eastern (of_aware u)) (fun e => Ok (wall e))).
Proof.
  intros Hp Hv Hlo Hhi Hiso.
  pose proof (to_utc_spec L Hv Hlo Hhi) as Hu.
  specialize (Hiso _ Hu).
  unfold resolve_target, convert_to_utc_iso, utc_iso_of_local, parse_iso.
  rewrite Hp. cbn [rbind]. rewrite Hu. cbn [rbind]. rewrite Hiso.
  cbn [of_aware fields tzinfo_of wall tz].
  unfold to_eastern. cbn [of_aware fields tzinfo_of wall tz].
  set (x := to_seconds L - utcoffset (Eastern (wall_is_dst L))).
  assert (Hx : 0 <= x < MAX_SECONDS)
    by (unfold x; destruct (wall_is_dst L); simpl; lia).
  unfold astimezone_utc at 1. cbn [wall tz utcoffset UTC].
  rewrite add_seconds_in_range by (rewrite to_seconds_of_seconds; lia).
  rewrite to_seconds_of_seconds by lia.
  replace (x + - 0) with x by lia.
  cbn [rbind of_aware fields tzinfo_of wall tz]. reflexivity.
Qed.

(** Outside the skipped hour the date, hour and minute searched for are
    those the user gave. *)
Lemma resolve_target_existing date_time_eastern L :
  parse_local_datetime strptime date_time_eastern = Ok L ->
  valid L = true ->
  86400 <= to_seconds L -> to_seconds L + 86400 < MAX_SECONDS ->
  in_spring_gap L = false ->
  (forall u,
      to_utc L = Ok u ->
      fromisoformat (replace "Z" "+00:00" (strftime_iso_z (wall u)))
      = Some (of_aware u)) ->
  resolve_target strptime fromisoformat date_time_eastern = Ok L.
Proof.
  intros Hp Hv Hlo Hhi Hgap Hiso.
  rewrite (resolve_target_roundtrip _ L) by assumption.
  now apply existing_value_returns.
Qed.

End Target.

Example resolve_target_scenario :
  resolve_target Reference.strptime Reference.fromisoformat
    "2026-07-15 14:00" = Ok Scenario.query.
Proof. vm_compute. reflexivity. Qed.

End BookingSpec.

(* ================================================================== *)
(** ** The tools: outcomes and calls *)
(* ================================================================== *)

Module ToolSpec.
Import PyDatetime Pytz PyStr TimeUtils CalcomTools.
Local Open Scope string_scope.
Local Open Scope Z_scope.

Section ToolFacts.
Variable strptime : string -> string -> option datetime.
Variable fromisoformat : string -> option pydatetime.
Variable calcom_client : CalComClient.
Variable env : environment.

(** A handler that returns makes the whole [try] return. *)
Lemma try_except_returns {A} (m : M A) (h : exn -> M A) tr :
  (forall e tr', exists a, fst (h e tr') = Ok a) ->
  exists a, fst (try_except m h tr) = Ok a.
Proof.
  intros Hh. unfold try_except.
  destruct (m tr) as [[a|e] tr']; [exists a; reflexivity|apply Hh].
Qed.

Lemma ret_returns {A} (a : A) tr : exists a', fst (ret a tr) = Ok a'.
Proof. exists a. reflexivity. Qed.

(** C9.  Whatever the arguments, the answers of the scheduling client and
    the exceptions raised on the way (by the parsing, by the date
    arithmetic, by the client), each of the six tools returns a text and
    lets no exception out. *)
Theorem tools_always_return_text tr :
  (forall take status email,
      exists text,
        fst (get_all_bookings fromisoformat calcom_client env
               take status email tr) = Ok text)
  /\ (forall booking_uid,
        exists text,
          fst (get_booking fromisoformat calcom_client env booking_uid tr)
          = Ok text)
  /\ (forall start_time_eastern attendee_name attendee_email,
        exists text,
          fst (create_connect_meeting strptime fromisoformat calcom_client
                 env start_time_eastern attendee_name attendee_email tr)
          = Ok text)
  /\ (forall start_time_eastern attendee_name attendee_email,
        exists text,
          fst (create_discover_meeting strptime fromisoformat calcom_client
                 env start_time_eastern attendee_name attendee_email tr)
          = Ok text)
  /\ (forall booking_uid old_date_time_eastern new_start_time_eastern reason,
        exists text,
          fst (reschedule_booking strptime fromisoformat calcom_client env
                 booking_uid old_date_time_eastern new_start_time_eastern
                 reason tr) = Ok text)
  /\ (forall booking_uid date_time_eastern reason,
        exists text,
          fst (cancel_booking strptime fromisoformat calcom_client env
                 booking_uid date_time_eastern reason tr) = Ok text).
Proof.
  repeat split; intros;
    unfold get_all_bookings, get_booking, create_connect_meeting,
      create_discover_meeting, create_meeting, reschedule_booking,
      cancel_booking;
    apply try_except_returns; intros e tr';
    repeat match goal with
           | |- context [if ?c then _ else _] => destruct c
           end;
    apply ret_returns.
Qed.

(** *** Calls made while a booking is looked up *)

Lemma extends_quietly_refl tr : extends_quietly tr tr.
Proof. exists []. split; [now rewrite app_nil_r|constructor]. Qed.

Lemma extends_quietly_step tr tr' c :
  extends_quietly tr tr' -> is_mutating c = false ->
  extends_quietly tr (tr' ++ [c])%list.
Proof.
  intros (added & -> & Hq) Hc. exists (added ++ [c])%list.
  split; [now rewrite app_assoc|].
  apply Forall_app. split; [assumption|repeat constructor; assumption].
Qed.

(** The search by date and time only lists bookings. *)
Lemma search_by_time_quiet date_time_eastern parse_error tr r tr' :
  search_by_time strptime fromisoformat calcom_client env
    date_time_eastern parse_error tr = (r, tr') ->
  extends_quietly tr tr'.
Proof.
  unfold search_by_time. cbv zeta.
  destruct (negb (truthy (search_email env))).
  - intros [= <- <-]. apply extends_quietly_refl.
  - unfold bind, perform.
    destruct (get_all_bookings_response _ _ _ _ _) as [bookings|e].
    + destruct (resolve_target _ _ _) as [target|e];
        [destruct (best_match _ _ _) as [[b d]|];
         [destruct (negb (truthy (b_uid b)))|]|];
        intros [= <- <-];
        (apply extends_quietly_step; [apply extends_quietly_refl|reflexivity]).
    + intros [= <- <-].
      apply extends_quietly_step; [apply extends_quietly_refl|reflexivity].
Qed.

Lemma resolve_booking_quiet booking_uid date_time_eastern parse_error missing
    tr r tr' :
  resolve_booking strptime fromisoformat calcom_client env
    booking_uid date_time_eastern parse_error missing tr = (r, tr') ->
  extends_quietly tr tr'.
Proof.
  unfold resolve_booking, bind.
  destruct (negb (truthy booking_uid) && truthy date_time_eastern).
  - destruct (search_by_time _ _ _ _ _ _ tr) as [[[text|uid]|e] tr1] eqn:E;
      apply search_by_time_quiet in E;
      [|destruct (String.eqb uid "")|]; intros [= <- <-]; exact E.
  - unfold ret.
    destruct booking_uid as [u|]; [destruct (String.eqb u "")|];
      intros [= <- <-]; apply extends_quietly_refl.
Qed.

(** A booking resolved by date and time was selected by [best_match]
    among the bookings the client listed: it is one of them, it is not
    cancelled, and it starts on the target date within the window. *)
Lemma search_by_time_resolved date_time_eastern parse_error tr uid tr' :
  search_by_time strptime fromisoformat calcom_client env
    date_time_eastern parse_error tr = (Ok (inr uid), tr') ->
  exists filter_email bookings target b d,
    get_all_bookings_response calcom_client tr 100 "upcoming" filter_email
    = Ok bookings
    /\ resolve_target strptime fromisoformat date_time_eastern = Ok target
    /\ best_match fromisoformat target bookings = Some (b, d)
    /\ b_uid b = Some uid
    /\ In b bookings
    /\ is_cancelled b = false
    /\ exists e,
         booking_eastern fromisoformat (get_default (b_start b) "") = Ok e
         /\ date_eqb e target = true
         /\ d = time_diff e target
         /\ d <= 30.
Proof.
  unfold search_by_time. cbv zeta.
  destruct (negb (truthy (search_email env))); [discriminate|].
  unfold bind, perform.
  destruct (get_all_bookings_response _ _ _ _ _) as [bookings|e] eqn:Eg;
    [|discriminate].
  destruct (resolve_target _ _ _) as [target|e] eqn:Et; [|discriminate].
  destruct (best_match _ _ _) as [[b d]|] eqn:Eb; [|discriminate].
  destruct (b_uid b) as [u|] eqn:Eu; cbn [truthy negb]; [|discriminate].
  destruct (String.eqb u ""); cbn [negb]; [discriminate|].
  cbn [get_default]. intros [= <- <-].
  pose proof (BookingSpec.best_match_in _ _ _ _ Eb) as Hin.
  apply BookingSpec.in_matching_bookings in Hin as (b' & Hb' & Hm).
  pose proof (BookingSpec.match_one_fst _ _ _ _ Hm) as Hf.
  cbn [fst] in Hf. subst b'.
  apply BookingSpec.match_one_Some in Hm
    as (Hc & _ & e0 & He & Hd & Hle & [= ->]).
  eexists _, bookings, target, b, _.
  repeat split; eauto.
Qed.

(** C8.  When [cancel_booking] has fixed the booking to cancel and the
    client reports that booking with status ["cancelled"], the tool
    returns the text saying so; on the way it has only read from the
    client, and the cancel operation is not called. *)
Theorem cancel_already_cancelled
    booking_uid date_time_eastern reason tr current_time uid tr1 b :
  current_time_text env = Ok current_time ->
  resolve_booking strptime fromisoformat calcom_client env
    booking_uid date_time_eastern
    (cancel_parse_error date_time_eastern) cancel_missing_text tr
  = (Ok (inr uid), tr1) ->
  get_booking_response calcom_client tr1 uid = Ok (RDict b) ->
  is_cancelled b = true ->
  cancel_booking strptime fromisoformat calcom_client env
    booking_uid date_time_eastern reason tr
  = (Ok already_cancelled_text, (tr1 ++ [GetBooking uid])%list)
  /\ extends_quietly tr (tr1 ++ [GetBooking uid])%list.
Proof.
  intros Hct Hres Hget Hc. split.
  - unfold cancel_booking, try_except, bind, lift.
    rewrite Hct, Hres.
    unfold verify_not_cancelled, try_except, bind, perform.
    rewrite Hget. unfold is_cancelled in Hc. rewrite Hc. reflexivity.
  - apply extends_quietly_step; [|reflexivity].
    eapply resolve_booking_quiet. exact Hres.
Qed.

End ToolFacts.

(** Cancelling booking ["c"] by its UID on the client of the scenario. *)
Lemma cancel_already_cancelled_witness :
  is_cancelled Scenario.cancelled_exact = true
  /\ cancel_booking Reference.strptime Reference.fromisoformat
       Scenario.sample_client Scenario.sample_env (Some "c") None None []
     = (Ok already_cancelled_text, ([] ++ [GetBooking "c"])%list)
  /\ extends_quietly [] ([] ++ [GetBooking "c"])%list.
Proof.
  split; [reflexivity|].
  apply (cancel_already_cancelled Reference.strptime Reference.fromisoformat
           Scenario.sample_client Scenario.sample_env (Some "c") None None []
           "Wednesday, July 01, 2026 at 08:00 AM Eastern Time" "c" []
           Scenario.cancelled_exact).
  - vm_compute. reflexivity.
  - reflexivity.
  - reflexivity.
  - reflexivity.
Defined.

(** The same when the booking is found by date and time: the bookings are
    listed, the one at 2:30 PM is fetched, and nothing else is called. *)
Example cancel_by_time_already_cancelled :
  cancel_booking Reference.strptime Reference.fromisoformat
    Scenario.sample_client Scenario.sample_env
    None (Some "2026-07-15 14:00") None []
  = (Ok already_cancelled_text,
     [GetAllBookings 100 "upcoming" "user@example.com"; GetBooking "a"]).
Proof. vm_compute. reflexivity. Qed.

(** A failing client call becomes a text. *)
Example reschedule_reports_client_error :
  fst (reschedule_booking Reference.strptime Reference.fromisoformat
         Scenario.sample_client Scenario.sample_env
         (Some "a") None "2026-07-16 10:00" None [])
  = Ok "Error rescheduling booking - bad request. Please check: 1) Time format is correct (Eastern Time), 2) Date is in the future, 3) Booking UID is valid. Details: Cal.com API error (400)".
Proof. vm_compute. reflexivity. Qed.

End ToolSpec.

(* ================================================================== *)
(** ** Strings *)
(* ================================================================== *)

Module StringFacts.
Import PyStr.
Local Open Scope string_scope.

Lemma endswith_char_app c s t :
  t <> "" -> endswith_char c (s ++ t) = endswith_char c t.
Proof.
  intros Ht. induction s as [|a s IH]; [reflexivity|].
  cbn [append endswith_char]. rewrite IH.
  destruct (s ++ t) eqn:E; [|reflexivity].
  destruct s; [cbn in E; contradiction|discriminate].
Qed.

Lemma drop_last_snoc s c : drop_last (s ++ String c "") = s.
Proof.
  induction s as [|a s IH]; [reflexivity|].
  cbn [append drop_last]. rewrite IH.
  destruct (s ++ String c "") eqn:E; [|reflexivity].
  destruct s; discriminate.
Qed.

Lemma startswith_app p s : startswith p (p ++ s) = true.
Proof.
  induction p as [|a p IH]; [reflexivity|].
  cbn [append startswith]. now rewrite Ascii.eqb_refl, IH.
Qed.

Lemma contains_app p a b : contains p (a ++ p ++ b) = true.
Proof.
  induction a as [|c a IH].
  - cbn [append]. destruct (p ++ b) eqn:E;
      cbn [contains]; rewrite <- ?E, startswith_app; reflexivity.
  - cbn [append contains]. rewrite IH. apply orb_true_r.
Qed.

Lemma length_drop_last_cons a s :
  String.length (drop_last (String a s)) = String.length s.
Proof.
  revert a. induction s as [|b s IH]; intros a; [reflexivity|].
  change (drop_last (String a (String b s)))
    with (String a (drop_last (String b s))).
  cbn [String.length]. now rewrite IH.
Qed.

Lemma length_append s t :
  String.length (s ++ t) = (String.length s + String.length t)%nat.
Proof. induction s; cbn; [reflexivity|now rewrite IHs]. Qed.

Lemma lower_nil s : lower s = "" -> s = "".
Proof. destruct s; [reflexivity|discriminate]. Qed.

End StringFacts.

(* ================================================================== *)
(** ** Times shown and times sent *)
(* ================================================================== *)

Module DisplaySpec.
Import PyDatetime Pytz PyStr TimeUtils CalcomTools.
Import CalendarFacts ZoneFacts StringFacts.
Local Open Scope string_scope.
Local Open Scope Z_scope.

(** The Eastern reading of a UTC clock value: four hours behind while
    daylight time is in force, five otherwise. *)
Lemma fromutc_spec u :
  valid u = true -> 2 <= year u <= 9998 ->
  fromutc u
  = Ok (mkaware
          (plus_hours u (if dst_between (year u) (to_seconds u)
                         then -4 else -5))
          (Eastern (dst_between (year u) (to_seconds u)))).
Proof.
  intros Hv Hy. pose proof (year_range_seconds u Hv Hy) as [Hlo Hhi].
  unfold fromutc, plus_hours.
  rewrite (tzinfo_at_local u Hv) by lia.
  destruct (dst_between _ _); cbn [utcoffset];
    rewrite add_seconds_in_range by lia; reflexivity.
Qed.

(** Formatting a value [fromutc] produced prints its own wall clock: the
    conversion [format_eastern_time] applies to an aware value leaves it
    in place. *)
Lemma format_of_fromutc u :
  valid u = true -> 2 <= year u <= 9998 ->
  rbind (fromutc u) (fun a => format_eastern_time (of_aware a))
  = Ok (strftime_eastern
          (plus_hours u (if dst_between (year u) (to_seconds u)
                         then -4 else -5))).
Proof.
  intros Hv Hy. pose proof (year_range_seconds u Hv Hy) as [Hlo Hhi].
  rewrite fromutc_spec by assumption. cbn [rbind].
  unfold format_eastern_time, of_aware. cbn [tzinfo_of fields wall tz].
  unfold astimezone_eastern. cbn [wall tz].
  unfold plus_hours.
  assert (E : add_seconds
                (of_seconds (to_seconds u
                   + (if dst_between (year u) (to_seconds u) then -4 else -5)
                     * 3600))
                (- utcoffset (Eastern (dst_between (year u) (to_seconds u))))
              = Ok u).
  { destruct (dst_between _ _); cbn [utcoffset];
      (rewrite add_seconds_in_range
         by (rewrite to_seconds_of_seconds by lia; lia));
      rewrite to_seconds_of_seconds by lia; f_equal;
      (transitivity (of_seconds (to_seconds u));
       [f_equal; lia|apply (of_seconds_to_seconds u Hv)]). }
  rewrite E. cbn [rbind]. rewrite fromutc_spec by assumption.
  reflexivity.
Qed.

Lemma normalize_utc_suffix_Z s :
  normalize_utc_suffix (s ++ "Z") = s ++ "+00:00".
Proof.
  unfold normalize_utc_suffix.
  rewrite endswith_char_app by discriminate.
  change (endswith_char "Z" "Z") with true. cbv iota.
  now rewrite drop_last_snoc.
Qed.

Lemma normalize_utc_suffix_offset s :
  normalize_utc_suffix (s ++ "+00:00") = s ++ "+00:00".
Proof.
  unfold normalize_utc_suffix.
  rewrite endswith_char_app by discriminate.
  change (endswith_char "Z" "+00:00") with false. cbv iota.
  change (s ++ "+00:00") with (s ++ "+" ++ "00:00").
  rewrite contains_app. reflexivity.
Qed.

(** The rewriting leaves a string as it is exactly when the string does
    not end in [Z] and either holds a [+] or has fewer than three [-]. *)
Lemma normalize_utc_suffix_fixed s :
  normalize_utc_suffix s = s <->
  endswith_char "Z" s = false
  /\ (contains "+" s = true \/ count_char "-" s < 3).
Proof.
  unfold normalize_utc_suffix.
  destruct (endswith_char "Z" s) eqn:Ez.
  - split; [|intros [? _]; discriminate].
    intros E. exfalso. destruct s as [|a s]; [discriminate|].
    apply (f_equal String.length) in E.
    rewrite length_append, length_drop_last_cons in E. cbn in E. lia.
  - destruct (contains "+" s) eqn:Ec; cbn [negb andb].
    + split; auto.
    + destruct (Z.leb_spec 3 (count_char "-" s)).
      * split.
        -- intros E. apply (f_equal String.length) in E.
           rewrite length_append in E. cbn in E. lia.
        -- intros [_ [?|?]]; [discriminate|lia].
      * split; auto.
Qed.

Section Display.
Variable strptime : string -> string -> option datetime.
Variable fromisoformat : string -> option pydatetime.

(** X1.  [convert_utc_to_eastern] gives a string ending in [Z] the result
    it gives the same string ending in [+00:00]: the two notations of UTC
    are treated alike, whether the rest parses or not. *)
Theorem zulu_suffix_same_as_utc_offset s :
  convert_utc_to_eastern fromisoformat (s ++ "Z")
  = convert_utc_to_eastern fromisoformat (s ++ "+00:00").
Proof.
  unfold convert_utc_to_eastern.
  now rewrite normalize_utc_suffix_Z, normalize_utc_suffix_offset.
Qed.

(** X2.  When the conversion fails, [convert_utc_to_eastern] returns its
    argument unchanged exactly when the argument does not end in [Z] and
    either contains a [+] or has fewer than three [-]; in every other case
    the string handed back differs from the one received. *)
Theorem fallback_unchanged_iff utc_iso_str e :
  utc_to_eastern_body fromisoformat (normalize_utc_suffix utc_iso_str)
  = Raise e ->
  (convert_utc_to_eastern fromisoformat utc_iso_str = utc_iso_str
   <-> endswith_char "Z" utc_iso_str = false
       /\ (contains "+" utc_iso_str = true
           \/ count_char "-" utc_iso_str < 3)).
Proof.
  intros H. unfold convert_utc_to_eastern. cbv zeta. rewrite H.
  apply normalize_utc_suffix_fixed.
Qed.

(** X3.  When [fromisoformat] reads the rewritten string as the UTC clock
    value [u] (naive, or with the zero offset), [convert_utc_to_eastern]
    returns the formatted Eastern reading of that instant: [u] minus four
    hours while daylight time is in force, minus five hours otherwise.
    The years are those of four digits, away from the ends of the range. *)
Theorem utc_string_shown_on_eastern_clock utc_iso_str u z :
  fromisoformat (replace "Z" "+00:00" (normalize_utc_suffix utc_iso_str))
  = Some (mkpy u z) ->
  z = None \/ z = Some UTC ->
  valid u = true -> 1001 <= year u <= 9998 ->
  convert_utc_to_eastern fromisoformat utc_iso_str
  = strftime_eastern
      (plus_hours u (if dst_between (year u) (to_seconds u) then -4 else -5)).
Proof.
  intros Hp Hz Hv Hy'. assert (Hy : 2 <= year u <= 9998) by lia.
  pose proof (year_range_seconds u Hv Hy) as [Hlo Hhi].
  unfold convert_utc_to_eastern, utc_to_eastern_body, parse_iso. cbv zeta.
  rewrite Hp. cbn [rbind].
  assert (E : to_eastern (mkpy u z) = fromutc u).
  { unfold to_eastern. cbn [tzinfo_of fields].
    assert (Ha : add_seconds u (- 0) = Ok u).
    { rewrite add_seconds_in_range by lia.
      replace (to_seconds u + - 0) with (to_seconds u) by lia.
      now rewrite of_seconds_to_seconds. }
    destruct Hz as [-> | ->].
    - cbn [rbind]. unfold astimezone_eastern. cbn [wall tz utcoffset UTC].
      rewrite Ha. reflexivity.
    - unfold astimezone_utc. cbn [wall tz utcoffset UTC]. rewrite Ha.
      cbn [rbind]. unfold astimezone_eastern. cbn [wall tz utcoffset UTC].
      rewrite Ha. reflexivity. }
  rewrite E.
  pose proof (format_of_fromutc u Hv Hy) as Hf.
  unfold rbind in Hf |- *. destruct (fromutc u); [|discriminate].
  rewrite Hf. reflexivity.
Qed.

(** X4.  The current time the tools report is the clock's UTC reading
    moved to Eastern time, four or five hours back, and formatted; for a
    clock between the years 1001 and 9998 no exception is raised. *)
Theorem current_time_is_eastern_reading env :
  valid (now_utc env) = true -> 1001 <= year (now_utc env) <= 9998 ->
  current_time_text env
  = Ok (strftime_eastern
          (plus_hours (now_utc env)
             (if dst_between (year (now_utc env)) (to_seconds (now_utc env))
              then -4 else -5))).
Proof.
  intros Hv Hy. unfold current_time_text, get_current_eastern_time.
  apply format_of_fromutc; [assumption|lia].
Qed.

(** X5.  [format_eastern_time] takes a naive value as an Eastern wall
    clock and prints its fields as they are, without any shift; this holds
    in the repeated hour and in the skipped one as well. *)
Theorem naive_value_formatted_as_given L :
  valid L = true -> 1000 <= year L <= 9998 ->
  format_eastern_time (naive L) = Ok (strftime_eastern L).
Proof.
  intros Hv Hy'. assert (Hy : 2 <= year L <= 9998) by lia.
  pose proof (year_range_seconds L Hv Hy) as [Hlo Hhi].
  unfold format_eastern_time, naive. cbn [tzinfo_of fields].
  rewrite localize_spec by (assumption || lia). reflexivity.
Qed.

(** X6.  Whatever text parses to the local value [L], on any date of a
    four-digit year, [convert_to_utc_iso] returns [L] plus four hours when
    [localize] puts [L] in daylight time and plus five hours otherwise,
    printed as [%Y-%m-%dT%H:%M:%SZ]; it does not raise. *)
Theorem utc_text_is_local_plus_offset eastern_time_str L :
  parse_local_datetime strptime eastern_time_str = Ok L ->
  valid L = true -> 1000 <= year L <= 9998 ->
  convert_to_utc_iso strptime eastern_time_str
  = Ok (strftime_iso_z (plus_hours L (if wall_is_dst L then 4 else 5))).
Proof.
  intros Hp Hv Hy'. assert (Hy : 2 <= year L <= 9998) by lia.
  pose proof (year_range_seconds L Hv Hy) as [Hlo Hhi].
  unfold convert_to_utc_iso, utc_iso_of_local. rewrite Hp. cbn [rbind].
  rewrite TimeUtilsSpec.to_utc_spec by (assumption || lia). cbn [rbind wall].
  unfold plus_hours. destruct (wall_is_dst L); cbn [utcoffset];
    do 3 f_equal; lia.
Qed.

End Display.

(** A text that is no date comes back as it is. *)
Lemma fallback_unchanged_iff_witness :
  convert_utc_to_eastern Reference.fromisoformat "next week" = "next week"
  <-> endswith_char "Z" "next week" = false
      /\ (contains "+" "next week" = true \/ count_char "-" "next week" < 3).
Proof.
  apply (fallback_unchanged_iff Reference.fromisoformat "next week"
           (ValueError "Invalid isoformat string: 'next week'")).
  vm_compute. reflexivity.
Defined.

(** 6:00 PM UTC on July 15, 2026 is shown as 2:00 PM. *)
Lemma utc_string_shown_on_eastern_clock_witness :
  convert_utc_to_eastern Reference.fromisoformat "2026-07-15T18:00:00Z"
  = strftime_eastern
      (plus_hours (mkdt 2026 7 15 18 0 0)
         (if dst_between 2026 (to_seconds (mkdt 2026 7 15 18 0 0))
          then -4 else -5)).
Proof.
  apply (utc_string_shown_on_eastern_clock Reference.fromisoformat
           "2026-07-15T18:00:00Z" (mkdt 2026 7 15 18 0 0) (Some UTC)).
  - vm_compute. reflexivity.
  - right. reflexivity.
  - reflexivity.
  - simpl. lia.
Defined.

Example utc_string_shown_at_two_pm :
  convert_utc_to_eastern Reference.fromisoformat "2026-07-15T18:00:00Z"
  = "Wednesday, July 15, 2026 at 02:00 PM Eastern Time".
Proof. vm_compute. reflexivity. Qed.

Lemma current_time_is_eastern_reading_witness :
  current_time_text Scenario.sample_env
  = Ok (strftime_eastern
          (plus_hours (mkdt 2026 7 1 12 0 0)
             (if dst_between 2026 (to_seconds (mkdt 2026 7 1 12 0 0))
              then -4 else -5))).
Proof.
  apply (current_time_is_eastern_reading Scenario.sample_env).
  - reflexivity.
  - simpl. lia.
Defined.

(** 2:30 AM on March 8, 2026 never happened, and is printed all the
    same. *)
Lemma naive_value_formatted_as_given_witness :
  in_spring_gap (mkdt 2026 3 8 2 30 0) = true
  /\ format_eastern_time (naive (mkdt 2026 3 8 2 30 0))
     = Ok (strftime_eastern (mkdt 2026 3 8 2 30 0)).
Proof.
  split; [reflexivity|].
  apply (naive_value_formatted_as_given (mkdt 2026 3 8 2 30 0)).
  - reflexivity.
  - simpl. lia.
Defined.

Lemma utc_text_is_local_plus_offset_witness :
  convert_to_utc_iso Reference.strptime "2026-12-24 18:30"
  = Ok (strftime_iso_z
          (plus_hours (mkdt 2026 12 24 18 30 0)
             (if wall_is_dst (mkdt 2026 12 24 18 30 0) then 4 else 5))).
Proof.
  apply (utc_text_is_local_plus_offset Reference.strptime
           "2026-12-24 18:30" (mkdt 2026 12 24 18 30 0)).
  - vm_compute. reflexivity.
  - reflexivity.
  - simpl. lia.
Defined.

Example christmas_eve_in_utc :
  convert_to_utc_iso Reference.strptime "2026-12-24 18:30"
  = Ok "2026-12-24T23:30:00Z".
Proof. vm_compute. reflexivity. Qed.

End DisplaySpec.

(* ================================================================== *)
(** ** The calls the tools make *)
(* ================================================================== *)

Module ToolCalls.
Import PyDatetime Pytz PyStr TimeUtils CalcomTools.
Local Open Scope string_scope.
Local Open Scope Z_scope.

Lemma truthy_nonempty u : truthy (Some u) = true -> String.eqb u "" = false.
Proof. cbn. now destruct (String.eqb u ""). Qed.

(** A trace extended without mutating calls holds no new mutating call. *)
Lemma quiet_has_no_mutation tr tr' c :
  extends_quietly tr tr' -> is_mutating c = true -> In c tr' -> In c tr.
Proof.
  intros (added & -> & Hq) Hc Hin. apply in_app_or in Hin as [H|H]; [exact H|].
  rewrite Forall_forall in Hq. rewrite (Hq c H) in Hc. discriminate.
Qed.

Section ToolCallFacts.
Variable strptime : string -> string -> option datetime.
Variable fromisoformat : string -> option pydatetime.
Variable calcom_client : CalComClient.
Variable env : environment.

(** With a UID given nothing is searched. *)
Lemma resolve_booking_given_uid u d parse_error missing tr :
  truthy (Some u) = true ->
  resolve_booking strptime fromisoformat calcom_client env
    (Some u) d parse_error missing tr = (Ok (inr u), tr).
Proof.
  intros H. unfold resolve_booking, bind, ret.
  rewrite H. cbn [negb andb]. now rewrite (truthy_nonempty u H).
Qed.

(** A search that resolves a booking listed the bookings of the search
    e-mail and took the best match. *)
Lemma search_by_time_listing date_time_eastern parse_error tr uid tr' :
  search_by_time strptime fromisoformat calcom_client env
    date_time_eastern parse_error tr = (Ok (inr uid), tr') ->
  truthy (search_email env) = true
  /\ exists bookings target b d,
       get_all_bookings_response calcom_client tr 100 "upcoming"
         (get_default (search_email env) "") = Ok bookings
       /\ resolve_target strptime fromisoformat date_time_eastern = Ok target
       /\ best_match fromisoformat target bookings = Some (b, d)
       /\ b_uid b = Some uid.
Proof.
  unfold search_by_time. cbv zeta.
  destruct (truthy (search_email env)); cbn [negb]; [|discriminate].
  unfold bind, perform.
  destruct (get_all_bookings_response _ _ _ _ _) as [bookings|e] eqn:Eg;
    [|discriminate].
  destruct (resolve_target _ _ _) as [target|e] eqn:Et; [|discriminate].
  destruct (best_match _ _ _) as [[b d]|] eqn:Eb; [|discriminate].
  destruct (b_uid b) as [u|] eqn:Eu; cbn [truthy negb]; [|discriminate].
  destruct (String.eqb u ""); cbn [negb]; [discriminate|].
  cbn [get_default]. intros [= <- <-].
  split; [reflexivity|]. exists bookings, target, b, d. auto.
Qed.

Lemma verify_not_cancelled_calls uid tr :
  exists v,
    verify_not_cancelled calcom_client uid tr
    = (Ok v, (tr ++ [GetBooking uid])%list).
Proof.
  unfold verify_not_cancelled, try_except, bind, perform, ret.
  destruct (get_booking_response _ _ _) as [resp|e]; [|eauto].
  destruct (String.eqb _ _); eauto.
Qed.

Lemma cancel_and_report_calls ct uid reason tr :
  exists r,
    cancel_and_report fromisoformat calcom_client ct uid reason tr
    = (r, (tr ++ [CancelBooking uid reason])%list).
Proof.
  unfold cancel_and_report, bind, perform, ret.
  destruct (cancel_booking_response _ _ _ _) as [[b|repr]|e]; eauto.
  destruct (String.eqb _ _); eauto.
Qed.

(** The two shapes of a run of [cancel_booking]: only reads, or a
    resolved booking that is fetched and then cancelled. *)
Lemma cancel_booking_shape booking_uid d reason tr r tr' :
  cancel_booking strptime fromisoformat calcom_client env
    booking_uid d reason tr = (r, tr') ->
  extends_quietly tr tr'
  \/ exists uid tr1,
       resolve_booking strptime fromisoformat calcom_client env
         booking_uid d (cancel_parse_error d) cancel_missing_text tr
       = (Ok (inr uid), tr1)
       /\ tr' = (tr1 ++ [GetBooking uid; CancelBooking uid reason])%list.
Proof.
  unfold cancel_booking, try_except, bind, lift.
  destruct (current_time_text env) as [ct|e].
  2:{ destruct (mentions_not_found _); intros [= <- <-];
        left; apply ToolSpec.extends_quietly_refl. }
  destruct (resolve_booking _ _ _ _ _ _ _ _ tr) as [[[text|uid]|e] tr1] eqn:Er.
  - intros [= <- <-]. left. eapply ToolSpec.resolve_booking_quiet; eauto.
  - destruct (verify_not_cancelled_calls uid tr1) as (v & ->).
    destruct v as [text|].
    + intros [= <- <-]. left.
      apply ToolSpec.extends_quietly_step; [|reflexivity].
      eapply ToolSpec.resolve_booking_quiet; eauto.
    + destruct (cancel_and_report_calls ct uid reason
                  (tr1 ++ [GetBooking uid])%list) as (r0 & ->).
      intros H. right. exists uid, tr1. split; [reflexivity|].
      rewrite <- app_assoc in H. cbn [app] in H.
      destruct r0 as [a|e]; [|destruct (mentions_not_found _)];
        injection H as <- <-; reflexivity.
  - destruct (mentions_not_found _); intros [= <- <-];
      left; eapply ToolSpec.resolve_booking_quiet; eauto.
Qed.

(** The two shapes of a run of [reschedule_booking]. *)
Lemma reschedule_booking_shape booking_uid old new_start reason tr r tr' :
  reschedule_booking strptime fromisoformat calcom_client env
    booking_uid old new_start reason tr = (r, tr') ->
  extends_quietly tr tr'
  \/ exists uid tr1 start parse_error missing,
       resolve_booking strptime fromisoformat calcom_client env
         booking_uid old parse_error missing tr = (Ok (inr uid), tr1)
       /\ convert_to_utc_iso strptime new_start = Ok start
       /\ tr' = (tr1 ++ [RescheduleBooking uid start reason])%list.
Proof.
  unfold reschedule_booking, try_except, bind, lift.
  destruct (String.eqb new_start "").
  { intros [= <- <-]. left. apply ToolSpec.extends_quietly_refl. }
  destruct (current_time_text env) as [ct|e].
  2:{ destruct (is_ValueError e); [|destruct (mentions_bad_request _)];
        intros [= <- <-]; left; apply ToolSpec.extends_quietly_refl. }
  destruct (resolve_booking _ _ _ _ _ _ _ _ tr) as [[[text|uid]|e] tr1] eqn:Er.
  - intros [= <- <-]. left. eapply ToolSpec.resolve_booking_quiet; eauto.
  - destruct (convert_to_utc_iso strptime new_start) as [start|e] eqn:Ec.
    + unfold perform, ret. intros H. right.
      eexists uid, tr1, start, _, _. split; [exact Er|]. split; [reflexivity|].
      destruct (reschedule_booking_response _ _ _ _ _) as [resp|e];
        [|destruct (is_ValueError e); [|destruct (mentions_bad_request _)]];
        injection H as <- <-; reflexivity.
    + destruct (is_ValueError e); [|destruct (mentions_bad_request _)];
        intros [= <- <-]; left; eapply ToolSpec.resolve_booking_quiet; eauto.
  - destruct (is_ValueError e); [|destruct (mentions_bad_request _)];
      intros [= <- <-]; left; eapply ToolSpec.resolve_booking_quiet; eauto.
Qed.

(** X7.  When a non-empty booking UID is given, [cancel_booking] and
    [reschedule_booking] ignore the date and time given with it: the run
    is the same for any two values of that argument.  The bookings are
    not listed then: [cancel_booking] calls the client at most to fetch
    and to cancel the booking of that UID. *)
Theorem uid_given_date_ignored u d d' new_start reason tr :
  truthy (Some u) = true ->
  cancel_booking strptime fromisoformat calcom_client env
    (Some u) d reason tr
  = cancel_booking strptime fromisoformat calcom_client env
      (Some u) d' reason tr
  /\ reschedule_booking strptime fromisoformat calcom_client env
       (Some u) d new_start reason tr
     = reschedule_booking strptime fromisoformat calcom_client env
         (Some u) d' new_start reason tr
  /\ (exists added,
        snd (cancel_booking strptime fromisoformat calcom_client env
               (Some u) d reason tr) = (tr ++ added)%list
        /\ forall c, In c added ->
             c = GetBooking u \/ c = CancelBooking u reason).
Proof.
  intros Hu. split; [|split].
  - unfold cancel_booking, try_except, bind, lift.
    now rewrite !resolve_booking_given_uid.
  - unfold reschedule_booking, try_except, bind, lift.
    destruct (String.eqb new_start ""); [reflexivity|].
    now rewrite !resolve_booking_given_uid.
  - destruct (cancel_booking _ _ _ _ _ _ _ tr) as [r tr'] eqn:E. cbn [snd].
    pose proof E as E'.
    apply cancel_booking_shape in E' as [Hq|(uid & tr1 & Hr & ->)].
    + revert E. unfold cancel_booking, try_except, bind, lift.
      rewrite resolve_booking_given_uid by assumption.
      destruct (current_time_text env) as [ct|e].
      2:{ destruct (mentions_not_found _); intros [= <- <-];
            exists []; rewrite app_nil_r;
            (split; [reflexivity|intros c []]). }
      destruct (verify_not_cancelled_calls u tr) as (v & ->).
      destruct v as [text|].
      * intros [= <- <-]. exists [GetBooking u].
        split; [reflexivity|]. intros c [<-|[]]. now left.
      * destruct (cancel_and_report_calls ct u reason
                    (tr ++ [GetBooking u])%list) as (r0 & ->).
        intros H. exists [GetBooking u; CancelBooking u reason]. split.
        -- rewrite <- app_assoc in H. cbn [app] in H.
           destruct r0 as [a|e]; [|destruct (mentions_not_found _)];
             injection H as <- <-; reflexivity.
        -- intros c [<-|[<-|[]]]; auto.
    + rewrite resolve_booking_given_uid in Hr by assumption.
      injection Hr as <- <-.
      exists [GetBooking u; CancelBooking u reason].
      split; [reflexivity|]. intros c [<-|[<-|[]]]; auto.
Qed.

(** X8.  Whatever its arguments and whatever the client answers, a run
    of [cancel_booking] either makes no mutating call at all, or makes
    exactly one, the cancellation, as its last call and with the reason
    it was given. *)
Theorem cancel_calls_cancel_at_most_once booking_uid d reason tr :
  extends_quietly tr
    (snd (cancel_booking strptime fromisoformat calcom_client env
            booking_uid d reason tr))
  \/ exists uid tr1,
       extends_quietly tr tr1
       /\ snd (cancel_booking strptime fromisoformat calcom_client env
                 booking_uid d reason tr)
          = (tr1 ++ [CancelBooking uid reason])%list.
Proof.
  destruct (cancel_booking _ _ _ _ _ _ _ tr) as [r tr'] eqn:H. cbn [snd].
  apply cancel_booking_shape in H as [H|(uid & tr1 & Hr & ->)];
    [now left|right].
  exists uid, (tr1 ++ [GetBooking uid])%list. split.
  - apply ToolSpec.extends_quietly_step; [|reflexivity].
    eapply ToolSpec.resolve_booking_quiet; eauto.
  - now rewrite <- app_assoc.
Qed.

(** X9.  A run of [reschedule_booking] either makes no mutating call, or
    makes exactly one, as its last call: the rescheduling of the resolved
    booking to the start time [convert_to_utc_iso] computed from the new
    time; when the new time does not convert, nothing is changed. *)
Theorem reschedule_calls_once_at_converted_time
    booking_uid old new_start reason tr :
  extends_quietly tr
    (snd (reschedule_booking strptime fromisoformat calcom_client env
            booking_uid old new_start reason tr))
  \/ exists uid tr1 start,
       extends_quietly tr tr1
       /\ convert_to_utc_iso strptime new_start = Ok start
       /\ snd (reschedule_booking strptime fromisoformat calcom_client env
                 booking_uid old new_start reason tr)
          = (tr1 ++ [RescheduleBooking uid start reason])%list.
Proof.
  destruct (reschedule_booking _ _ _ _ _ _ _ _ tr) as [r tr'] eqn:H.
  cbn [snd].
  apply reschedule_booking_shape in H
    as [H|(uid & tr1 & start & pe & mi & Hr & Hc & ->)]; [now left|right].
  exists uid, tr1, start. repeat split; try assumption.
  eapply ToolSpec.resolve_booking_quiet; eauto.
Qed.

(** X10.  The meeting tools call the client at most once: either no call
    is made, or the single call creates a booking at the start time
    [convert_to_utc_iso] computed, for a non-empty e-mail address that is
    the attendee's when one was given and the default one otherwise, with
    the notes of the conversation. *)
Theorem create_calls_once_at_converted_time
    kind event_type_id example start_time_eastern attendee_name attendee_email
    tr :
  snd (create_meeting strptime fromisoformat calcom_client env kind
         event_type_id example start_time_eastern attendee_name
         attendee_email tr) = tr
  \/ exists start email,
       convert_to_utc_iso strptime start_time_eastern = Ok start
       /\ truthy (Some email) = true
       /\ (attendee_email = Some email
           \/ truthy attendee_email = false /\ email = default_email env)
       /\ snd (create_meeting strptime fromisoformat calcom_client env kind
                 event_type_id example start_time_eastern attendee_name
                 attendee_email tr)
          = (tr ++ [CreateBooking event_type_id start attendee_name email
                      (conversation_notes env)])%list.
Proof.
  unfold create_meeting, try_except, bind, lift, perform, ret.
  set (email := if truthy attendee_email then attendee_email
                else Some (default_email env)).
  destruct (truthy email) eqn:Et; cbn [negb].
  2:{ now left. }
  destruct (convert_to_utc_iso strptime start_time_eastern) as [start|e].
  2:{ destruct (is_ValueError e); [|destruct (mentions_bad_request _)];
        now left. }
  right. exists start, (get_default email ""). split; [reflexivity|].
  split; [|split].
  - destruct email as [m|]; [exact Et|discriminate].
  - unfold email. destruct (truthy attendee_email) eqn:Ea.
    + left. destruct attendee_email; [reflexivity|discriminate].
    + right. split; reflexivity.
  - destruct (create_booking_response _ _ _ _ _ _ _) as [resp|e].
    + destruct (current_time_text env) as [ct|e];
        [|destruct (is_ValueError e); [|destruct (mentions_bad_request _)]];
        reflexivity.
    + destruct (is_ValueError e); [|destruct (mentions_bad_request _)];
        reflexivity.
Qed.

(** X11.  When the fetch that precedes a cancellation raises, the
    exception is dropped and the cancellation is requested all the same:
    the run ends as the cancel call and its report do, and the client has
    been called twice, to fetch and to cancel. *)
Theorem cancel_proceeds_when_fetch_fails u d reason tr current_time e resp :
  truthy (Some u) = true ->
  current_time_text env = Ok current_time ->
  get_booking_response calcom_client tr u = Raise e ->
  cancel_booking_response calcom_client (tr ++ [GetBooking u])%list u reason
  = Ok resp ->
  cancel_booking strptime fromisoformat calcom_client env
    (Some u) d reason tr
  = cancel_and_report fromisoformat calcom_client current_time u reason
      (tr ++ [GetBooking u])%list
  /\ snd (cancel_booking strptime fromisoformat calcom_client env
            (Some u) d reason tr)
     = (tr ++ [GetBooking u; CancelBooking u reason])%list.
Proof.
  intros Hu Hct Hget Hcancel.
  assert (E : cancel_booking strptime fromisoformat calcom_client env
                (Some u) d reason tr
              = cancel_and_report fromisoformat calcom_client current_time u
                  reason (tr ++ [GetBooking u])%list).
  { unfold cancel_booking, try_except, bind, lift.
    rewrite Hct, resolve_booking_given_uid by assumption.
    unfold verify_not_cancelled, try_except, bind, perform.
    rewrite Hget. cbn [ret].
    unfold cancel_and_report, bind, perform. rewrite Hcancel.
    destruct resp as [b|repr]; [destruct (String.eqb _ _)|]; reflexivity. }
  split; [exact E|]. rewrite E.
  destruct (cancel_and_report_calls current_time u reason
              (tr ++ [GetBooking u])%list) as (r0 & ->).
  cbn [snd]. now rewrite <- app_assoc.
Qed.

(** X12.  When none of the thirteen formats parses the start time, a
    meeting tool called with an e-mail address returns the text that
    reports an invalid time format, quoting the text received, and the
    client is not called. *)
Theorem create_rejects_unparseable_time
    kind event_type_id example start_time_eastern attendee_name email tr :
  truthy (Some email) = true ->
  Forall (fun fmt => strptime (strip start_time_eastern) fmt = None) formats ->
  create_meeting strptime fromisoformat calcom_client env kind event_type_id
    example start_time_eastern attendee_name (Some email) tr
  = (Ok ("Error creating " ++ kind ++ " meeting - invalid time format: "
         ++ "Could not parse time string: " ++ start_time_eastern
         ++ ". Please provide time in Eastern Time format (e.g., "
         ++ example ++ ")."), tr).
Proof.
  intros He Hf.
  assert (Hp : convert_to_utc_iso strptime start_time_eastern
               = Raise (ValueError ("Could not parse time string: "
                                    ++ start_time_eastern))).
  { unfold convert_to_utc_iso, parse_local_datetime. cbv zeta.
    destruct (TimeUtilsSpec.try_formats_first strptime
                (strip start_time_eastern) formats)
      as [(pre & fmt & post & dt & Hl & _ & Hs & _)|[_ ->]]; [|reflexivity].
    exfalso. rewrite Forall_forall in Hf.
    rewrite (Hf fmt) in Hs; [discriminate|].
    rewrite Hl. apply in_or_app. right. now left. }
  unfold create_meeting, try_except, bind, lift.
  rewrite He. cbn [negb]. rewrite He. cbn [negb].
  rewrite Hp. reflexivity.
Qed.

(** A search in which no listed booking is kept ends with the text that
    no upcoming booking was found, after the call that lists them. *)
Lemma resolve_booking_no_candidate date_time_eastern tr bookings target
    booking_uid parse_error missing :
  truthy booking_uid = false ->
  truthy (Some date_time_eastern) = true ->
  truthy (search_email env) = true ->
  get_all_bookings_response calcom_client tr 100 "upcoming"
    (get_default (search_email env) "") = Ok bookings ->
  resolve_target strptime fromisoformat date_time_eastern = Ok target ->
  (forall b, In b bookings -> match_one fromisoformat target b = None) ->
  resolve_booking strptime fromisoformat calcom_client env
    booking_uid (Some date_time_eastern) parse_error missing tr
  = (Ok (inl ("No upcoming booking found for " ++ date_time_eastern
              ++ " Eastern Time. Please check the date and time, or provide the booking UID directly.")),
     (tr ++ [GetAllBookings 100 "upcoming"
               (get_default (search_email env) "")])%list).
Proof.
  intros Hu Hd He Hg Ht Hnone.
  assert (Hm : matching_bookings fromisoformat target bookings = []).
  { clear Hg. induction bookings as [|b l IH]; [reflexivity|].
    cbn [matching_bookings]. rewrite (Hnone b) by now left.
    apply IH. intros b' Hb'. apply Hnone. now right. }
  unfold resolve_booking, bind. rewrite Hu, Hd.
  cbn [negb andb get_default].
  unfold search_by_time. cbv zeta. rewrite He. cbn [negb].
  unfold bind, perform. rewrite Hg, Ht.
  rewrite BookingSpec.best_match_first_min, Hm. reflexivity.
Qed.

(** X13.  When [cancel_booking] or [reschedule_booking] searches by date
    and time and the loop keeps none of the bookings listed (each is
    cancelled, has no start time or one that does not parse, is on
    another date or is more than thirty minutes away; in particular when
    the list is empty), the tool returns the text that no upcoming booking
    was found, and the only call made is the one that lists the
    bookings. *)
Theorem no_candidate_reported date_time_eastern tr bookings target
    booking_uid reason new_start current_time :
  truthy booking_uid = false ->
  truthy (Some date_time_eastern) = true ->
  truthy (Some new_start) = true ->
  truthy (search_email env) = true ->
  current_time_text env = Ok current_time ->
  get_all_bookings_response calcom_client tr 100 "upcoming"
    (get_default (search_email env) "") = Ok bookings ->
  resolve_target strptime fromisoformat date_time_eastern = Ok target ->
  (forall b, In b bookings -> match_one fromisoformat target b = None) ->
  cancel_booking strptime fromisoformat calcom_client env
    booking_uid (Some date_time_eastern) reason tr
  = (Ok ("No upcoming booking found for " ++ date_time_eastern
         ++ " Eastern Time. Please check the date and time, or provide the booking UID directly."),
     (tr ++ [GetAllBookings 100 "upcoming"
               (get_default (search_email env) "")])%list)
  /\ reschedule_booking strptime fromisoformat calcom_client env
       booking_uid (Some date_time_eastern) new_start reason tr
     = (Ok ("No upcoming booking found for " ++ date_time_eastern
            ++ " Eastern Time. Please check the date and time, or provide the booking UID directly."),
        (tr ++ [GetAllBookings 100 "upcoming"
                  (get_default (search_email env) "")])%list).
Proof.
  intros Hu Hd Hn He Hct Hg Ht Hnone. split.
  - unfold cancel_booking, try_except, bind, lift. rewrite Hct.
    rewrite (resolve_booking_no_candidate _ _ bookings target)
      by assumption.
    reflexivity.
  - unfold reschedule_booking, try_except, bind, lift.
    rewrite (truthy_nonempty _ Hn), Hct.
    rewrite (resolve_booking_no_candidate _ _ bookings target)
      by assumption.
    reflexivity.
Qed.

(** X14.  When [cancel_booking], called with a date and time and no UID,
    requests a cancellation, the UID cancelled is that of a booking the
    client listed for the search e-mail, which the loop kept for the
    target computed from the text (so it is within thirty minutes on the
    target date and not cancelled) and than which no kept booking is
    nearer. *)
Theorem cancel_by_time_acts_on_match
    date_time_eastern reason tr r tr' uid reason' :
  cancel_booking strptime fromisoformat calcom_client env
    None (Some date_time_eastern) reason tr = (r, tr') ->
  ~ In (CancelBooking uid reason') tr ->
  In (CancelBooking uid reason') tr' ->
  exists bookings target b d,
    get_all_bookings_response calcom_client tr 100 "upcoming"
      (get_default (search_email env) "") = Ok bookings
    /\ resolve_target strptime fromisoformat date_time_eastern = Ok target
    /\ In b bookings
    /\ b_uid b = Some uid
    /\ match_one fromisoformat target b = Some (b, d)
    /\ d <= 30
    /\ forall b' m, In b' bookings ->
         match_one fromisoformat target b' = Some m -> d <= snd m.
Proof.
  intros H Hnot Hin.
  apply cancel_booking_shape in H as [Hq|(uid0 & tr1 & Hr & ->)].
  { exfalso. apply Hnot. eapply quiet_has_no_mutation; eauto. }
  pose proof (ToolSpec.resolve_booking_quiet _ _ _ _ _ _ _ _ _ _ _ Hr) as Hq.
  apply in_app_or in Hin as [Hin|Hin].
  { exfalso. apply Hnot. eapply quiet_has_no_mutation; eauto. }
  destruct Hin as [Hin|[Hin|[]]]; [discriminate|].
  injection Hin as -> ->.
  revert Hr. unfold resolve_booking, bind. cbn [truthy negb andb get_default].
  destruct (negb (String.eqb date_time_eastern "")).
  2:{ unfold ret. cbn. discriminate. }
  destruct (search_by_time _ _ _ _ _ _ tr) as [[[text|uid1]|e] tr2] eqn:Es;
    [discriminate| |discriminate].
  destruct (String.eqb uid1 ""); [discriminate|]. intros [= -> ->].
  apply search_by_time_listing in Es
    as (_ & bookings & target & b & d & Hg & Ht & Hb & Hu).
  pose proof (BookingSpec.best_match_in _ _ _ _ Hb) as Hm.
  apply BookingSpec.in_matching_bookings in Hm as (b0 & Hi & Hm).
  pose proof (BookingSpec.match_one_fst _ _ _ _ Hm) as Hf.
  cbn [fst] in Hf. subst b0.
  exists bookings, target, b, d. repeat split; try assumption.
  - apply BookingSpec.match_one_Some in Hm
      as (_ & _ & e & _ & _ & Hle & [= ->]). exact Hle.
  - intros b' m Hb' Hm'.
    rewrite BookingSpec.best_match_first_min in Hb.
    apply (BookingSpec.first_min_least _ _ Hb m).
    apply BookingSpec.in_matching_bookings. eauto.
Qed.

(** X15.  The listing tool searches for the first non-empty address
    among its argument, the shared e-mail state, the agent's address and
    the default address, in this order, and makes exactly one call to the
    client, for that address; when all four are empty it returns an error
    text and makes no call. *)
Theorem listing_email_precedence take status email tr :
  match find truthy [email; email_state env; agent_user_email env;
                     Some (default_email env)] with
  | Some chosen =>
      snd (get_all_bookings fromisoformat calcom_client env
             take status email tr)
      = (tr ++ [GetAllBookings take status (get_default chosen "")])%list
  | None =>
      get_all_bookings fromisoformat calcom_client env take status email tr
      = (Ok "Error: No email address provided. Please set your email in settings or provide it when asking about appointments.",
         tr)
  end.
Proof.
  unfold get_all_bookings, try_except, bind, perform, lift, ret.
  cbv zeta. cbn [find].
  destruct (truthy email) eqn:E1; cbn [negb].
  { rewrite E1. cbn [negb]. rewrite E1. cbn [negb]. rewrite E1. cbn [negb].
    destruct (get_all_bookings_response _ _ _ _ _) as [[|b l]|e0];
      [destruct (current_time_text env)|destruct (current_time_text env)|];
      reflexivity. }
  destruct (truthy (email_state env)) eqn:E2; cbn [negb].
  { rewrite E2. cbn [negb]. rewrite E2. cbn [negb].
    destruct (get_all_bookings_response _ _ _ _ _) as [[|b l]|e0];
      [destruct (current_time_text env)|destruct (current_time_text env)|];
      reflexivity. }
  destruct (agent_user_email env) as [user_email|] eqn:E3.
  - destruct (truthy (Some user_email)) eqn:E4; cbn [negb].
    + rewrite E4. cbn [negb].
      destruct (get_all_bookings_response _ _ _ _ _) as [[|b l]|e0];
        [destruct (current_time_text env)|destruct (current_time_text env)|];
        reflexivity.
    + destruct (truthy (Some (default_email env))) eqn:E5; cbn [negb];
        [|reflexivity].
      destruct (get_all_bookings_response _ _ _ _ _) as [[|b l]|e0];
        [destruct (current_time_text env)|destruct (current_time_text env)|];
        reflexivity.
  - rewrite E2. cbn [negb].
    destruct (truthy (Some (default_email env))) eqn:E5; cbn [negb];
      [|reflexivity].
    destruct (get_all_bookings_response _ _ _ _ _) as [[|b l]|e0];
      [destruct (current_time_text env)|destruct (current_time_text env)|];
      reflexivity.
Qed.

End ToolCallFacts.

(** Booking ["c"] cancelled by its UID, with two different dates. *)
Lemma uid_given_date_ignored_witness :
  cancel_booking Reference.strptime Reference.fromisoformat
    Scenario.sample_client Scenario.sample_env
    (Some "c") (Some "2026-07-15 14:00") None []
  = cancel_booking Reference.strptime Reference.fromisoformat
      Scenario.sample_client Scenario.sample_env
      (Some "c") (Some "no date") None []
  /\ reschedule_booking Reference.strptime Reference.fromisoformat
       Scenario.sample_client Scenario.sample_env
       (Some "c") (Some "2026-07-15 14:00") "2026-07-16 10:00" None []
     = reschedule_booking Reference.strptime Reference.fromisoformat
         Scenario.sample_client Scenario.sample_env
         (Some "c") (Some "no date") "2026-07-16 10:00" None []
  /\ (exists added,
        snd (cancel_booking Reference.strptime Reference.fromisoformat
               Scenario.sample_client Scenario.sample_env
               (Some "c") (Some "2026-07-15 14:00") None [])
        = ([] ++ added)%list
        /\ forall c, In c added ->
             c = GetBooking "c" \/ c = CancelBooking "c" None).
Proof.
  apply (uid_given_date_ignored Reference.strptime Reference.fromisoformat
           Scenario.sample_client Scenario.sample_env "c"
           (Some "2026-07-15 14:00") (Some "no date") "2026-07-16 10:00"
           None []).
  reflexivity.
Defined.

(** On a network where reading a booking times out, booking ["a"] is
    cancelled all the same. *)
Lemma cancel_proceeds_when_fetch_fails_witness :
  get_booking_response
    (CalcomClient.as_tool_client ClientScenario.flaky_net) [] "a"
  = Raise (ClientError "timed out")
  /\ snd (cancel_booking Reference.strptime Reference.fromisoformat
            (CalcomClient.as_tool_client ClientScenario.flaky_net)
            Scenario.sample_env (Some "a") None None [])
     = ([] ++ [GetBooking "a"; CancelBooking "a" None])%list.
Proof.
  split; [reflexivity|].
  apply (cancel_proceeds_when_fetch_fails Reference.strptime
           Reference.fromisoformat
           (CalcomClient.as_tool_client ClientScenario.flaky_net)
           Scenario.sample_env "a" None None []
           "Wednesday, July 01, 2026 at 08:00 AM Eastern Time"
           (ClientError "timed out") (ROther "{'status': 'success'}")).
  - reflexivity.
  - vm_compute. reflexivity.
  - reflexivity.
  - reflexivity.
Defined.

Lemma create_rejects_unparseable_time_witness :
  create_connect_meeting Reference.strptime Reference.fromisoformat
    Scenario.sample_client Scenario.sample_env
    "tomorrow at noon" "Ada" (Some "ada@example.com") []
  = (Ok "Error creating Connect meeting - invalid time format: Could not parse time string: tomorrow at noon. Please provide time in Eastern Time format (e.g., '2026-01-10 09:00' or '01/10/2026 9:00 AM').",
     []).
Proof.
  apply (create_rejects_unparseable_time Reference.strptime
           Reference.fromisoformat Scenario.sample_client Scenario.sample_env
           "Connect" CONNECT_MEETING_EVENT_TYPE_ID
           "'2026-01-10 09:00' or '01/10/2026 9:00 AM'"
           "tomorrow at noon" "Ada" "ada@example.com" []).
  - reflexivity.
  - repeat constructor.
Defined.

(** None of the bookings of the scenario is on July 20. *)
Lemma no_candidate_reported_witness :
  cancel_booking Reference.strptime Reference.fromisoformat
    Scenario.sample_client Scenario.sample_env
    None (Some "2026-07-20 14:00") None []
  = (Ok ("No upcoming booking found for " ++ "2026-07-20 14:00"
         ++ " Eastern Time. Please check the date and time, or provide the booking UID directly."),
     ([] ++ [GetAllBookings 100 "upcoming"
               (get_default (search_email Scenario.sample_env) "")])%list)
  /\ reschedule_booking Reference.strptime Reference.fromisoformat
       Scenario.sample_client Scenario.sample_env
       None (Some "2026-07-20 14:00") "2026-07-21 10:00" None []
     = (Ok ("No upcoming booking found for " ++ "2026-07-20 14:00"
            ++ " Eastern Time. Please check the date and time, or provide the booking UID directly."),
        ([] ++ [GetAllBookings 100 "upcoming"
                  (get_default (search_email Scenario.sample_env) "")])%list).
Proof.
  apply (no_candidate_reported Reference.strptime Reference.fromisoformat
           Scenario.sample_client Scenario.sample_env
           "2026-07-20 14:00" [] Scenario.candidates (mkdt 2026 7 20 14 0 0)
           None None "2026-07-21 10:00"
           "Wednesday, July 01, 2026 at 08:00 AM Eastern Time").
  - reflexivity.
  - reflexivity.
  - reflexivity.
  - reflexivity.
  - vm_compute. reflexivity.
  - reflexivity.
  - vm_compute. reflexivity.
  - intros b [<-|[<-|[<-|[<-|[<-|[]]]]]]; vm_compute; reflexivity.
Defined.

(** On the listing network the query of 2:00 PM cancels booking ["a"],
    at 2:30 PM. *)
Lemma cancel_by_time_acts_on_match_witness :
  exists bookings target b d,
    get_all_bookings_response
      (CalcomClient.as_tool_client ClientScenario.listing_net) [] 100
      "upcoming" (get_default (search_email Scenario.sample_env) "")
    = Ok bookings
    /\ resolve_target Reference.strptime Reference.fromisoformat
         "2026-07-15 14:00" = Ok target
    /\ In b bookings
    /\ b_uid b = Some "a"
    /\ match_one Reference.fromisoformat target b = Some (b, d)
    /\ d <= 30
    /\ forall b' m, In b' bookings ->
         match_one Reference.fromisoformat target b' = Some m -> d <= snd m.
Proof.
  apply (cancel_by_time_acts_on_match Reference.strptime
           Reference.fromisoformat
           (CalcomClient.as_tool_client ClientScenario.listing_net)
           Scenario.sample_env "2026-07-15 14:00" None []
           (fst (cancel_booking Reference.strptime Reference.fromisoformat
                   (CalcomClient.as_tool_client ClientScenario.listing_net)
                   Scenario.sample_env None (Some "2026-07-15 14:00") None []))
           [GetAllBookings 100 "upcoming" "user@example.com";
            GetBooking "a"; CancelBooking "a" None]
           "a" None).
  - vm_compute. reflexivity.
  - intros [].
  - right. right. left. reflexivity.
Defined.

Example cancel_by_time_on_listing_net :
  cancel_booking Reference.strptime Reference.fromisoformat
    (CalcomClient.as_tool_client ClientScenario.listing_net)
    Scenario.sample_env None (Some "2026-07-15 14:00") None []
  = (Ok "Booking cancelled successfully at Wednesday, July 01, 2026 at 08:00 AM Eastern Time. Untitled on Wednesday, July 15, 2026 at 02:30 PM Eastern Time has been cancelled.",
     [GetAllBookings 100 "upcoming" "user@example.com";
      GetBooking "a"; CancelBooking "a" None]).
Proof. vm_compute. reflexivity. Qed.

End ToolCalls.

(* ================================================================== *)
(** ** The client, and the tools on top of it *)
(* ================================================================== *)

Module ClientSpec.
Import PyDatetime Pytz PyStr TimeUtils CalcomTools CalcomClient StringFacts.
Local Open Scope string_scope.
Local Open Scope Z_scope.

(** The text of the exception made from an HTTP error status: the detail
    is never empty, so [str(e)] is never used; the exception is not a
    [ValueError]. *)
Lemma api_error_text status_code error_body message :
  exists detail,
    exn_str (api_error status_code error_body message)
    = "Cal.com API error (" ++ str_of_nat status_code ++ "):  - " ++ detail
    /\ is_ValueError (api_error status_code error_body message) = false.
Proof.
  unfold api_error.
  destruct error_body as [body|];
    [exists body|exists ("Status: " ++ str_of_nat status_code)];
    cbn -[str_of_nat]; split; reflexivity.
Qed.

Lemma api_error_404 error_body message :
  mentions_not_found (exn_str (api_error 404 error_body message)) = true.
Proof.
  destruct (api_error_text 404 error_body message) as (detail & -> & _).
  unfold mentions_not_found.
  change (str_of_nat 404) with "404".
  rewrite (contains_app "404" "Cal.com API error (" ("):  - " ++ detail)).
  reflexivity.
Qed.

Lemma api_error_400 error_body message :
  mentions_bad_request (exn_str (api_error 400 error_body message)) = true.
Proof.
  destruct (api_error_text 400 error_body message) as (detail & -> & _).
  unfold mentions_bad_request.
  change (str_of_nat 400) with "400".
  rewrite (contains_app "400" "Cal.com API error (" ("):  - " ++ detail)).
  reflexivity.
Qed.

Section ListingFacts.
Variable net : transport.

(** X21.  What the client's [get_all_bookings] returns: exactly the
    bookings received that mention the e-mail address (when one is given)
    and, for the status ["upcoming"], are not cancelled; ['total'] is
    their number.  A body without ['data'] gives the empty list. *)
Theorem listing_selects_bookings tr take status email r :
  get_all_bookings net tr take status email = Ok r ->
  exists data,
    fetch_list net tr
      (HttpGet (CALCOM_API_BASE ++ "/bookings")
         (("take", JInt take)
          :: (if truthy status then [("status", JStr (get_default status ""))]
              else []))%list)
    = HttpOk data
    /\ (forall b,
          In b (bookings r) <->
          In b (match data with Some l => l | None => [] end)
          /\ (truthy email = true ->
              mentions_email (lower (get_default email "")) b = true)
          /\ (status = Some "upcoming" ->
              is_cancelled (ab_booking b) = false))
    /\ total r = List.length (bookings r).
Proof.
  unfold get_all_bookings. cbv zeta.
  destruct (fetch_list net tr _) as [data| |]; [|discriminate|discriminate].
  intros [= <-]. exists data. split; [reflexivity|]. split; [|reflexivity].
  intros b. unfold select_bookings. cbn [bookings].
  set (l := match data with Some l => l | None => [] end).
  assert (Hup : forall l0,
             In b (match status with
                   | Some st => if String.eqb st "upcoming"
                                then filter not_cancelled l0 else l0
                   | None => l0
                   end)
             <-> In b l0 /\ (status = Some "upcoming" ->
                             is_cancelled (ab_booking b) = false)).
  { intros l0. destruct status as [st|].
    - destruct (String.eqb_spec st "upcoming") as [->|Hne].
      + rewrite filter_In. unfold not_cancelled. rewrite negb_true_iff.
        tauto.
      + split; [intros H; split; [exact H|intros [= E]; contradiction]|tauto].
    - split; [intros H; split; [exact H|discriminate]|tauto]. }
  rewrite Hup. destruct (truthy email).
  - rewrite filter_In. tauto.
  - split; [intros [H1 H2]; repeat split; auto; discriminate|tauto].
Qed.

(** X22.  The e-mail filter of the client ignores case: two addresses
    with the same lower-case form give the same result. *)
Theorem email_filter_ignores_case tr take status e1 e2 :
  lower e1 = lower e2 ->
  get_all_bookings net tr take status (Some e1)
  = get_all_bookings net tr take status (Some e2).
Proof.
  intros H. unfold get_all_bookings, select_bookings. cbv zeta.
  cbn [truthy get_default]. rewrite H.
  assert (Ht : String.eqb e1 "" = String.eqb e2 "").
  { destruct (String.eqb_spec e1 "") as [->|H1],
             (String.eqb_spec e2 "") as [->|H2]; try reflexivity; exfalso.
    - apply H2. apply lower_nil. now rewrite <- H.
    - apply H1. apply lower_nil. now rewrite H. }
  now rewrite Ht.
Qed.

End ListingFacts.

Section ClientFacts.
Variable strptime : string -> string -> option datetime.
Variable fromisoformat : string -> option pydatetime.
Variable net : transport.
Variable env : environment.

(** X16.  When the API answers the request for a booking with status
    404, whatever the body of the answer, the [get_booking] tool run on
    the client returns the text saying that the booking was not found and
    naming the UID. *)
Theorem missing_booking_reported_not_found booking_uid tr error_body message :
  fetch net tr (HttpGet (CALCOM_API_BASE ++ "/bookings/" ++ booking_uid) [])
  = HttpStatusError 404 error_body message ->
  CalcomTools.get_booking fromisoformat (as_tool_client net) env booking_uid tr
  = (Ok ("Error retrieving booking - booking not found. Please check the booking UID: "
         ++ booking_uid),
     (tr ++ [GetBooking booking_uid])%list).
Proof.
  intros H. unfold CalcomTools.get_booking, try_except, bind, perform.
  cbn [get_booking_response as_tool_client]. unfold get_booking.
  rewrite H. cbn [finish]. rewrite api_error_404. reflexivity.
Qed.

(** X17.  Cancelling by UID a booking the API does not know: the 404 of
    the preliminary fetch is dropped, the cancellation is posted, and its
    404 becomes the text saying that the booking was not found. *)
Theorem cancel_of_missing_booking_reported u d reason tr current_time
    error_body message error_body' message' :
  truthy (Some u) = true ->
  current_time_text env = Ok current_time ->
  fetch net tr (HttpGet (CALCOM_API_BASE ++ "/bookings/" ++ u) [])
  = HttpStatusError 404 error_body message ->
  (forall body,
      fetch net (tr ++ [GetBooking u])%list
        (HttpPost (CALCOM_API_BASE ++ "/bookings/" ++ u ++ "/cancel") body)
      = HttpStatusError 404 error_body' message') ->
  CalcomTools.cancel_booking strptime fromisoformat (as_tool_client net) env
    (Some u) d reason tr
  = (Ok "Error canceling booking - booking not found. Please check the booking UID or date/time provided.",
     (tr ++ [GetBooking u; CancelBooking u reason])%list).
Proof.
  intros Hu Hct Hget Hpost.
  unfold CalcomTools.cancel_booking, try_except, bind, lift.
  rewrite Hct, ToolCalls.resolve_booking_given_uid by assumption.
  unfold verify_not_cancelled, try_except, bind, perform.
  cbn [get_booking_response as_tool_client]. unfold get_booking.
  rewrite Hget. cbn [finish ret].
  unfold cancel_and_report, bind, perform.
  cbn [cancel_booking_response as_tool_client]. unfold cancel_booking.
  rewrite Hpost. cbn [finish]. rewrite api_error_404.
  rewrite <- app_assoc. reflexivity.
Qed.

(** X18.  When the start time converts and the API answers the creation
    with status 400, the meeting tool returns the bad-request text, which
    ends with the message the client made of the error; the one call made
    carries the converted start time. *)
Theorem rejected_creation_reported_bad_request
    kind event_type_id example start_time_eastern start attendee_name email tr
    error_body message :
  truthy (Some email) = true ->
  convert_to_utc_iso strptime start_time_eastern = Ok start ->
  (forall body,
      fetch net tr (HttpPost (CALCOM_API_BASE ++ "/bookings") body)
      = HttpStatusError 400 error_body message) ->
  create_meeting strptime fromisoformat (as_tool_client net) env
    kind event_type_id example start_time_eastern attendee_name (Some email) tr
  = (Ok ("Error creating " ++ kind
         ++ " meeting - bad request. Please check: 1) Time format is correct (Eastern Time), 2) Date is in the future, 3) Email is valid. Details: "
         ++ exn_str (api_error 400 error_body message)),
     (tr ++ [CreateBooking event_type_id start attendee_name email
               (conversation_notes env)])%list).
Proof.
  intros He Hc Hpost.
  unfold create_meeting, try_except, bind, lift, perform.
  rewrite He. cbn [negb]. rewrite He. cbn [negb get_default].
  rewrite Hc.
  cbn [create_booking_response as_tool_client]. unfold create_booking.
  rewrite Hpost. cbn [finish].
  destruct (api_error_text 400 error_body message) as (detail & _ & ->).
  rewrite api_error_400. reflexivity.
Qed.

(** X19.  The same for [reschedule_booking] called with a UID: a status
    400 from the API gives the bad-request text of that tool. *)
Theorem rejected_reschedule_reported_bad_request
    u old new_start start reason tr current_time error_body message :
  truthy (Some u) = true ->
  truthy (Some new_start) = true ->
  current_time_text env = Ok current_time ->
  convert_to_utc_iso strptime new_start = Ok start ->
  (forall body,
      fetch net tr
        (HttpPost (CALCOM_API_BASE ++ "/bookings/" ++ u ++ "/reschedule") body)
      = HttpStatusError 400 error_body message) ->
  CalcomTools.reschedule_booking strptime fromisoformat (as_tool_client net)
    env (Some u) old new_start reason tr
  = (Ok ("Error rescheduling booking - bad request. Please check: 1) Time format is correct (Eastern Time), 2) Date is in the future, 3) Booking UID is valid. Details: "
         ++ exn_str (api_error 400 error_body message)),
     (tr ++ [RescheduleBooking u start reason])%list).
Proof.
  intros Hu Hn Hct Hc Hpost.
  unfold CalcomTools.reschedule_booking, try_except, bind, lift.
  rewrite (ToolCalls.truthy_nonempty _ Hn).
  rewrite Hct, ToolCalls.resolve_booking_given_uid by assumption.
  rewrite Hc. unfold perform.
  cbn [reschedule_booking_response as_tool_client]. unfold reschedule_booking.
  rewrite Hpost. cbn [finish].
  destruct (api_error_text 400 error_body message) as (detail & _ & ->).
  rewrite api_error_400. reflexivity.
Qed.

(** X20.  A [ValueError] that leaves the client after the start time was
    converted (such as the decoding error of an answer that is not JSON)
    is reported by the meeting tool as an invalid time format, although
    the time was valid and the request was sent. *)
Theorem undecodable_answer_reported_as_time_format
    kind event_type_id example start_time_eastern start attendee_name email tr
    msg :
  truthy (Some email) = true ->
  convert_to_utc_iso strptime start_time_eastern = Ok start ->
  (forall body,
      fetch net tr (HttpPost (CALCOM_API_BASE ++ "/bookings") body)
      = HttpFailure (ValueError msg)) ->
  create_meeting strptime fromisoformat (as_tool_client net) env
    kind event_type_id example start_time_eastern attendee_name (Some email) tr
  = (Ok ("Error creating " ++ kind ++ " meeting - invalid time format: "
         ++ msg ++ ". Please provide time in Eastern Time format (e.g., "
         ++ example ++ ")."),
     (tr ++ [CreateBooking event_type_id start attendee_name email
               (conversation_notes env)])%list).
Proof.
  intros He Hc Hpost.
  unfold create_meeting, try_except, bind, lift, perform.
  rewrite He. cbn [negb]. rewrite He. cbn [negb get_default].
  rewrite Hc.
  cbn [create_booking_response as_tool_client]. unfold create_booking.
  rewrite Hpost. reflexivity.
Qed.

(** X23.  Tool and client together: a booking the search by date and
    time resolves is one the API listed for the request [take=100,
    status=upcoming], it mentions the search e-mail (among its attendees,
    in its booking fields or among its hosts, case ignored), and it is
    not cancelled; the tools never act by date on a booking of somebody
    else. *)
Theorem search_through_client_respects_email
    date_time_eastern parse_error tr uid tr' :
  search_by_time strptime fromisoformat (as_tool_client net) env
    date_time_eastern parse_error tr = (Ok (inr uid), tr') ->
  exists data b,
    fetch_list net tr
      (HttpGet (CALCOM_API_BASE ++ "/bookings")
         [("take", JInt 100); ("status", JStr "upcoming")])
    = HttpOk (Some data)
    /\ In b data
    /\ b_uid (ab_booking b) = Some uid
    /\ mentions_email (lower (get_default (search_email env) "")) b = true
    /\ is_cancelled (ab_booking b) = false.
Proof.
  intros H.
  apply ToolCalls.search_by_time_listing in H
    as (Ht & bs & target & b & d & Hg & _ & Hb & Hu).
  pose proof (BookingSpec.best_match_in _ _ _ _ Hb) as Hm.
  apply BookingSpec.in_matching_bookings in Hm as (b0 & Hi & Hm).
  pose proof (BookingSpec.match_one_fst _ _ _ _ Hm) as Hf.
  cbn [fst] in Hf. subst b0. clear Hm Hb.
  revert Hg. cbn [get_all_bookings_response as_tool_client].
  unfold get_all_bookings. cbv zeta. cbn [truthy String.eqb negb get_default].
  change (negb (String.eqb "upcoming" "")) with true. cbv iota.
  destruct (fetch_list net tr _) as [data| |]; cbn [rbind];
    [|discriminate|discriminate].
  intros [= <-]. apply in_map_iff in Hi as (ab & <- & Hi).
  revert Hi. unfold select_bookings. cbn [bookings].
  change (String.eqb "upcoming" "upcoming") with true. cbv iota.
  assert (Hte : negb (String.eqb (get_default (search_email env) "") "")
                = true).
  { destruct (search_email env) as [m|]; [exact Ht|discriminate]. }
  rewrite Hte. rewrite !filter_In. intros [[Hin Hme] Hnc].
  destruct data as [l|]; [|destruct Hin].
  exists l, ab. repeat split; try assumption.
  unfold not_cancelled in Hnc. now apply negb_true_iff in Hnc.
Qed.

End ClientFacts.

Lemma missing_booking_reported_not_found_witness :
  CalcomTools.get_booking Reference.fromisoformat
    (as_tool_client ClientScenario.missing_net) Scenario.sample_env "zz" []
  = (Ok "Error retrieving booking - booking not found. Please check the booking UID: zz",
     ([] ++ [GetBooking "zz"])%list).
Proof.
  apply (missing_booking_reported_not_found Reference.fromisoformat
           ClientScenario.missing_net Scenario.sample_env "zz" []
           (Some "{'status': 'error'}") "Client error '404 Not Found'").
  reflexivity.
Defined.

Lemma cancel_of_missing_booking_reported_witness :
  CalcomTools.cancel_booking Reference.strptime Reference.fromisoformat
    (as_tool_client ClientScenario.missing_net) Scenario.sample_env
    (Some "zz") None None []
  = (Ok "Error canceling booking - booking not found. Please check the booking UID or date/time provided.",
     ([] ++ [GetBooking "zz"; CancelBooking "zz" None])%list).
Proof.
  apply (cancel_of_missing_booking_reported Reference.strptime
           Reference.fromisoformat ClientScenario.missing_net
           Scenario.sample_env "zz" None None []
           "Wednesday, July 01, 2026 at 08:00 AM Eastern Time"
           (Some "{'status': 'error'}") "Client error '404 Not Found'"
           (Some "{'status': 'error'}") "Client error '404 Not Found'").
  - reflexivity.
  - vm_compute. reflexivity.
  - reflexivity.
  - intros body. reflexivity.
Defined.

Lemma rejected_creation_reported_bad_request_witness :
  create_connect_meeting Reference.strptime Reference.fromisoformat
    (as_tool_client ClientScenario.rejecting_net) Scenario.sample_env
    "2026-07-15 14:00" "Ada" (Some "ada@example.com") []
  = (Ok ("Error creating " ++ "Connect"
         ++ " meeting - bad request. Please check: 1) Time format is correct (Eastern Time), 2) Date is in the future, 3) Email is valid. Details: "
         ++ exn_str (api_error 400 None "Client error '400 Bad Request'")),
     ([] ++ [CreateBooking CONNECT_MEETING_EVENT_TYPE_ID
               "2026-07-15T18:00:00Z" "Ada" "ada@example.com" None])%list).
Proof.
  apply (rejected_creation_reported_bad_request Reference.strptime
           Reference.fromisoformat ClientScenario.rejecting_net
           Scenario.sample_env "Connect" CONNECT_MEETING_EVENT_TYPE_ID
           "'2026-01-10 09:00' or '01/10/2026 9:00 AM'"
           "2026-07-15 14:00" "2026-07-15T18:00:00Z" "Ada" "ada@example.com"
           [] None "Client error '400 Bad Request'").
  - reflexivity.
  - vm_compute. reflexivity.
  - intros body. reflexivity.
Defined.

Example rejected_creation_text :
  exn_str (api_error 400 None "Client error '400 Bad Request'")
  = "Cal.com API error (400):  - Status: 400".
Proof. vm_compute. reflexivity. Qed.

Lemma rejected_reschedule_reported_bad_request_witness :
  CalcomTools.reschedule_booking Reference.strptime Reference.fromisoformat
    (as_tool_client ClientScenario.rejecting_net) Scenario.sample_env
    (Some "a") None "2026-07-16 10:00" None []
  = (Ok ("Error rescheduling booking - bad request. Please check: 1) Time format is correct (Eastern Time), 2) Date is in the future, 3) Booking UID is valid. Details: "
         ++ exn_str (api_error 400 None "Client error '400 Bad Request'")),
     ([] ++ [RescheduleBooking "a" "2026-07-16T14:00:00Z" None])%list).
Proof.
  apply (rejected_reschedule_reported_bad_request Reference.strptime
           Reference.fromisoformat ClientScenario.rejecting_net
           Scenario.sample_env "a" None "2026-07-16 10:00"
           "2026-07-16T14:00:00Z" None []
           "Wednesday, July 01, 2026 at 08:00 AM Eastern Time"
           None "Client error '400 Bad Request'").
  - reflexivity.
  - reflexivity.
  - vm_compute. reflexivity.
  - vm_compute. reflexivity.
  - intros body. reflexivity.
Defined.

Lemma undecodable_answer_reported_as_time_format_witness :
  create_discover_meeting Reference.strptime Reference.fromisoformat
    (as_tool_client ClientScenario.garbled_net) Scenario.sample_env
    "2026-07-15 14:00" "Ada" (Some "ada@example.com") []
  = (Ok ("Error creating " ++ "Discover"
         ++ " meeting - invalid time format: "
         ++ "Expecting value: line 1 column 1 (char 0)"
         ++ ". Please provide time in Eastern Time format (e.g., "
         ++ "'2026-01-10 10:00' or '01/10/2026 10:00 AM'" ++ ")."),
     ([] ++ [CreateBooking DISCOVER_MEETING_EVENT_TYPE_ID
               "2026-07-15T18:00:00Z" "Ada" "ada@example.com" None])%list).
Proof.
  apply (undecodable_answer_reported_as_time_format Reference.strptime
           Reference.fromisoformat ClientScenario.garbled_net
           Scenario.sample_env "Discover" DISCOVER_MEETING_EVENT_TYPE_ID
           "'2026-01-10 10:00' or '01/10/2026 10:00 AM'"
           "2026-07-15 14:00" "2026-07-15T18:00:00Z" "Ada" "ada@example.com"
           [] "Expecting value: line 1 column 1 (char 0)").
  - reflexivity.
  - vm_compute. reflexivity.
  - intros body. reflexivity.
Defined.

(** Of the three bookings received, the one of somebody else and the
    cancelled one are left out. *)
Lemma listing_selects_bookings_witness :
  get_all_bookings ClientScenario.listing_net [] 100 (Some "upcoming")
    (Some "user@example.com")
  = Ok (mkresult
          [ClientScenario.api_at "a" "2026-07-15T18:30:00Z" "accepted"
             "User@Example.com"] 1)
  /\ exists data,
       fetch_list ClientScenario.listing_net []
         (HttpGet (CALCOM_API_BASE ++ "/bookings")
            (("take", JInt 100)
             :: (if truthy (Some "upcoming")
                 then [("status", JStr (get_default (Some "upcoming") ""))]
                 else []))%list)
       = HttpOk data
       /\ (forall b,
             In b [ClientScenario.api_at "a" "2026-07-15T18:30:00Z"
                     "accepted" "User@Example.com"] <->
             In b (match data with Some l => l | None => [] end)
             /\ (truthy (Some "user@example.com") = true ->
                 mentions_email
                   (lower (get_default (Some "user@example.com") "")) b
                 = true)
             /\ (Some "upcoming" = Some "upcoming" ->
                 is_cancelled (ab_booking b) = false))
       /\ 1%nat = List.length
                    [ClientScenario.api_at "a" "2026-07-15T18:30:00Z"
                       "accepted" "User@Example.com"].
Proof.
  split; [reflexivity|].
  apply (listing_selects_bookings ClientScenario.listing_net [] 100
           (Some "upcoming") (Some "user@example.com")
           (mkresult
              [ClientScenario.api_at "a" "2026-07-15T18:30:00Z" "accepted"
                 "User@Example.com"] 1)).
  reflexivity.
Defined.

Lemma email_filter_ignores_case_witness :
  get_all_bookings ClientScenario.listing_net [] 100 (Some "upcoming")
    (Some "User@Example.COM")
  = get_all_bookings ClientScenario.listing_net [] 100 (Some "upcoming")
      (Some "user@example.com").
Proof.
  apply (email_filter_ignores_case ClientScenario.listing_net [] 100
           (Some "upcoming") "User@Example.COM" "user@example.com").
  reflexivity.
Defined.

(** The query of 2:00 PM resolves the user's booking at 2:30 PM, not the
    booking of somebody else at 2:00 PM sharp. *)
Lemma search_through_client_respects_email_witness :
  search_by_time Reference.strptime Reference.fromisoformat
    (as_tool_client ClientScenario.listing_net) Scenario.sample_env
    "2026-07-15 14:00" (cancel_parse_error None) []
  = (Ok (inr "a"), [GetAllBookings 100 "upcoming" "user@example.com"])
  /\ exists data b,
       fetch_list ClientScenario.listing_net []
         (HttpGet (CALCOM_API_BASE ++ "/bookings")
            [("take", JInt 100); ("status", JStr "upcoming")])
       = HttpOk (Some data)
       /\ In b data
       /\ b_uid (ab_booking b) = Some "a"
       /\ mentions_email
            (lower (get_default (search_email Scenario.sample_env) "")) b
          = true
       /\ is_cancelled (ab_booking b) = false.
Proof.
  split; [vm_compute; reflexivity|].
  apply (search_through_client_respects_email Reference.strptime
           Reference.fromisoformat ClientScenario.listing_net
           Scenario.sample_env "2026-07-15 14:00" (cancel_parse_error None)
           [] "a" [GetAllBookings 100 "upcoming" "user@example.com"]).
  vm_compute. reflexivity.
Defined.

End ClientSpec.

(* ================================================================== *)
(** ** Guests *)
(* ================================================================== *)

Module GuestSpec.
Import PyStr TimeUtils CalcomTools GuestTools.
Local Open Scope string_scope.

Lemma combine_fst_snd {A B} (l : list A) (l' : list B) :
  List.length l = List.length l' ->
  map fst (combine l l') = l /\ map snd (combine l l') = l'.
Proof.
  revert l'. induction l as [|a l IH]; intros [|b l'] H;
    try discriminate; [split; reflexivity|].
  injection H as H. destruct (IH l' H) as [E1 E2].
  cbn [combine map fst snd]. now rewrite E1, E2.
Qed.

Section GuestFacts.
Variable add_guests_response :
  list guest_call -> string -> list (string * string) -> result string.
Variable env : environment.

(** X24.  [add_guests_to_booking] compares the numbers of addresses and
    of names first.  When they differ it returns the error text and the
    client is not called.  When they agree the client is called exactly
    once, whatever happens afterwards, with the guests in the order
    given, the i-th address paired with the i-th name. *)
Theorem guests_paired_in_order booking_uid guest_emails guest_names tr :
  if Nat.eqb (List.length guest_emails) (List.length guest_names)
  then exists guests,
      snd (add_guests_to_booking add_guests_response env booking_uid
             guest_emails guest_names tr)
      = (tr ++ [AddGuests booking_uid guests])%list
      /\ map fst guests = guest_emails
      /\ map snd guests = guest_names
  else add_guests_to_booking add_guests_response env booking_uid
         guest_emails guest_names tr
       = ("Error: Number of emails must match number of names", tr).
Proof.
  unfold add_guests_to_booking.
  destruct (Nat.eqb_spec (List.length guest_emails) (List.length guest_names))
    as [E|E]; cbn [negb]; [|reflexivity].
  exists (combine guest_emails guest_names). split.
  - destruct (add_guests_response _ _ _); [|reflexivity].
    destruct (current_time_text env); reflexivity.
  - now apply combine_fst_snd.
Qed.

End GuestFacts.

Example guests_of_unequal_number :
  add_guests_to_booking (fun _ _ _ => Ok "{}") Scenario.sample_env "a"
    ["x@example.com"; "y@example.com"] ["X"] []
  = ("Error: Number of emails must match number of names", []).
Proof. reflexivity. Qed.

End GuestSpec.

(* ================================================================== *)
(** ** Rewriting steps on results *)
(* ================================================================== *)

Module ResultFacts.
Import PyDatetime Pytz.

Lemma rbind_Ok {A B} (a : A) (k : A -> result B) : rbind (Ok a) k = k a.
Proof. reflexivity. Qed.

Lemma Ok_injective {A} (a b : A) : Ok a = Ok b -> a = b.
Proof. congruence. Qed.

Lemma wall_mkaware w z : wall (mkaware w z) = w.
Proof. reflexivity. Qed.

End ResultFacts.


(* ================================================================== *)
(** ** The text of an instant, written and read back *)
(* ================================================================== *)

Module TextFacts.
Import PyDatetime Pytz PyStr TimeUtils CalendarFacts StringFacts.
Local Open Scope string_scope.
Local Open Scope Z_scope.

(** [year_text] is the decimal numeral of the year, for every year of at
    most four digits. *)
Lemma year_text_decimal y :
  0 <= y <= 9999 -> year_text y = str_of_nat (Z.to_nat y).
Proof.
  intros Hy. unfold year_text.
  destruct (y <? 1000) eqn:E; [reflexivity|]. apply Z.ltb_ge in E.
  unfold str_of_nat. rewrite Z2Nat.id by lia.
  assert (Hf : exists k, S (Z.to_nat y) = S (S (S (S k)))).
  { exists (Z.to_nat y - 3)%nat. lia. }
  destruct Hf as [k ->]. cbn [decimal_fuel].
  assert (E1 : (y <? 10) = false) by (apply Z.ltb_ge; lia).
  assert (E2 : (y / 10 <? 10) = false) by (apply Z.ltb_ge; divmod).
  assert (E3 : (y / 10 / 10 <? 10) = false) by (apply Z.ltb_ge; divmod).
  assert (E4 : (y / 10 / 10 / 10 <? 10) = true) by (apply Z.ltb_lt; divmod).
  rewrite E1, E2, E3, E4. unfold pad4.
  replace (y / 10 / 10 / 10) with (y / 1000) by divmod.
  replace (y / 10 / 10) with (y / 100) by divmod.
  reflexivity.
Qed.

Lemma digit_ten n :
  n mod 10 = 0 \/ n mod 10 = 1 \/ n mod 10 = 2 \/ n mod 10 = 3
  \/ n mod 10 = 4 \/ n mod 10 = 5 \/ n mod 10 = 6
  \/ n mod 10 = 7 \/ n mod 10 = 8 \/ n mod 10 = 9.
Proof. assert (H : 0 <= n mod 10 < 10) by divmod. lia. Qed.

(** The character code of a digit. *)
Lemma digit_code n : Z.of_nat (nat_of_ascii (digit n)) = 48 + n mod 10.
Proof.
  unfold digit. pose proof (digit_ten n) as Hc.
  repeat (destruct Hc as [-> | Hc]); try rewrite Hc; reflexivity.
Qed.

Lemma digit_not_Z n : Ascii.eqb (digit n) "Z" = false.
Proof.
  unfold digit. pose proof (digit_ten n) as Hc.
  repeat (destruct Hc as [-> | Hc]); try rewrite Hc; reflexivity.
Qed.

Lemma append_associative a b c : (a ++ b) ++ c = a ++ b ++ c.
Proof. induction a as [|x a IH]; cbn; [reflexivity|now rewrite IH]. Qed.

Lemma count_char_nonneg c s : 0 <= count_char c s.
Proof.
  induction s as [|a s IH]; cbn [count_char]; [lia|].
  destruct (Ascii.eqb a c); lia.
Qed.

Lemma count_char_app c a b :
  count_char c (a ++ b) = count_char c a + count_char c b.
Proof.
  induction a as [|x a IH]; cbn [append count_char]; [reflexivity|].
  rewrite IH. lia.
Qed.

(** [replace] passes over a prefix that holds no ["Z"]. *)
Lemma replace_past_prefix new p r :
  count_char "Z" p = 0 ->
  replace "Z" new (p ++ r) = p ++ replace "Z" new r.
Proof.
  unfold replace. induction p as [|a p IH]; intros H; [reflexivity|].
  cbn [count_char] in H. pose proof (count_char_nonneg "Z" p) as H0.
  destruct (Ascii.eqb a "Z") eqn:E; [lia|].
  cbn [append replace_from startswith].
  rewrite Ascii.eqb_sym, E. cbn [andb]. rewrite IH by lia. reflexivity.
Qed.

Lemma count_Z_pad2 n : count_char "Z" (pad2 n) = 0.
Proof. unfold pad2. cbn [count_char]. now rewrite !digit_not_Z. Qed.

Lemma count_Z_pad4 n : count_char "Z" (pad4 n) = 0.
Proof. unfold pad4. cbn [count_char]. now rewrite !digit_not_Z. Qed.

(** The nineteen characters [strftime] writes before the ["Z"], from the
    year 1000 on. *)
Lemma strftime_iso_z_body dt :
  1000 <= year dt ->
  strftime_iso_z dt
  = (pad4 (year dt) ++ "-" ++ pad2 (month dt) ++ "-" ++ pad2 (day dt)
     ++ "T" ++ pad2 (hour dt) ++ ":" ++ pad2 (minute dt) ++ ":"
     ++ pad2 (second dt)) ++ "Z".
Proof.
  intros Hy. unfold strftime_iso_z, year_text.
  rewrite (proj2 (Z.ltb_ge _ _) Hy). now rewrite !append_associative.
Qed.

Lemma count_Z_body dt :
  count_char "Z"
    (pad4 (year dt) ++ "-" ++ pad2 (month dt) ++ "-" ++ pad2 (day dt)
     ++ "T" ++ pad2 (hour dt) ++ ":" ++ pad2 (minute dt) ++ ":"
     ++ pad2 (second dt)) = 0.
Proof.
  rewrite !count_char_app, count_Z_pad4, !count_Z_pad2. reflexivity.
Qed.

(** What reaches [fromisoformat] in [convert_utc_to_eastern] and in the
    search of the tools is the same text: the ["Z"] of [strftime] turned
    into ["+00:00"]. *)
Lemma utc_text_rewritten dt :
  1000 <= year dt ->
  replace "Z" "+00:00" (strftime_iso_z dt)
  = pad4 (year dt) ++ "-" ++ pad2 (month dt) ++ "-" ++ pad2 (day dt)
    ++ "T" ++ pad2 (hour dt) ++ ":" ++ pad2 (minute dt) ++ ":"
    ++ pad2 (second dt) ++ "+00:00"
  /\ replace "Z" "+00:00" (normalize_utc_suffix (strftime_iso_z dt))
     = replace "Z" "+00:00" (strftime_iso_z dt).
Proof.
  intros Hy. rewrite (strftime_iso_z_body dt Hy).
  rewrite DisplaySpec.normalize_utc_suffix_Z.
  rewrite !replace_past_prefix by apply count_Z_body.
  change (replace "Z" "+00:00" "Z") with "+00:00".
  change (replace "Z" "+00:00" "+00:00") with "+00:00".
  split; [|reflexivity]. now rewrite !append_associative.
Qed.

(** *** Reading the digits back *)

Lemma take_digits_pad2 n r acc :
  0 <= n < 100 ->
  Reference.take_digits 2 (pad2 n ++ r) acc = Some (acc * 100 + n, r).
Proof.
  intros Hn. unfold pad2. cbn [append Reference.take_digits].
  rewrite !TimeUtilsSpec.isdigit_digit, !digit_code.
  do 2 f_equal. divmod.
Qed.

Lemma take_digits_pad4 n r acc :
  0 <= n < 10000 ->
  Reference.take_digits 4 (pad4 n ++ r) acc = Some (acc * 10000 + n, r).
Proof.
  intros Hn. unfold pad4. cbn [append Reference.take_digits].
  rewrite !TimeUtilsSpec.isdigit_digit, !digit_code.
  do 2 f_equal. divmod.
Qed.

Lemma scan_digits2 p n r :
  0 <= n < 100 ->
  Reference.scan (Reference.Digits 2 :: p) (pad2 n ++ r)
  = option_map (cons n) (Reference.scan p r).
Proof.
  intros Hn. cbn [Reference.scan]. now rewrite take_digits_pad2.
Qed.

Lemma scan_digits4 p n r :
  0 <= n < 10000 ->
  Reference.scan (Reference.Digits 4 :: p) (pad4 n ++ r)
  = option_map (cons n) (Reference.scan p r).
Proof.
  intros Hn. cbn [Reference.scan]. now rewrite take_digits_pad4.
Qed.

Lemma scan_lit p c r :
  Reference.scan (Reference.Lit c :: p) (String c "" ++ r)
  = Reference.scan p r.
Proof. cbn [Reference.scan append]. now rewrite Ascii.eqb_refl. Qed.

(** The fields of a date and time, scanned off the text that holds them
    on four and two digits. *)
Lemma scan_fields p y m d h mi s r :
  0 <= y < 10000 -> 0 <= m < 100 -> 0 <= d < 100 ->
  0 <= h < 100 -> 0 <= mi < 100 -> 0 <= s < 100 ->
  Reference.scan (Reference.date_pieces "T" ++ Reference.seconds_pieces ++ p)
    (pad4 y ++ "-" ++ pad2 m ++ "-" ++ pad2 d ++ "T" ++ pad2 h ++ ":"
     ++ pad2 mi ++ ":" ++ pad2 s ++ r)
  = option_map (fun l => y :: m :: d :: h :: mi :: s :: l)
      (Reference.scan p r).
Proof.
  intros Hy Hm Hd Hh Hmi Hs.
  unfold Reference.date_pieces, Reference.seconds_pieces. cbn [app].
  rewrite scan_digits4, scan_lit, scan_digits2, scan_lit, scan_digits2,
    scan_lit, scan_digits2, scan_lit, scan_digits2, scan_lit, scan_digits2
    by assumption.
  destruct (Reference.scan p r); reflexivity.
Qed.

Lemma days_in_month_le y m : days_in_month y m <= 31.
Proof.
  unfold days_in_month, DAYS_IN_MONTH.
  repeat match goal with
         | |- context [match ?x with _ => _ end] => destruct x
         end; lia.
Qed.

(** The reference parser reads the text of a UTC instant, as the tools
    hand it over, as that instant. *)
Lemma reference_reads_utc_text u :
  valid u = true -> 1000 <= year u ->
  Reference.fromisoformat (replace "Z" "+00:00" (strftime_iso_z u))
  = Some (mkpy u (Some UTC)).
Proof.
  intros Hv Hy. destruct (utc_text_rewritten u Hy) as [-> _].
  pose proof Hv as Hv'.
  apply valid_iff in Hv' as [(Hyr & Hm & Hd) (Hh & Hmi & Hs)].
  pose proof (days_in_month_le (year u) (month u)) as Hd'.
  unfold Reference.fromisoformat.
  pose proof (scan_fields [] (year u) (month u) (day u) (hour u) (minute u)
                (second u) "+00:00") as H1.
  rewrite app_nil_r in H1. rewrite H1 by lia. clear H1.
  change (Reference.scan [] "+00:00") with (@None (list Z)).
  cbn [option_map].
  rewrite scan_fields by lia.
  change (Reference.scan Reference.utc_pieces "+00:00") with (Some (@nil Z)).
  cbn [option_map Reference.datetime_of].
  destruct u as [y m d h mi s]. cbn [year month day hour minute second].
  rewrite Hv. reflexivity.
Qed.

End TextFacts.


(* ================================================================== *)
(** ** Eastern time to UTC and back, through the text *)
(* ================================================================== *)

Module RoundTripSpec.
Import PyDatetime Pytz PyStr TimeUtils CalcomTools.
Import CalendarFacts ZoneFacts StringFacts ResultFacts TextFacts.
Local Open Scope string_scope.
Local Open Scope Z_scope.

(** A clock value within a day of [L] is valid and in the year of [L] or
    next to it. *)
Lemma nearby_year L t :
  valid L = true -> 2 <= year L <= 9998 ->
  to_seconds L - 86400 <= t <= to_seconds L + 86400 ->
  valid (of_seconds t) = true
  /\ year L - 1 <= year (of_seconds t) <= year L + 1.
Proof.
  intros Hv Hy Ht.
  destruct (year_range_seconds L Hv Hy) as [Hlo Hhi].
  assert (Hr : 0 <= t < MAX_SECONDS) by lia.
  assert (Hv' : valid (of_seconds t) = true)
    by (apply valid_of_seconds, in_range_iff; exact Hr).
  split; [exact Hv'|].
  pose proof (to_seconds_year_bounds _ Hv') as Hb'.
  rewrite to_seconds_of_seconds in Hb' by lia.
  pose proof (to_seconds_year_bounds L Hv) as Hb.
  set (y' := year (of_seconds t)) in *. set (y := year L) in *.
  pose proof (year_length (y - 1)) as H1.
  pose proof (year_length (y + 1)) as H2.
  replace (y - 1 + 1) with y in H1 by lia.
  replace (y + 1 + 1) with (y + 2) in H2 by lia.
  split.
  - destruct (Z_le_gt_dec (y - 1) y') as [?|Hlt]; [assumption|exfalso].
    pose proof (days_before_year_mono (y' + 1) (y - 1) ltac:(lia)). lia.
  - destruct (Z_le_gt_dec y' (y + 1)) as [?|Hgt]; [assumption|exfalso].
    pose proof (days_before_year_mono (y + 2) y' ltac:(lia)). lia.
Qed.

(** Lines 33-39 on a parsed UTC value: [fromutc] of its clock. *)
Lemma to_eastern_of_utc u :
  valid u = true -> 2 <= year u <= 9998 ->
  to_eastern (mkpy u (Some UTC)) = fromutc u.
Proof.
  intros Hv Hy. destruct (year_range_seconds u Hv Hy) as [Hlo Hhi].
  assert (Ha : add_seconds u (- 0) = Ok u).
  { rewrite add_seconds_in_range by lia.
    replace (to_seconds u + - 0) with (to_seconds u) by lia.
    now rewrite of_seconds_to_seconds. }
  unfold to_eastern. cbn [tzinfo_of fields].
  unfold astimezone_utc. cbn [wall tz utcoffset UTC]. rewrite Ha.
  cbn [rbind]. unfold astimezone_eastern. cbn [wall tz utcoffset UTC].
  rewrite Ha. reflexivity.
Qed.

Section RoundTrip.
Variable strptime : string -> string -> option datetime.
Variable fromisoformat : string -> option pydatetime.

(** What the library parser is taken to do: it reads the text of a UTC
    instant of a four-digit year as that instant. *)
Hypothesis fromisoformat_reads :
  forall u, valid u = true -> 1000 <= year u ->
    fromisoformat (replace "Z" "+00:00" (strftime_iso_z u))
    = Some (mkpy u (Some UTC)).

(** What [convert_utc_to_eastern] computes from the text of the UTC
    clock value [u]. *)
Lemma from_the_text u :
  valid u = true -> 1000 <= year u <= 9998 ->
  dt_eastern fromisoformat (strftime_iso_z u) = fromutc u
  /\ convert_utc_to_eastern fromisoformat (strftime_iso_z u)
     = strftime_eastern
         (plus_hours u (if dst_between (year u) (to_seconds u)
                        then -4 else -5)).
Proof.
  intros Hv Hy'. assert (Hy : 2 <= year u <= 9998) by lia.
  assert (Hparse : parse_iso fromisoformat
                     (replace "Z" "+00:00"
                        (normalize_utc_suffix (strftime_iso_z u)))
                   = Ok (mkpy u (Some UTC))).
  { unfold parse_iso.
    destruct (utc_text_rewritten u ltac:(lia)) as [_ ->].
    now rewrite fromisoformat_reads by (assumption || lia). }
  split.
  - unfold dt_eastern. rewrite Hparse, rbind_Ok.
    now apply to_eastern_of_utc.
  - unfold convert_utc_to_eastern, utc_to_eastern_body. cbv zeta.
    rewrite Hparse, rbind_Ok, (to_eastern_of_utc u Hv Hy).
    rewrite (DisplaySpec.format_of_fromutc u Hv Hy). reflexivity.
Qed.

(** The value [convert_to_utc_iso] returns, from the value [to_utc]
    computes. *)
Lemma convert_to_utc_iso_of_to_utc s L u :
  parse_local_datetime strptime s = Ok L ->
  to_utc L = Ok (mkaware u UTC) ->
  convert_to_utc_iso strptime s = Ok (strftime_iso_z u).
Proof.
  intros Hp Hu.
  unfold convert_to_utc_iso, utc_iso_of_local.
  rewrite Hp, rbind_Ok, Hu, rbind_Ok. reflexivity.
Qed.

(** The UTC clock value of an existing local value [L], and the Eastern
    reading of that clock value. *)
Lemma utc_value_of_existing L :
  valid L = true -> 2007 <= year L <= 2037 -> in_spring_gap L = false ->
  exists u b,
    to_utc L = Ok (mkaware u UTC)
    /\ valid u = true /\ 2006 <= year u <= 2038
    /\ fromutc u = Ok (mkaware L (Eastern b))
    /\ plus_hours u (if dst_between (year u) (to_seconds u)
                     then -4 else -5) = L.
Proof.
  intros Hv Hy' Hgap. assert (Hy : 2 <= year L <= 9998) by lia.
  destruct (year_range_seconds L Hv Hy) as [Hlo Hhi].
  pose proof (TimeUtilsSpec.to_utc_spec L Hv ltac:(lia) ltac:(lia)) as Hu.
  pose proof (TimeUtilsSpec.existing_value_returns L Hv ltac:(lia)
                ltac:(lia) Hgap) as Hret.
  destruct (nearby_year L
              (to_seconds L - utcoffset (Eastern (wall_is_dst L))) Hv Hy)
    as [Hvu Hyu]; [destruct (wall_is_dst L); simpl; lia|].
  revert Hu Hret Hvu Hyu.
  generalize (of_seconds
                (to_seconds L - utcoffset (Eastern (wall_is_dst L)))).
  intros u Hu Hret Hvu Hyu.
  assert (Hyu2 : 2 <= year u <= 9998) by lia.
  pose proof (DisplaySpec.fromutc_spec u Hvu Hyu2) as Hf.
  rewrite Hu, rbind_Ok in Hret.
  change (of_aware (mkaware u UTC)) with (mkpy u (Some UTC)) in Hret.
  rewrite (to_eastern_of_utc u Hvu Hyu2), Hf, rbind_Ok in Hret.
  apply Ok_injective in Hret. rewrite wall_mkaware in Hret.
  exists u, (dst_between (year u) (to_seconds u)).
  split; [exact Hu|]. split; [exact Hvu|]. split; [lia|].
  split; [|exact Hret].
  rewrite Hf. rewrite Hret. reflexivity.
Qed.

(** C1 (as amended).  For a text that parses to the Eastern local value
    [L], at second precision, in the years 2007 to 2037 and outside the
    hour skipped when daylight time starts, [convert_to_utc_iso] returns a
    string from which [convert_utc_to_eastern] computes an Eastern value
    whose wall clock is [L] to the second; the text it returns is [L]
    formatted, which shows no seconds.  The hour repeated when daylight
    time ends is covered. *)
Theorem roundtrip_outside_skipped_hour eastern_time_str L :
  parse_local_datetime strptime eastern_time_str = Ok L ->
  valid L = true -> 2007 <= year L <= 2037 -> in_spring_gap L = false ->
  exists z e,
    convert_to_utc_iso strptime eastern_time_str = Ok z
    /\ dt_eastern fromisoformat z = Ok e
    /\ wall e = L
    /\ convert_utc_to_eastern fromisoformat z = strftime_eastern L.
Proof.
  intros Hp Hv Hy Hgap.
  destruct (utc_value_of_existing L Hv Hy Hgap)
    as (u & b & Hu & Hvu & Hyu & Hf & Hw).
  destruct (from_the_text u Hvu ltac:(lia)) as [Hd Ht].
  exists (strftime_iso_z u), (mkaware L (Eastern b)).
  split; [exact (convert_to_utc_iso_of_to_utc _ _ _ Hp Hu)|].
  split; [rewrite Hd; exact Hf|].
  split; [reflexivity|].
  rewrite Ht, Hw. reflexivity.
Qed.

End RoundTrip.

(** The hour repeated when daylight time ends, in 2026: 01:30:00 on
    November 1 is read as standard time, 06:30:00 UTC, and comes back as
    itself. *)
Lemma roundtrip_outside_skipped_hour_witness :
  exists z e,
    convert_to_utc_iso Reference.strptime "2026-11-01 01:30:00" = Ok z
    /\ dt_eastern Reference.fromisoformat z = Ok e
    /\ wall e = mkdt 2026 11 1 1 30 0
    /\ convert_utc_to_eastern Reference.fromisoformat z
       = "Sunday, November 01, 2026 at 01:30 AM Eastern Time".
Proof.
  apply (roundtrip_outside_skipped_hour
           Reference.strptime Reference.fromisoformat
           reference_reads_utc_text
           "2026-11-01 01:30:00" (mkdt 2026 11 1 1 30 0)).
  - vm_compute. reflexivity.
  - vm_compute. reflexivity.
  - simpl. lia.
  - vm_compute. reflexivity.
Defined.

(** C1, as stated, fails.  02:30:00 on March 8, 2026 lies in the hour
    skipped when daylight time starts: [convert_to_utc_iso] returns
    07:30:00 UTC for it, from which [convert_utc_to_eastern] computes
    03:30:00 and returns the text of 03:30, not that of 02:30.  And the
    text returned shows no seconds: 14:00:00 and 14:00:15 on July 15 come
    back as the same text. *)
Lemma roundtrip_fails_in_skipped_hour :
  parse_local_datetime Reference.strptime "2026-03-08 02:30:00"
  = Ok (mkdt 2026 3 8 2 30 0)
  /\ convert_to_utc_iso Reference.strptime "2026-03-08 02:30:00"
     = Ok "2026-03-08T07:30:00Z"
  /\ dt_eastern Reference.fromisoformat "2026-03-08T07:30:00Z"
     = Ok (mkaware (mkdt 2026 3 8 3 30 0) (Eastern true))
  /\ mkdt 2026 3 8 3 30 0 <> mkdt 2026 3 8 2 30 0
  /\ convert_utc_to_eastern Reference.fromisoformat "2026-03-08T07:30:00Z"
     = "Sunday, March 08, 2026 at 03:30 AM Eastern Time"
  /\ strftime_eastern (mkdt 2026 3 8 2 30 0)
     = "Sunday, March 08, 2026 at 02:30 AM Eastern Time"
  /\ convert_to_utc_iso Reference.strptime "2026-07-15 14:00:00"
     = Ok "2026-07-15T18:00:00Z"
  /\ convert_to_utc_iso Reference.strptime "2026-07-15 14:00:15"
     = Ok "2026-07-15T18:00:15Z"
  /\ convert_utc_to_eastern Reference.fromisoformat "2026-07-15T18:00:00Z"
     = convert_utc_to_eastern Reference.fromisoformat "2026-07-15T18:00:15Z".
Proof.
  repeat split; try (vm_compute; reflexivity).
  discriminate.
Qed.

(** The texts of the second witness, as the program prints them. *)
Example repeated_hour_through_strings :
  convert_to_utc_iso Reference.strptime "2026-11-01 01:30:00"
  = Ok "2026-11-01T06:30:00Z"
  /\ convert_utc_to_eastern Reference.fromisoformat "2026-11-01T06:30:00Z"
     = "Sunday, November 01, 2026 at 01:30 AM Eastern Time".
Proof. split; vm_compute; reflexivity. Qed.

End RoundTripSpec.

(* ================================================================== *)
(** ** The offsets of January 15 and July 15 *)
(* ================================================================== *)

Module OffsetSpec.
Import PyDatetime Pytz PyStr TimeUtils.
Import CalendarFacts ZoneFacts StringFacts ResultFacts TextFacts.
Local Open Scope string_scope.
Local Open Scope Z_scope.







End OffsetSpec.

(* ================================================================== *)
(** ** The window of thirty minutes around the target *)
(* ================================================================== *)

Module WindowSpec.
Import PyDatetime Pytz PyStr TimeUtils CalcomTools.
Import CalendarFacts ZoneFacts StringFacts ResultFacts TextFacts.
Local Open Scope string_scope.
Local Open Scope Z_scope.

Section Window.
Variable strptime : string -> string -> option datetime.
Variable fromisoformat : string -> option pydatetime.

(** What the library parser is taken to do: it reads the text of a UTC
    instant of a four-digit year as that instant. *)
Hypothesis fromisoformat_reads :
  forall u, valid u = true -> 1000 <= year u ->
    fromisoformat (replace "Z" "+00:00" (strftime_iso_z u))
    = Some (mkpy u (Some UTC)).

(** Lines 380-388: a query that exists on the Eastern clock is its own
    target. *)
Lemma target_of_existing_query date_time_eastern query :
  parse_local_datetime strptime date_time_eastern = Ok query ->
  valid query = true -> 2007 <= year query <= 2037 ->
  in_spring_gap query = false ->
  resolve_target strptime fromisoformat date_time_eastern = Ok query.
Proof.
  intros Hp Hv Hy Hgap.
  destruct (year_range_seconds query Hv ltac:(lia)) as [Hlo Hhi].
  destruct (RoundTripSpec.utc_value_of_existing query Hv Hy Hgap)
    as (u & b & Hu & Hvu & Hyu & _ & _).
  apply (BookingSpec.resolve_target_existing strptime fromisoformat
           date_time_eastern query Hp Hv); [lia|lia|exact Hgap|].
  intros a Ha. rewrite Hu in Ha.
  apply Ok_injective in Ha. subst a.
  rewrite wall_mkaware.
  change (of_aware (mkaware u UTC)) with (mkpy u (Some UTC)).
  apply fromisoformat_reads; [exact Hvu|lia].
Qed.

(** What the loop keeps for a booking that reaches the comparison of the
    dates, in terms of the difference written out. *)
Lemma kept_within_thirty target bookings b e :
  In b bookings ->
  is_cancelled b = false ->
  get_default (b_start b) "" <> "" ->
  booking_eastern fromisoformat (get_default (b_start b) "") = Ok e ->
  date_eqb e target = true ->
  forall d,
    In (b, d) (matching_bookings fromisoformat target bookings)
    <-> d = Z.abs (hour e * 60 + minute e
                   - (hour target * 60 + minute target))
        /\ d <= 30.
Proof.
  intros Hin Hc Hs He Hd d. rewrite BookingSpec.in_matching_bookings.
  split.
  - intros (b' & _ & Hm).
    pose proof (BookingSpec.match_one_fst _ _ _ _ Hm) as Hb.
    cbn [fst] in Hb. subst b'.
    apply BookingSpec.match_one_Some in Hm
      as (_ & _ & e' & He' & _ & Hle & Hm).
    rewrite He in He'. apply Ok_injective in He'. subst e'.
    apply pair_equal_spec in Hm as [_ ->].
    unfold time_diff in *. split; [reflexivity|exact Hle].
  - intros [-> Hle]. exists b. split; [exact Hin|].
    apply BookingSpec.match_one_Some.
    split; [exact Hc|]. split; [exact Hs|].
    exists e. unfold time_diff. auto.
Qed.

(** C2 (as amended).  Let [target] be what lines 380-388 compute from the
    query: the query converted to UTC and back to Eastern time.  A booking
    of the list that is not cancelled, whose start converts to the Eastern
    value [e] and whose Eastern date is the date of the target, is kept
    among the matches exactly when
    [|e.hour*60 + e.minute - target.hour*60 - target.minute|] is at most
    30, with that difference beside it: at 30 minutes it is kept, at 31 it
    is not.  In the years 2007 to 2037 the target is the query itself
    whenever the query is outside the hour skipped when daylight time
    starts. *)
Theorem window_of_thirty_minutes
    date_time_eastern query target bookings b e :
  parse_local_datetime strptime date_time_eastern = Ok query ->
  resolve_target strptime fromisoformat date_time_eastern = Ok target ->
  In b bookings ->
  is_cancelled b = false ->
  get_default (b_start b) "" <> "" ->
  booking_eastern fromisoformat (get_default (b_start b) "") = Ok e ->
  date_eqb e target = true ->
  ((exists d, In (b, d) (matching_bookings fromisoformat target bookings))
   <-> Z.abs (hour e * 60 + minute e
              - (hour target * 60 + minute target)) <= 30)
  /\ (forall d,
        In (b, d) (matching_bookings fromisoformat target bookings) ->
        d = Z.abs (hour e * 60 + minute e
                   - (hour target * 60 + minute target)))
  /\ (Z.abs (hour e * 60 + minute e
             - (hour target * 60 + minute target)) = 30 ->
      In (b, 30) (matching_bookings fromisoformat target bookings))
  /\ (Z.abs (hour e * 60 + minute e
             - (hour target * 60 + minute target)) = 31 ->
      forall d,
        ~ In (b, d) (matching_bookings fromisoformat target bookings))
  /\ (valid query = true -> 2007 <= year query <= 2037 ->
      in_spring_gap query = false -> target = query).
Proof.
  intros Hp Ht Hin Hc Hs He Hd.
  pose proof (kept_within_thirty target bookings b e Hin Hc Hs He Hd)
    as Hk.
  split; [|split; [|split; [|split]]].
  - split.
    + intros [d Hm]. apply Hk in Hm as [<- Hle]. exact Hle.
    + intros Hle. eexists. apply Hk. split; [reflexivity|exact Hle].
  - intros d Hm. apply Hk in Hm as [-> _]. reflexivity.
  - intros E. apply Hk. split; [symmetry; exact E|lia].
  - intros E d Hm. apply Hk in Hm as [-> Hle]. lia.
  - intros Hv Hy Hgap.
    pose proof (target_of_existing_query date_time_eastern query
                  Hp Hv Hy Hgap) as Hq.
    rewrite Ht in Hq. apply Ok_injective in Hq. exact Hq.
Qed.

End Window.

(** A query at 2:00 PM on January 15, 2026, in standard time: it is its
    own target, and the booking at 19:30 UTC, 2:30 PM Eastern, is kept
    with a difference of exactly 30 minutes. *)
Lemma window_of_thirty_minutes_witness :
  ((exists d,
       In (Scenario.booking_at "w" "2026-01-15T19:30:00Z" "accepted", d)
          (matching_bookings Reference.fromisoformat
             (mkdt 2026 1 15 14 0 0)
             [Scenario.booking_at "v" "2026-01-15T19:31:00Z" "accepted";
              Scenario.booking_at "w" "2026-01-15T19:30:00Z" "accepted"]))
   <-> Z.abs (14 * 60 + 30 - (14 * 60 + 0)) <= 30)
  /\ (forall d,
        In (Scenario.booking_at "w" "2026-01-15T19:30:00Z" "accepted", d)
           (matching_bookings Reference.fromisoformat
              (mkdt 2026 1 15 14 0 0)
              [Scenario.booking_at "v" "2026-01-15T19:31:00Z" "accepted";
               Scenario.booking_at "w" "2026-01-15T19:30:00Z" "accepted"]) ->
        d = Z.abs (14 * 60 + 30 - (14 * 60 + 0)))
  /\ (Z.abs (14 * 60 + 30 - (14 * 60 + 0)) = 30 ->
      In (Scenario.booking_at "w" "2026-01-15T19:30:00Z" "accepted", 30)
         (matching_bookings Reference.fromisoformat
            (mkdt 2026 1 15 14 0 0)
            [Scenario.booking_at "v" "2026-01-15T19:31:00Z" "accepted";
             Scenario.booking_at "w" "2026-01-15T19:30:00Z" "accepted"]))
  /\ (Z.abs (14 * 60 + 30 - (14 * 60 + 0)) = 31 ->
      forall d,
        ~ In (Scenario.booking_at "w" "2026-01-15T19:30:00Z" "accepted", d)
            (matching_bookings Reference.fromisoformat
               (mkdt 2026 1 15 14 0 0)
               [Scenario.booking_at "v" "2026-01-15T19:31:00Z" "accepted";
                Scenario.booking_at "w" "2026-01-15T19:30:00Z" "accepted"]))
  /\ (valid (mkdt 2026 1 15 14 0 0) = true ->
      2007 <= year (mkdt 2026 1 15 14 0 0) <= 2037 ->
      in_spring_gap (mkdt 2026 1 15 14 0 0) = false ->
      mkdt 2026 1 15 14 0 0 = mkdt 2026 1 15 14 0 0).
Proof.
  apply (window_of_thirty_minutes
           Reference.strptime Reference.fromisoformat
           reference_reads_utc_text
           "2026-01-15 14:00" (mkdt 2026 1 15 14 0 0)
           (mkdt 2026 1 15 14 0 0)
           [Scenario.booking_at "v" "2026-01-15T19:31:00Z" "accepted";
            Scenario.booking_at "w" "2026-01-15T19:30:00Z" "accepted"]
           (Scenario.booking_at "w" "2026-01-15T19:30:00Z" "accepted")
           (mkdt 2026 1 15 14 30 0)).
  - vm_compute. reflexivity.
  - vm_compute. reflexivity.
  - simpl. auto.
  - reflexivity.
  - discriminate.
  - vm_compute. reflexivity.
  - reflexivity.
Defined.

(** C2, as stated, fails.  The query 02:30 on March 8, 2026 lies in the
    hour skipped when daylight time starts, and lines 380-388 turn it into
    the target 03:30.  The booking that starts at 07:01 UTC, 03:01
    Eastern, is on the date of the query and
    [|3*60 + 1 - 2*60 - 30| = 31] minutes from it, yet it is kept, with
    the difference 29 to the target, and it is the booking selected. *)
Lemma window_measured_from_the_target :
  parse_local_datetime Reference.strptime "2026-03-08 02:30"
  = Ok (mkdt 2026 3 8 2 30 0)
  /\ resolve_target Reference.strptime Reference.fromisoformat
       "2026-03-08 02:30"
     = Ok (mkdt 2026 3 8 3 30 0)
  /\ is_cancelled (Scenario.booking_at "late" "2026-03-08T07:01:00Z"
                     "accepted") = false
  /\ booking_eastern Reference.fromisoformat "2026-03-08T07:01:00Z"
     = Ok (mkdt 2026 3 8 3 1 0)
  /\ date_eqb (mkdt 2026 3 8 3 1 0) (mkdt 2026 3 8 2 30 0) = true
  /\ Z.abs (3 * 60 + 1 - (2 * 60 + 30)) = 31
  /\ matching_bookings Reference.fromisoformat (mkdt 2026 3 8 3 30 0)
       [Scenario.booking_at "late" "2026-03-08T07:01:00Z" "accepted"]
     = [(Scenario.booking_at "late" "2026-03-08T07:01:00Z" "accepted", 29)]
  /\ best_match Reference.fromisoformat (mkdt 2026 3 8 3 30 0)
       [Scenario.booking_at "late" "2026-03-08T07:01:00Z" "accepted"]
     = Some (Scenario.booking_at "late" "2026-03-08T07:01:00Z" "accepted",
             29).
Proof. repeat split; vm_compute; reflexivity. Qed.

(** The booking one minute further than the witness's, at 2:31 PM, is not
    kept. *)
Example one_minute_outside_in_winter :
  booking_eastern Reference.fromisoformat "2026-01-15T19:31:00Z"
  = Ok (mkdt 2026 1 15 14 31 0)
  /\ Z.abs (14 * 60 + 31 - (14 * 60 + 0)) = 31
  /\ match_one Reference.fromisoformat (mkdt 2026 1 15 14 0 0)
       (Scenario.booking_at "v" "2026-01-15T19:31:00Z" "accepted")
     = None.
Proof. repeat split; vm_compute; reflexivity. Qed.

End WindowSpec.
